(** * Passkey relying-party backend: ceremony orchestration

A shallow embedding of
  - src/utils/kv-storage.js   (class KVStorage, the store the service loads),
  - src/utils/storage.js      (class JSONStorage, same interface on files),
  - src/services/backendService.js,
  - src/services/webauthnService.js,
  - the POST /login/complete handler of src/routes/passkey.js,
followed by the properties of the specification that concern them.

Every asynchronous function of the source is a program [Prog A]: a tree
whose nodes are the operations the function awaits (one key-value
command, one file read or write, one call of the verification
primitive) or its accesses to the fields of the two singleton services.
[run] executes such a program from a state of the world, which gives
the behaviour of one call taken alone; [interleave] executes several
programs under a schedule, switching only where the source awaits;
[serve] executes the calls of the service one after the other; and
[runFaulty] executes a call while reads and writes of the data files
fail where a list of faults says so. *)

From stdpp Require Import base option list strings gmap fin_maps.
From Stdlib Require Import ZArith Ascii String Lia.

Local Open Scope Z_scope.
Local Open Scope string_scope.

(** ** JavaScript values used by the source *)

Module Js.

(** [s.toLowerCase()] on the ASCII letters; no other character lower-cases
    to a letter of the platform names compared against below. *)
Definition lowerAscii (c : ascii) : ascii :=
  let n := nat_of_ascii c in
  if (Nat.leb 65 n && Nat.leb n 90)%bool then ascii_of_nat (n + 32) else c.

Fixpoint toLowerCase (s : string) : string :=
  match s with
  | EmptyString => EmptyString
  | String c r => String (lowerAscii c) (toLowerCase r)
  end.

(** [s.startsWith(p)] *)
Definition startsWith (s p : string) : bool := String.prefix p s.

(** [l.includes(x)] on an array of strings *)
Definition includes (l : list string) (x : string) : bool :=
  bool_decide (x ∈ l).

(** Truthiness of a value that is a string, null or undefined: the empty
    string, null and undefined are falsy. [None] stands for null and
    undefined. *)
Definition truthy (v : option string) : bool :=
  match v with
  | Some s => negb (String.eqb s "")
  | None => false
  end.

(** [a || b] where [a] is a string or nullish and [b] a string *)
Definition orStr (a : option string) (b : string) : string :=
  match a with
  | Some s => if String.eqb s "" then b else s
  | None => b
  end.

(** [a || b] where [a] is an array or nullish: every array is truthy *)
Definition orArr {A} (a : option (list A)) (b : list A) : list A :=
  match a with Some l => l | None => b end.

(** [a || b] on numbers: 0 is falsy *)
Definition orNum (a : option Z) (b : Z) : Z :=
  match a with
  | Some n => if Z.eqb n 0 then b else n
  | None => b
  end.

(** The properties every object inherits from Object.prototype. All of
    them are functions, but [__proto__], which reads as Object.prototype
    itself; each is truthy. *)
Definition objectPrototype : list string :=
  [ "constructor"; "__proto__"; "hasOwnProperty"; "isPrototypeOf";
    "propertyIsEnumerable"; "toLocaleString"; "toString"; "valueOf";
    "__defineGetter__"; "__defineSetter__"; "__lookupGetter__";
    "__lookupSetter__" ].

Definition inherited (key : string) : bool :=
  bool_decide (key ∈ objectPrototype).

(** [obj[key]] on an object parsed from JSON, its own properties being those
    of the finite map: an own property hides an inherited one. *)
Inductive Property (V : Type) :=
| Own (v : V)
| Inherited (key : string)
| Undefined.

Arguments Own {V} _.

Arguments Inherited {V} _.

Arguments Undefined {V}.

Definition get {V} (obj : gmap string V) (key : string) : Property V :=
  match obj !! key with
  | Some v => Own v
  | None => if inherited key then Inherited key else Undefined
  end.

(** [found.field], for a field that no inherited value has *)
Definition field {V F} (found : Property V) (f : V -> F) : option F :=
  match found with
  | Own v => Some (f v)
  | _ => None
  end.

(** A nullish value inside a template literal or used as a property key *)
Definition toString (v : option string) : string := default "undefined" v.

(** What [throw] carries: [new Error(message)], or the TypeError of a
    property read on null. *)
Inductive Error :=
| MkError (message : string)
| TypeError (reading : string).

Definition message (e : Error) : string :=
  match e with
  | MkError m => m
  | TypeError p => "Cannot read properties of null (reading '" +:+ p +:+ "')"
  end.

End Js.

Export Js(Error, MkError, TypeError).

(** ** Data model *)

Definition Timestamp := Z.  (* milliseconds; the source stores ISO strings of them *)
Definition Bytes := list Z.

Inductive CeremonyType := registration | authentication.

#[global] Instance CeremonyType_eq_dec : EqDecision CeremonyType.
Proof. solve_decision. Defined.

(** The payload [saveChallenge] receives *)
Record ChallengeData := {
  cd_challenge : string;
  cd_userId : option string;
  cd_username : option string;
  cd_displayName : option string;
  cd_platform : string;
  cd_type : CeremonyType;
}.

(** A stored session: the payload spread, then createdAt and expiresAt *)
Record Session := {
  s_data : ChallengeData;
  s_createdAt : Timestamp;
  s_expiresAt : Timestamp;
}.

(** The payload [savePasskey] receives *)
Record PasskeyData := {
  pk_userId : option string;
  pk_username : option string;
  pk_displayName : option string;
  pk_credentialID : Bytes;
  pk_credentialPublicKey : Bytes;
  pk_counter : Z;
  pk_credentialDeviceType : string;
  pk_credentialBackedUp : bool;
  pk_transports : option (list string);
  pk_aaguid : string;
  pk_platform : string;
  pk_registeredFrom : string;
}.

Definition withCounter (d : PasskeyData) (c : Z) : PasskeyData :=
  {| pk_userId := pk_userId d; pk_username := pk_username d;
     pk_displayName := pk_displayName d;
     pk_credentialID := pk_credentialID d;
     pk_credentialPublicKey := pk_credentialPublicKey d;
     pk_counter := c;
     pk_credentialDeviceType := pk_credentialDeviceType d;
     pk_credentialBackedUp := pk_credentialBackedUp d;
     pk_transports := pk_transports d; pk_aaguid := pk_aaguid d;
     pk_platform := pk_platform d; pk_registeredFrom := pk_registeredFrom d |}.

(** A stored passkey: the payload spread, then id, createdAt and lastUsed *)
Record Passkey := {
  p_data : PasskeyData;
  p_id : string;
  p_createdAt : Timestamp;
  p_lastUsed : Timestamp;
}.

Record UserData := {
  ud_username : option string;
  ud_displayName : option string;
}.

Record User := {
  u_data : UserData;
  u_id : string;
  u_createdAt : Timestamp;
  u_updatedAt : Timestamp;
}.

(** The relying-party fields of the WebAuthnService singleton: [this.rpName],
    [this.rpID], [this.origin], [this.timeout], [this.allowedOrigins]. *)

Module This.

Record RelyingParty := {
  rpName : string;
  rpID : string;
  origin : string;
  timeout : Z;
  allowedOrigins : list string;
}.

End This.

Abbreviation RelyingParty := This.RelyingParty.

(** config/auth-config.json *)
Record WebAuthnConfig := {
  wc_rpName : option string;
  wc_rpID : option string;
  wc_origin : option string;
  wc_timeout : option Z;
  wc_allowedOrigins : option (list string);
}.

Record BackendApi := {
  baseUrl : string;
  endpoints_signin : string;
  api_timeout : option Z;
}.

Record UserCredentials := {
  uc_username : string;
  uc_password : string;
}.

Record BackendConfig := {
  backendApi : BackendApi;
  userCredentials : gmap string UserCredentials;
  webauthn : option WebAuthnConfig;
}.

(** ** The external collaborators, by the interface the source uses *)

(** The credential response a client posts: [credential.id],
    [credential.response.transports] and the signed remainder. *)
Record Credential := {
  c_id : string;
  c_transports : option (list string);
  c_response : string;
}.

Record Descriptor := {
  d_id : Bytes;
  d_type : string;
  d_transports : list string;
}.

Record RegistrationInfo := {
  ri_credentialID : Bytes;
  ri_credentialPublicKey : Bytes;
  ri_counter : Z;
  ri_credentialDeviceType : string;
  ri_credentialBackedUp : bool;
  ri_aaguid : string;
}.

Record AuthenticationInfo := {
  newCounter : Z;
}.

(** [{ verified, registrationInfo }] and [{ verified, authenticationInfo }]:
    the info is there exactly when [verified] holds. *)
Inductive Verification (I : Type) :=
| Verified (info : I)
| NotVerified.
Arguments Verified {I} info.
Arguments NotVerified {I}.

Record RegistrationVerifyArgs := {
  rv_response : Credential;
  rv_expectedChallenge : string;
  rv_expectedOrigin : string;
  rv_expectedRPID : string;
}.

Record Authenticator := {
  a_credentialID : Bytes;
  a_credentialPublicKey : Bytes;
  a_counter : Z;
  a_transports : option (list string);
}.

Record AuthenticationVerifyArgs := {
  av_response : Credential;
  av_expectedChallenge : string;
  av_expectedOrigin : string;
  av_expectedRPID : string;
  av_authenticator : Authenticator;
}.

Record AuthenticatorSelection := {
  residentKey : string;
  userVerification : string;
  authenticatorAttachment : option string;
  requireResidentKey : bool;
}.

Record RegistrationOptionsArgs := {
  ro_rpName : string;
  ro_rpID : string;
  ro_userID : string;
  ro_userName : string;
  ro_userDisplayName : string;
  ro_timeout : Z;
  ro_attestationType : string;
  ro_excludeCredentials : list Descriptor;
  ro_authenticatorSelection : AuthenticatorSelection;
  ro_supportedAlgorithmIDs : list Z;
}.

Record AuthenticationOptionsArgs := {
  ao_timeout : Z;
  ao_allowCredentials : option (list Descriptor);
  ao_userVerification : string;
  ao_rpID : string;
}.

(** The options the primitive hands back: what it was asked for, with the
    challenge it drew. *)
Record Options (Args : Type) := {
  challenge : string;
  request : Args;
}.
Arguments challenge {Args} _.
Arguments request {Args} _.

Record ErrorBody := {
  eb_message : option string;
  eb_raw : string;
}.

(** What [axios.post] does: a 2xx response, or one of the three shapes of
    rejection the source tells apart. *)
Inductive AxiosOutcome :=
| AxiosResponse (data : string) (status : Z)
| AxiosErrorResponse (data : option ErrorBody) (status : Z)
| AxiosNoResponse
| AxiosSetupError (message : option string).

(** [username] and [password] are left out of the body when undefined *)
Record SigninRequest := {
  sr_url : string;
  sr_username : option string;
  sr_password : option string;
  sr_timeout : Z;
}.

Record Externals := {
  verifyRegistrationResponse :
    RegistrationVerifyArgs -> Error + Verification RegistrationInfo;
  verifyAuthenticationResponse :
    AuthenticationVerifyArgs -> Error + Verification AuthenticationInfo;
  randomChallenge : nat -> string;
  uuidv4 : nat -> string;
  base64url : string -> Bytes;    (* Buffer.from(s, 'base64url') *)
  axios_post : SigninRequest -> AxiosOutcome;
}.

(** ** The key-value service behind [@vercel/kv]

An entry set with [{ ex: seconds }] is gone once that many seconds have
elapsed, whether or not anything removed it. The three key prefixes of
KVStorage differ in their first character, so each of them opens a
name space of its own; the model keeps one finite map for each, indexed
by the whole key. *)

Module Kv.

Record Entry (V : Type) := {
  value : V;
  deadline : option Timestamp;
}.
Arguments value {V} _.
Arguments deadline {V} _.

Definition live {V} (now : Timestamp) (e : Entry V) : bool :=
  match deadline e with
  | Some d => (now <? d)%Z
  | None => true
  end.

Definition get {V} (now : Timestamp) (k : string) (m : gmap string (Entry V))
  : option V :=
  match m !! k with
  | Some e => if live now e then Some (value e) else None
  | None => None
  end.

Definition set {V} (now : Timestamp) (k : string) (v : V) (ex : option Z)
    (m : gmap string (Entry V)) : gmap string (Entry V) :=
  <[k := {| value := v; deadline := (fun s => now + s * 1000)%Z <$> ex |}]> m.

Definition del {V} (k : string) (m : gmap string (Entry V))
  : gmap string (Entry V) :=
  delete k m.

(** [kv.keys(prefix + "*")] *)
Definition keys {V} (now : Timestamp) (prefix : string)
    (m : gmap string (Entry V)) : list string :=
  List.filter
    (fun k => Js.startsWith k prefix && bool_decide (is_Some (get now k m)))
    (map_to_list m).*1.

End Kv.

(** ** The state of the world *)

Record World := {
  kv_passkeys : gmap string (Kv.Entry Passkey);
  kv_users : gmap string (Kv.Entry User);
  kv_sessions : gmap string (Kv.Entry Session);
  passkeyFile : gmap string Passkey;      (* data/passkeys.json *)
  userFile : gmap string User;            (* data/users.json *)
  sessionFile : gmap string Session;      (* data/sessions.json *)
  rp : RelyingParty;                      (* fields of webauthnService *)
  config : option BackendConfig;          (* backendService.config *)
  configFile : option BackendConfig;      (* config/auth-config.json, if readable *)
  drawn : nat;                            (* random values drawn so far *)
}.

Definition set_kv_passkeys (f : gmap string (Kv.Entry Passkey) -> gmap string (Kv.Entry Passkey)) (w : World) : World :=
  {| kv_passkeys := f (kv_passkeys w); kv_users := kv_users w;
     kv_sessions := kv_sessions w; passkeyFile := passkeyFile w;
     userFile := userFile w; sessionFile := sessionFile w; rp := rp w;
     config := config w; configFile := configFile w; drawn := drawn w |}.

Definition set_kv_users (f : gmap string (Kv.Entry User) -> gmap string (Kv.Entry User)) (w : World) : World :=
  {| kv_passkeys := kv_passkeys w; kv_users := f (kv_users w);
     kv_sessions := kv_sessions w; passkeyFile := passkeyFile w;
     userFile := userFile w; sessionFile := sessionFile w; rp := rp w;
     config := config w; configFile := configFile w; drawn := drawn w |}.

Definition set_kv_sessions (f : gmap string (Kv.Entry Session) -> gmap string (Kv.Entry Session)) (w : World) : World :=
  {| kv_passkeys := kv_passkeys w; kv_users := kv_users w;
     kv_sessions := f (kv_sessions w); passkeyFile := passkeyFile w;
     userFile := userFile w; sessionFile := sessionFile w; rp := rp w;
     config := config w; configFile := configFile w; drawn := drawn w |}.

Definition set_passkeyFile (m : gmap string Passkey) (w : World) : World :=
  {| kv_passkeys := kv_passkeys w; kv_users := kv_users w;
     kv_sessions := kv_sessions w; passkeyFile := m;
     userFile := userFile w; sessionFile := sessionFile w; rp := rp w;
     config := config w; configFile := configFile w; drawn := drawn w |}.

Definition set_userFile (m : gmap string User) (w : World) : World :=
  {| kv_passkeys := kv_passkeys w; kv_users := kv_users w;
     kv_sessions := kv_sessions w; passkeyFile := passkeyFile w;
     userFile := m; sessionFile := sessionFile w; rp := rp w;
     config := config w; configFile := configFile w; drawn := drawn w |}.

Definition set_sessionFile (m : gmap string Session) (w : World) : World :=
  {| kv_passkeys := kv_passkeys w; kv_users := kv_users w;
     kv_sessions := kv_sessions w; passkeyFile := passkeyFile w;
     userFile := userFile w; sessionFile := m; rp := rp w;
     config := config w; configFile := configFile w; drawn := drawn w |}.

Definition set_rp (r : RelyingParty) (w : World) : World :=
  {| kv_passkeys := kv_passkeys w; kv_users := kv_users w;
     kv_sessions := kv_sessions w; passkeyFile := passkeyFile w;
     userFile := userFile w; sessionFile := sessionFile w; rp := r;
     config := config w; configFile := configFile w; drawn := drawn w |}.

Definition set_config (c : option BackendConfig) (w : World) : World :=
  {| kv_passkeys := kv_passkeys w; kv_users := kv_users w;
     kv_sessions := kv_sessions w; passkeyFile := passkeyFile w;
     userFile := userFile w; sessionFile := sessionFile w; rp := rp w;
     config := c; configFile := configFile w; drawn := drawn w |}.

Definition draw (w : World) : World :=
  {| kv_passkeys := kv_passkeys w; kv_users := kv_users w;
     kv_sessions := kv_sessions w; passkeyFile := passkeyFile w;
     userFile := userFile w; sessionFile := sessionFile w; rp := rp w;
     config := config w; configFile := configFile w; drawn := S (drawn w) |}.

(** ** Programs *)

(** What a function of the source asks of its surroundings. The first
    group is awaited; the second is immediate. *)
Inductive Eff : Type -> Type :=
(* @vercel/kv *)
| KvKeysPasskeys (pattern_prefix : string) : Eff (list string)
| KvGetPasskey (k : string) : Eff (option Passkey)
| KvSetPasskey (k : string) (v : Passkey) : Eff unit
| KvGetUser (k : string) : Eff (option User)
| KvSetUser (k : string) (v : User) : Eff unit
| KvGetSession (k : string) : Eff (option Session)
| KvSetSession (k : string) (v : Session) (ex : option Z) : Eff unit
| KvDelSession (k : string) : Eff unit
(* fs.readFile + JSON.parse, JSON.stringify + fs.writeFile *)
| ReadPasskeyFile : Eff (gmap string Passkey)
| StorePasskeyFile (m : gmap string Passkey) : Eff bool
| ReadUserFile : Eff (gmap string User)
| StoreUserFile (m : gmap string User) : Eff bool
| ReadSessionFile : Eff (gmap string Session)
| StoreSessionFile (m : gmap string Session) : Eff bool
| ReadConfigFile : Eff (option BackendConfig)
(* @simplewebauthn/server and axios *)
| GenerateRegistrationOptions (a : RegistrationOptionsArgs)
    : Eff (Options RegistrationOptionsArgs)
| GenerateAuthenticationOptions (a : AuthenticationOptionsArgs)
    : Eff (Options AuthenticationOptionsArgs)
| VerifyRegistrationResponse (a : RegistrationVerifyArgs)
    : Eff (Error + Verification RegistrationInfo)
| VerifyAuthenticationResponse (a : AuthenticationVerifyArgs)
    : Eff (Error + Verification AuthenticationInfo)
| AxiosPost (r : SigninRequest) : Eff AxiosOutcome
(* immediate *)
| Now : Eff Timestamp
| Uuidv4 : Eff string
| Base64url (s : string) : Eff Bytes
| GetRp : Eff RelyingParty
| SetRp (r : RelyingParty) : Eff unit
| GetConfig : Eff (option BackendConfig)
| SetConfig (c : BackendConfig) : Eff unit.

Definition awaited {R} (e : Eff R) : bool :=
  match e with
  | Now | Uuidv4 | Base64url _ | GetRp | SetRp _ | GetConfig | SetConfig _ =>
      false
  | _ => true
  end.

Inductive Prog (A : Type) : Type :=
| Ret (a : A)
| Throw (e : Error)
| Vis {R : Type} (e : Eff R) (k : R -> Prog A).
Arguments Ret {A} a.
Arguments Throw {A} e.
Arguments Vis {A R} e k.

Fixpoint bind {A B} (p : Prog A) (f : A -> Prog B) : Prog B :=
  match p with
  | Ret a => f a
  | Throw e => Throw e
  | Vis e k => Vis e (fun r => bind (k r) f)
  end.

(** [try { p } catch (e) { h e }] *)
Fixpoint tryCatch {A} (p : Prog A) (h : Error -> Prog A) : Prog A :=
  match p with
  | Ret a => Ret a
  | Throw e => h e
  | Vis e k => Vis e (fun r => tryCatch (k r) h)
  end.

Definition perform {R} (e : Eff R) : Prog R := Vis e Ret.

Notation "'let*' x ':=' p 'in' q" := (bind p (fun x => q))
  (at level 10, x pattern, p at level 100, q at level 200).
Notation "p ';;' q" := (bind p (fun _ => q))
  (at level 100, q at level 200, right associativity).

Inductive Outcome (A : Type) :=
| Returned (a : A)
| Thrown (e : Error).
Arguments Returned {A} a.
Arguments Thrown {A} e.

Section Execution.

Context (ext : Externals) (now : Timestamp).

Definition handle {R} (e : Eff R) (w : World) : R * World :=
  match e in Eff R return R * World with
  | KvKeysPasskeys pre => (Kv.keys now pre (kv_passkeys w), w)
  | KvGetPasskey k => (Kv.get now k (kv_passkeys w), w)
  | KvSetPasskey k v => (tt, set_kv_passkeys (Kv.set now k v None) w)
  | KvGetUser k => (Kv.get now k (kv_users w), w)
  | KvSetUser k v => (tt, set_kv_users (Kv.set now k v None) w)
  | KvGetSession k => (Kv.get now k (kv_sessions w), w)
  | KvSetSession k v ex => (tt, set_kv_sessions (Kv.set now k v ex) w)
  | KvDelSession k => (tt, set_kv_sessions (Kv.del k) w)
  | ReadPasskeyFile => (passkeyFile w, w)
  | StorePasskeyFile m => (true, set_passkeyFile m w)
  | ReadUserFile => (userFile w, w)
  | StoreUserFile m => (true, set_userFile m w)
  | ReadSessionFile => (sessionFile w, w)
  | StoreSessionFile m => (true, set_sessionFile m w)
  | ReadConfigFile => (configFile w, w)
  | GenerateRegistrationOptions a =>
      ({| challenge := randomChallenge ext (drawn w); request := a |}, draw w)
  | GenerateAuthenticationOptions a =>
      ({| challenge := randomChallenge ext (drawn w); request := a |}, draw w)
  | VerifyRegistrationResponse a => (verifyRegistrationResponse ext a, w)
  | VerifyAuthenticationResponse a => (verifyAuthenticationResponse ext a, w)
  | AxiosPost r => (axios_post ext r, w)
  | Now => (now, w)
  | Uuidv4 => (uuidv4 ext (drawn w), draw w)
  | Base64url s => (base64url ext s, w)
  | GetRp => (rp w, w)
  | SetRp r => (tt, set_rp r w)
  | GetConfig => (config w, w)
  | SetConfig c => (tt, set_config (Some c) w)
  end.

(** One call, taken alone *)
Fixpoint run {A} (p : Prog A) (w : World) : Outcome A * World :=
  match p with
  | Ret a => (Returned a, w)
  | Throw e => (Thrown e, w)
  | Vis e k => let '(r, w') := handle e w in run (k r) w'
  end.

End Execution.

(** ** The storage interface

Both storage classes export the same methods; the service reaches them
through [require('../utils/kv-storage')]. *)

Record Storage := {
  getPasskeys : option string -> Prog (list (option Passkey));
  getPasskeyById : string -> Prog (option Passkey);
  savePasskey : string -> PasskeyData -> Prog bool;
  updatePasskeyLastUsed : string -> Prog bool;
  getUser : string -> Prog (option User);
  saveUser : string -> UserData -> Prog bool;
  saveChallenge : string -> ChallengeData -> Prog bool;
  getChallenge : string -> Prog (option Session);
  deleteChallenge : string -> Prog bool;
  cleanupExpiredSessions : Prog bool;
}.

Definition fiveMinutes : Z := 5 * 60 * 1000.

(** *** class KVStorage (kv-storage.js) *)

Module KVStorage.

Definition passkeyPrefix := "passkeys:".
Definition userPrefix := "users:".
Definition sessionPrefix := "sessions:".

Definition key (prefix id : string) : string := prefix +:+ id.

(** The loop of [getPasskeys]: [passkeys] is the array pushed so far. A
    key whose entry is gone by the time it is read yields null, which
    [item.userId] cannot be read from, and which is pushed as it is when
    no userId was given. *)
Fixpoint getPasskeys_loop (userId : option string) (keys : list string)
    (passkeys : list (option Passkey)) : Prog (list (option Passkey)) :=
  match keys with
  | [] => Ret passkeys
  | k :: rest =>
      let* item := perform (KvGetPasskey k) in
      if negb (Js.truthy userId) then
        getPasskeys_loop userId rest (passkeys ++ [item])
      else
        match item with
        | None => Throw (TypeError "userId")
        | Some p =>
            if decide (pk_userId (p_data p) = userId)
            then getPasskeys_loop userId rest (passkeys ++ [item])
            else getPasskeys_loop userId rest passkeys
        end
  end.

Definition getPasskeys (userId : option string)
  : Prog (list (option Passkey)) :=
  let* keys := perform (KvKeysPasskeys passkeyPrefix) in
  getPasskeys_loop userId keys [].

Definition getPasskeyById (passkeyId : string) : Prog (option Passkey) :=
  perform (KvGetPasskey (key passkeyPrefix passkeyId)).

Definition savePasskey (passkeyId : string) (passkeyData : PasskeyData)
  : Prog bool :=
  let* created := perform Now in
  let* used := perform Now in
  let data := {| p_data := passkeyData; p_id := passkeyId;
                 p_createdAt := created; p_lastUsed := used |} in
  perform (KvSetPasskey (key passkeyPrefix passkeyId) data) ;;
  Ret true.

Definition updatePasskeyLastUsed (passkeyId : string) : Prog bool :=
  let* passkey := getPasskeyById passkeyId in
  match passkey with
  | None => Ret false
  | Some passkey =>
      let* used := perform Now in
      perform (KvSetPasskey (key passkeyPrefix passkeyId)
                 {| p_data := p_data passkey; p_id := p_id passkey;
                    p_createdAt := p_createdAt passkey;
                    p_lastUsed := used |}) ;;
      Ret true
  end.

Definition getUser (userId : string) : Prog (option User) :=
  perform (KvGetUser (key userPrefix userId)).

Definition saveUser (userId : string) (userData : UserData) : Prog bool :=
  let* existing := getUser userId in
  let* created :=
    match existing with
    | Some u => Ret (u_createdAt u)
    | None => perform Now
    end in
  let* updated := perform Now in
  perform (KvSetUser (key userPrefix userId)
             {| u_data := userData; u_id := userId;
                u_createdAt := created; u_updatedAt := updated |}) ;;
  Ret true.

Definition saveChallenge (sessionId : string) (challengeData : ChallengeData)
  : Prog bool :=
  let* created := perform Now in
  let* t := perform Now in
  let session := {| s_data := challengeData; s_createdAt := created;
                    s_expiresAt := (t + fiveMinutes)%Z |} in
  perform (KvSetSession (key sessionPrefix sessionId) session
             (Some (5 * 60)%Z)) ;;
  Ret true.

Definition getChallenge (sessionId : string) : Prog (option Session) :=
  perform (KvGetSession (key sessionPrefix sessionId)).

Definition deleteChallenge (sessionId : string) : Prog bool :=
  perform (KvDelSession (key sessionPrefix sessionId)) ;;
  Ret true.

Definition cleanupExpiredSessions : Prog bool := Ret false.

Definition storage : Storage :=
  Build_Storage getPasskeys getPasskeyById savePasskey
    updatePasskeyLastUsed getUser saveUser saveChallenge getChallenge
    deleteChallenge cleanupExpiredSessions.

End KVStorage.

(** *** class JSONStorage (storage.js)

An id is looked up among the own keys of the object read from the file:
this class is embedded for ids that do not name a property of
Object.prototype ("constructor", "__proto__", ...), as the uuids are that
the service makes for sessions and passkeys. [Js.get] is the lookup
without that restriction; [JSONStorageRest.deletePasskey] and the backend
service use it. *)

Module JSONStorage.

(** [Object.values(passkeys)] *)
Definition values {V} (m : gmap string V) : list V := (map_to_list m).*2.

Definition getPasskeys (userId : option string)
  : Prog (list (option Passkey)) :=
  let* passkeys := perform ReadPasskeyFile in
  if Js.truthy userId then
    Ret (Some <$> List.filter
           (fun passkey => bool_decide (pk_userId (p_data passkey) = userId))
           (values passkeys))
  else
    Ret (Some <$> values passkeys).

Definition getPasskeyById (passkeyId : string) : Prog (option Passkey) :=
  let* passkeys := perform ReadPasskeyFile in
  Ret (passkeys !! passkeyId).

Definition savePasskey (passkeyId : string) (passkeyData : PasskeyData)
  : Prog bool :=
  let* passkeys := perform ReadPasskeyFile in
  let* created := perform Now in
  let* used := perform Now in
  perform (StorePasskeyFile
    (<[passkeyId := {| p_data := passkeyData; p_id := passkeyId;
                       p_createdAt := created; p_lastUsed := used |}]>
       passkeys)).

Definition updatePasskeyLastUsed (passkeyId : string) : Prog bool :=
  let* passkeys := perform ReadPasskeyFile in
  match passkeys !! passkeyId with
  | Some passkey =>
      let* used := perform Now in
      perform (StorePasskeyFile
        (<[passkeyId := {| p_data := p_data passkey; p_id := p_id passkey;
                           p_createdAt := p_createdAt passkey;
                           p_lastUsed := used |}]> passkeys))
  | None => Ret false
  end.

Definition getUser (userId : string) : Prog (option User) :=
  let* users := perform ReadUserFile in
  Ret (users !! userId).

Definition saveUser (userId : string) (userData : UserData) : Prog bool :=
  let* users := perform ReadUserFile in
  let* created :=
    match users !! userId with
    | Some u => Ret (u_createdAt u)
    | None => perform Now
    end in
  let* updated := perform Now in
  perform (StoreUserFile
    (<[userId := {| u_data := userData; u_id := userId;
                    u_createdAt := created; u_updatedAt := updated |}]>
       users)).

Definition saveChallenge (sessionId : string) (challengeData : ChallengeData)
  : Prog bool :=
  let* sessions := perform ReadSessionFile in
  let* created := perform Now in
  let* t := perform Now in
  perform (StoreSessionFile
    (<[sessionId := {| s_data := challengeData; s_createdAt := created;
                       s_expiresAt := (t + fiveMinutes)%Z |}]> sessions)).

Definition deleteChallenge (sessionId : string) : Prog bool :=
  let* sessions := perform ReadSessionFile in
  match sessions !! sessionId with
  | Some _ => perform (StoreSessionFile (delete sessionId sessions))
  | None => Ret false
  end.

(** [t > new Date(session.expiresAt)], which the sweep writes
    [new Date(session.expiresAt) < t] *)
Definition expired (t : Timestamp) (session : Session) : bool :=
  (s_expiresAt session <? t)%Z.

Definition getChallenge (sessionId : string) : Prog (option Session) :=
  let* sessions := perform ReadSessionFile in
  match sessions !! sessionId with
  | None => Ret None
  | Some session =>
      let* t := perform Now in
      if expired t session then
        deleteChallenge sessionId ;;
        Ret None
      else
        Ret (Some session)
  end.

Definition cleanupExpiredSessions : Prog bool :=
  let* sessions := perform ReadSessionFile in
  let* t := perform Now in
  let kept := filter (fun kv => expired t kv.2 = false) sessions in
  let cleaned := existsb (expired t) (values sessions) in
  (if cleaned then perform (StoreSessionFile kept) else Ret true) ;;
  Ret cleaned.

Definition storage : Storage :=
  Build_Storage getPasskeys getPasskeyById savePasskey
    updatePasskeyLastUsed getUser saveUser saveChallenge getChallenge
    deleteChallenge cleanupExpiredSessions.

End JSONStorage.

(** ** class BackendService (backendService.js) *)

Record BackendError := {
  be_message : string;
  be_status : Z;
  be_data : option ErrorBody;
}.

Inductive BackendResult :=
| BackendSuccess (data : string) (status : Z)
| BackendFailure (error : BackendError).

Module BackendService.

Definition loadConfig : Prog unit :=
  let* configData := perform ReadConfigFile in
  match configData with
  | Some c => perform (SetConfig c)
  | None => Throw (MkError "Backend service configuration not found")
  end.

Definition ensureConfigLoaded : Prog unit :=
  let* c := perform GetConfig in
  match c with
  | None => loadConfig
  | Some _ => Ret tt
  end.

(** [this.config], dereferenced *)
Definition thisConfig (reading : string) : Prog BackendConfig :=
  let* c := perform GetConfig in
  match c with
  | Some c => Ret c
  | None => Throw (TypeError reading)
  end.

Definition authenticateUser (userId : option string) : Prog BackendResult :=
  ensureConfigLoaded ;;
  let* cfg := thisConfig "userCredentials" in
  match Js.get (userCredentials cfg) (Js.toString userId) with
  | Js.Undefined =>
      Throw (MkError ("No credentials configured for user: "
                      +:+ Js.toString userId))
  | userCredentials =>
      let api := backendApi cfg in
      let signinUrl := baseUrl api +:+ endpoints_signin api in
      let* response := perform (AxiosPost
        {| sr_url := signinUrl;
           sr_username := Js.field userCredentials uc_username;
           sr_password := Js.field userCredentials uc_password;
           sr_timeout := Js.orNum (api_timeout api) 30000 |}) in
      match response with
      | AxiosResponse data status => Ret (BackendSuccess data status)
      | AxiosErrorResponse data status =>
          Ret (BackendFailure
            {| be_message :=
                 Js.orStr (data ≫= eb_message) "Authentication failed";
               be_status := status; be_data := data |})
      | AxiosNoResponse =>
          Ret (BackendFailure
            {| be_message := "Unable to connect to backend service";
               be_status := 503; be_data := None |})
      | AxiosSetupError m =>
          Ret (BackendFailure
            {| be_message := Js.orStr m "Unknown error occurred";
               be_status := 500; be_data := None |})
      end
  end.

(** [this.config.userCredentials[userId] || null]: [Js.Undefined] is the
    null *)
Definition getUserCredentials (userId : option string)
  : Prog (Js.Property UserCredentials) :=
  ensureConfigLoaded ;;
  let* cfg := thisConfig "userCredentials" in
  Ret (Js.get (userCredentials cfg) (Js.toString userId)).

(** [Object.keys(this.config.userCredentials)] *)
Definition getAvailableUsers : Prog (list string) :=
  ensureConfigLoaded ;;
  let* cfg := thisConfig "userCredentials" in
  Ret (map_to_list (userCredentials cfg)).*1.

Definition getWebAuthnConfig : Prog (option WebAuthnConfig) :=
  ensureConfigLoaded ;;
  let* cfg := thisConfig "webauthn" in
  Ret (webauthn cfg).

End BackendService.

(** ** class WebAuthnService (webauthnService.js) *)

Record RegistrationResult := {
  rr_verified : bool;
  rr_passkeyId : string;
  rr_passkey : PasskeyData;
}.

Record AuthenticationResult := {
  ar_verified : bool;
  ar_userId : option string;
  ar_username : option string;
  ar_passkeyId : string;
  ar_passkey : Passkey;
}.

Module WebAuthnService.

(** The fields the constructor sets *)
Definition initial : RelyingParty :=
  {| This.rpName := "Passkey Backend API";
     This.rpID := "localhost";
     This.origin := "http://localhost:3000";
     This.timeout := 60000;
     This.allowedOrigins :=
       [ "http://localhost:3000";
         "https://localhost:3000";
         "android:apk-key-hash:REPLACE_WITH_YOUR_ANDROID_APP_SIGNATURE_HASH";
         "ios:bundle-id:REPLACE_WITH_YOUR_IOS_BUNDLE_ID" ] |}.

Definition initializeConfig : Prog unit :=
  tryCatch
    (let* config := BackendService.getWebAuthnConfig in
     match config with
     | None => Throw (TypeError "rpName")
     | Some config =>
         let* this := perform GetRp in
         perform (SetRp
           {| This.rpName := Js.orStr (wc_rpName config) (This.rpName this);
              This.rpID := Js.orStr (wc_rpID config) (This.rpID this);
              This.origin := Js.orStr (wc_origin config) (This.origin this);
              This.timeout := Js.orNum (wc_timeout config) (This.timeout this);
              This.allowedOrigins :=
                Js.orArr (wc_allowedOrigins config) (This.allowedOrigins this) |})
     end)
    (fun error => Ret tt).

Definition getAuthenticatorSelection (platform : string)
  : AuthenticatorSelection :=
  let p := Js.toLowerCase platform in
  if String.eqb p "android" then
    {| residentKey := "preferred"; userVerification := "preferred";
       authenticatorAttachment := Some "platform";
       requireResidentKey := false |}
  else if String.eqb p "ios" then
    {| residentKey := "preferred"; userVerification := "preferred";
       authenticatorAttachment := Some "platform";
       requireResidentKey := false |}
  else
    {| residentKey := "preferred"; userVerification := "preferred";
       authenticatorAttachment := None;
       requireResidentKey := false |}.

Definition getTransportsForPlatform (originalTransports : option (list string))
    (platform : string) : list string :=
  let p := Js.toLowerCase platform in
  if String.eqb p "android" then
    Js.orArr originalTransports ["internal"; "hybrid"; "nfc"; "ble"; "usb"]
  else if String.eqb p "ios" then
    Js.orArr originalTransports ["internal"; "hybrid"]
  else
    Js.orArr originalTransports ["internal"; "hybrid"; "usb"; "nfc"; "ble"].

Definition isValidOrigin (this : RelyingParty) (origin platform : string)
  : bool :=
  if Js.includes (This.allowedOrigins this) origin then true
  else
    let p := Js.toLowerCase platform in
    if String.eqb p "android" then
      Js.startsWith origin "android:apk-key-hash:"
    else if String.eqb p "ios" then
      Js.startsWith origin "ios:bundle-id:"
    else if String.eqb p "web" then
      Js.startsWith origin "http://" || Js.startsWith origin "https://"
    else false.

(** [passkey => ({ id, type, transports })] *)
Definition descriptor (platform : string) (passkey : Passkey) : Descriptor :=
  {| d_id := pk_credentialID (p_data passkey);
     d_type := "public-key";
     d_transports :=
       getTransportsForPlatform (pk_transports (p_data passkey)) platform |}.

(** [passkeys.map(descriptor)]; a null element has no [credentialID] to
    read. *)
Fixpoint descriptors (platform : string) (passkeys : list (option Passkey))
  : Prog (list Descriptor) :=
  match passkeys with
  | [] => Ret []
  | None :: _ => Throw (TypeError "credentialID")
  | Some passkey :: rest =>
      let* ds := descriptors platform rest in
      Ret (descriptor platform passkey :: ds)
  end.

(** [allPasskeys.find(p => Buffer.from(p.credentialID).equals(id))] *)
Fixpoint find (id : Bytes) (allPasskeys : list (option Passkey))
  : Prog (option Passkey) :=
  match allPasskeys with
  | [] => Ret None
  | None :: _ => Throw (TypeError "credentialID")
  | Some p :: rest =>
      if bool_decide (pk_credentialID (p_data p) = id) then Ret (Some p)
      else find id rest
  end.

(** [expectedOrigin], as both completions determine it *)
Definition expectedOrigin (this : RelyingParty) (origin : option string)
    (platform : string) : Prog string :=
  let expected := Js.orStr origin (This.origin this) in
  if negb (String.eqb platform "web") && Js.truthy origin then
    if negb (isValidOrigin this (Js.toString origin) platform) then
      Throw (MkError ("Invalid origin for " +:+ platform +:+ " platform: "
                      +:+ Js.toString origin))
    else Ret (Js.toString origin)
  else Ret expected.

Section WithStorage.

Context (storage : Storage).

Definition generateRegistrationOptions (userId username : string)
    (displayName : option string) (platform : string)
  : Prog (Options RegistrationOptionsArgs * string) :=
  initializeConfig ;;
  let* existingPasskeys := getPasskeys storage (Some userId) in
  let* excludeCredentials := descriptors platform existingPasskeys in
  let authenticatorSelection := getAuthenticatorSelection platform in
  let* this := perform GetRp in
  let* options := perform (GenerateRegistrationOptions
    {| ro_rpName := This.rpName this;
       ro_rpID := This.rpID this;
       ro_userID := userId;
       ro_userName := username;
       ro_userDisplayName := Js.orStr displayName username;
       ro_timeout := This.timeout this;
       ro_attestationType := "none";
       ro_excludeCredentials := excludeCredentials;
       ro_authenticatorSelection := authenticatorSelection;
       ro_supportedAlgorithmIDs := [-7; -257; -35; -36; -37; -38; -39]%Z |}) in
  let* sessionId := perform Uuidv4 in
  saveChallenge storage sessionId
    {| cd_challenge := challenge options;
       cd_userId := Some userId;
       cd_username := Some username;
       cd_displayName := displayName;
       cd_platform := platform;
       cd_type := registration |} ;;
  Ret (options, sessionId).

Definition verifyRegistration (sessionId : string) (credential : Credential)
    (userId : string) (origin : option string) (platform : string)
  : Prog RegistrationResult :=
  initializeConfig ;;
  let* challengeData := getChallenge storage sessionId in
  match challengeData with
  | None => Throw (MkError "Invalid or expired registration session")
  | Some session =>
      let challengeData := s_data session in
      if negb (bool_decide (cd_type challengeData = registration)) then
        Throw (MkError "Invalid or expired registration session")
      else if negb (bool_decide (cd_userId challengeData = Some userId)) then
        Throw (MkError "User ID mismatch")
      else
        let* this := perform GetRp in
        let* expectedOrigin := expectedOrigin this origin platform in
        let* verification := perform (VerifyRegistrationResponse
          {| rv_response := credential;
             rv_expectedChallenge := cd_challenge challengeData;
             rv_expectedOrigin := expectedOrigin;
             rv_expectedRPID := This.rpID this |}) in
        match verification with
        | inl thrown => Throw thrown
        | inr NotVerified =>
            Throw (MkError "Registration verification failed")
        | inr (Verified registrationInfo) =>
            let* passkeyId := perform Uuidv4 in
            let platform' :=
              Js.orStr (Some (cd_platform challengeData)) platform in
            let passkeyData :=
              {| pk_userId := cd_userId challengeData;
                 pk_username := cd_username challengeData;
                 pk_displayName := cd_displayName challengeData;
                 pk_credentialID := ri_credentialID registrationInfo;
                 pk_credentialPublicKey :=
                   ri_credentialPublicKey registrationInfo;
                 pk_counter := ri_counter registrationInfo;
                 pk_credentialDeviceType :=
                   ri_credentialDeviceType registrationInfo;
                 pk_credentialBackedUp :=
                   ri_credentialBackedUp registrationInfo;
                 pk_transports :=
                   Some (Js.orArr (c_transports credential)
                           (getTransportsForPlatform None platform'));
                 pk_aaguid := ri_aaguid registrationInfo;
                 pk_platform := platform';
                 pk_registeredFrom := expectedOrigin |} in
            savePasskey storage passkeyId passkeyData ;;
            saveUser storage (Js.toString (cd_userId challengeData))
              {| ud_username := cd_username challengeData;
                 ud_displayName := cd_displayName challengeData |} ;;
            deleteChallenge storage sessionId ;;
            Ret {| rr_verified := true; rr_passkeyId := passkeyId;
                   rr_passkey := passkeyData |}
        end
  end.

Definition generateAuthenticationOptions (userId : option string)
    (platform : string)
  : Prog (Options AuthenticationOptionsArgs * string) :=
  initializeConfig ;;
  let* allowCredentials :=
    if Js.truthy userId then
      let* userPasskeys := getPasskeys storage userId in
      descriptors platform userPasskeys
    else
      let* allPasskeys := getPasskeys storage None in
      descriptors platform allPasskeys in
  let* this := perform GetRp in
  let* options := perform (GenerateAuthenticationOptions
    {| ao_timeout := This.timeout this;
       ao_allowCredentials :=
         if (0 <? List.length allowCredentials)%nat then Some allowCredentials
         else None;
       ao_userVerification := "preferred";
       ao_rpID := This.rpID this |}) in
  let* sessionId := perform Uuidv4 in
  saveChallenge storage sessionId
    {| cd_challenge := challenge options;
       cd_userId := userId;
       cd_username := None;
       cd_displayName := None;
       cd_platform := platform;
       cd_type := authentication |} ;;
  Ret (options, sessionId).

Definition verifyAuthentication (sessionId : string)
    (credential : Credential) (origin : option string)
  : Prog AuthenticationResult :=
  initializeConfig ;;
  let* challengeData := getChallenge storage sessionId in
  match challengeData with
  | None => Throw (MkError "Invalid or expired authentication session")
  | Some session =>
      let challengeData := s_data session in
      if negb (bool_decide (cd_type challengeData = authentication)) then
        Throw (MkError "Invalid or expired authentication session")
      else
        let* allPasskeys := getPasskeys storage None in
        let* id := perform (Base64url (c_id credential)) in
        let* passkey := find id allPasskeys in
        match passkey with
        | None => Throw (MkError "Passkey not found")
        | Some passkey =>
            let platform :=
              Js.orStr (Some (cd_platform challengeData)) "web" in
            let* this := perform GetRp in
            let* expectedOrigin := expectedOrigin this origin platform in
            let* verification := perform (VerifyAuthenticationResponse
              {| av_response := credential;
                 av_expectedChallenge := cd_challenge challengeData;
                 av_expectedOrigin := expectedOrigin;
                 av_expectedRPID := This.rpID this;
                 av_authenticator :=
                   {| a_credentialID := pk_credentialID (p_data passkey);
                      a_credentialPublicKey :=
                        pk_credentialPublicKey (p_data passkey);
                      a_counter := pk_counter (p_data passkey);
                      a_transports := pk_transports (p_data passkey) |} |}) in
            match verification with
            | inl thrown => Throw thrown
            | inr NotVerified =>
                Throw (MkError "Authentication verification failed")
            | inr (Verified authenticationInfo) =>
                savePasskey storage (p_id passkey)
                  (withCounter (p_data passkey)
                     (newCounter authenticationInfo)) ;;
                updatePasskeyLastUsed storage (p_id passkey) ;;
                deleteChallenge storage sessionId ;;
                Ret {| ar_verified := true;
                       ar_userId := pk_userId (p_data passkey);
                       ar_username := pk_username (p_data passkey);
                       ar_passkeyId := p_id passkey;
                       ar_passkey := passkey |}
            end
        end
  end.

End WithStorage.

End WebAuthnService.

(** ** POST /api/passkeys/login/complete (routes/passkey.js) *)

Record LoginCompleteRequest := {
  body_sessionId : string;
  body_credential : Credential;
  body_origin : option string;
  body_skipBackendAuth : bool;
  header_Origin : option string;
  header_Referer : option string;
}.

Record UserInfo := {
  ui_userId : option string;
  ui_username : option string;
  ui_passkeyId : string;
}.

(** [error] is [backendResult.error] in one branch and a message in two *)
Inductive BackendAuthError :=
| ErrorObject (e : BackendError)
| ErrorMessage (m : string).

Record BackendAuthentication := {
  ba_skipped : option bool;
  ba_success : option bool;
  ba_message : string;
  ba_data : option string;
  ba_status : option Z;
  ba_error : option BackendAuthError;
  ba_availableUsers : option (list string);
}.

Record LoginBody := {
  success : bool;
  message : string;
  user : UserInfo;
  authenticatedAt : Timestamp;
  backendAuthentication : BackendAuthentication;
  warning : option string;
}.

Inductive Response :=
| Json (body : LoginBody)                 (* res.json(...) *)
| Status401 (message : string)            (* res.status(401).json(...) *)
| Next (error : Error).                   (* next(error) *)

Module Routes.

(** [a || b] where both may be nullish *)
Definition or (a b : option string) : option string :=
  if Js.truthy a then a else b.

(** [origin || req.get('Origin') || req.get('Referer')] *)
Definition requestOrigin (req : LoginCompleteRequest) : option string :=
  or (or (body_origin req) (header_Origin req)) (header_Referer req).

Section WithStorage.

Context (storage : Storage).

Definition loginComplete (req : LoginCompleteRequest) : Prog Response :=
  tryCatch
    (let* result := WebAuthnService.verifyAuthentication storage
                      (body_sessionId req) (body_credential req)
                      (requestOrigin req) in
     if ar_verified result then
       let* authenticatedAt := perform Now in
       let baseResponse backendAuthentication warning :=
         Json {| success := true;
                 message := "Authentication successful";
                 user := {| ui_userId := ar_userId result;
                            ui_username := ar_username result;
                            ui_passkeyId := ar_passkeyId result |};
                 authenticatedAt := authenticatedAt;
                 backendAuthentication := backendAuthentication;
                 warning := warning |} in
       if body_skipBackendAuth req then
         Ret (baseResponse
           {| ba_skipped := Some true; ba_success := None;
              ba_message := "Backend authentication skipped by request";
              ba_data := None; ba_status := None; ba_error := None;
              ba_availableUsers := None |}
           None)
       else
         tryCatch
           (let* backendResult :=
              BackendService.authenticateUser (ar_userId result) in
            match backendResult with
            | BackendSuccess data status =>
                Ret (baseResponse
                  {| ba_skipped := None; ba_success := Some true;
                     ba_message := "Backend signin successful";
                     ba_data := Some data; ba_status := Some status;
                     ba_error := None; ba_availableUsers := None |}
                  None)
            | BackendFailure error =>
                Ret (baseResponse
                  {| ba_skipped := None; ba_success := Some false;
                     ba_message := "Backend signin failed";
                     ba_data := None; ba_status := None;
                     ba_error := Some (ErrorObject error);
                     ba_availableUsers := None |}
                  (Some "Passkey authentication successful but backend signin failed"))
            end)
           (fun backendError =>
              tryCatch
                (let* userCredentials :=
                   BackendService.getUserCredentials (ar_userId result) in
                 match userCredentials with
                 | Js.Undefined =>
                     let* availableUsers :=
                       BackendService.getAvailableUsers in
                     Ret (baseResponse
                       {| ba_skipped := None; ba_success := Some false;
                          ba_message :=
                            "No backend credentials configured for user: "
                            +:+ Js.toString (ar_userId result);
                          ba_data := None; ba_status := None;
                          ba_error := None;
                          ba_availableUsers := Some availableUsers |}
                       (Some "Passkey authentication successful but no backend credentials configured"))
                 | _ =>
                     Ret (baseResponse
                       {| ba_skipped := None; ba_success := Some false;
                          ba_message := "Backend service error";
                          ba_data := None; ba_status := None;
                          ba_error :=
                            Some (ErrorMessage (Js.message backendError));
                          ba_availableUsers := None |}
                       (Some "Passkey authentication successful but backend service unavailable"))
                 end)
                (fun credentialError =>
                   Ret (baseResponse
                     {| ba_skipped := None; ba_success := Some false;
                        ba_message := "Backend service unavailable";
                        ba_data := None; ba_status := None;
                        ba_error :=
                          Some (ErrorMessage (Js.message credentialError));
                        ba_availableUsers := None |}
                     (Some "Passkey authentication successful but backend service unavailable"))))
     else
       Ret (Status401 "Authentication failed"))
    (fun error => Ret (Next error)).

End WithStorage.

End Routes.

(** ** Calls in flight together

A call runs without interruption from one awaited operation to the
next; between two awaited operations of one call, other calls may take
their turns. [turn] advances a call by one awaited operation, with the
immediate steps around it. *)

Section Interleaving.

Context (ext : Externals) (now : Timestamp).

Fixpoint settle {A} (p : Prog A) (w : World) : Prog A * World :=
  match p with
  | Vis e k =>
      if awaited e then (p, w)
      else let '(r, w') := handle ext now e w in settle (k r) w'
  | _ => (p, w)
  end.

Definition turn {A} (p : Prog A) (w : World) : Prog A * World :=
  match settle p w with
  | (Vis e k, w1) => let '(r, w2) := handle ext now e w1 in settle (k r) w2
  | done => done
  end.

(** [schedule] names, turn after turn, the call that proceeds *)
Fixpoint interleave {A} (schedule : list nat) (calls : list (Prog A))
    (w : World) : list (Prog A) * World :=
  match schedule with
  | [] => (calls, w)
  | i :: rest =>
      match calls !! i with
      | Some p =>
          let '(p', w') := turn p w in
          interleave rest (<[i := p']> calls) w'
      | None => interleave rest calls w
      end
  end.

Definition finished {A} (p : Prog A) : option (Outcome A) :=
  match p with
  | Ret a => Some (Returned a)
  | Throw e => Some (Thrown e)
  | Vis _ _ => None
  end.

End Interleaving.

(** ** Vocabulary of the properties *)

(** The errors of the ceremony, by the message the source throws *)

Module Errors.

Definition SessionExpiredOrInvalid (t : CeremonyType) : Error :=
  match t with
  | registration => MkError "Invalid or expired registration session"
  | authentication => MkError "Invalid or expired authentication session"
  end.

Definition UserMismatch : Error := MkError "User ID mismatch".

Definition RegistrationVerificationFailed : Error :=
  MkError "Registration verification failed".

Definition AuthenticationVerificationFailed : Error :=
  MkError "Authentication verification failed".

Definition CredentialNotFound : Error := MkError "Passkey not found".

End Errors.

(** The world once [initializeConfig] has run *)
Definition configured (ext : Externals) (now : Timestamp) (w : World) : World :=
  (run ext now WebAuthnService.initializeConfig w).2.

(** The credentials a user owns among [l]; all of [l] without a userId *)
Definition owned (userId : option string) (l : list Passkey) : list Passkey :=
  if Js.truthy userId then
    List.filter (fun p => bool_decide (pk_userId (p_data p) = userId)) l
  else l.

(** The credentials the key-value store lists at [now] *)
Definition kv_stored (now : Timestamp) (w : World) : list Passkey :=
  omap (fun k => Kv.get now k (kv_passkeys w))
    (Kv.keys now KVStorage.passkeyPrefix (kv_passkeys w)).

(** The credentials of the passkey file *)
Definition file_stored (w : World) : list Passkey :=
  JSONStorage.values (passkeyFile w).


(** [p => Buffer.from(p.credentialID).equals(id)] *)
Definition matches (id : Bytes) (p : Passkey) : bool :=
  bool_decide (pk_credentialID (p_data p) = id).

(** The record [savePasskey] writes for [p] with a new counter at [now] *)
Definition updated (now : Timestamp) (p : Passkey) (c : Z) : Passkey :=
  {| p_data := withCounter (p_data p) c; p_id := p_id p;
     p_createdAt := now; p_lastUsed := now |}.

(** What the primitive is asked when [p] answers the challenge of [s] *)
Definition authArgs (this : RelyingParty) (s : Session) (p : Passkey)
    (credential : Credential) (expectedOrigin : string)
  : AuthenticationVerifyArgs :=
  {| av_response := credential;
     av_expectedChallenge := cd_challenge (s_data s);
     av_expectedOrigin := expectedOrigin;
     av_expectedRPID := This.rpID this;
     av_authenticator :=
       {| a_credentialID := pk_credentialID (p_data p);
          a_credentialPublicKey := pk_credentialPublicKey (p_data p);
          a_counter := pk_counter (p_data p);
          a_transports := pk_transports (p_data p) |} |}.

(** The session [JSONStorage.getChallenge] returns at [now], and the file
    it leaves *)
Definition file_session (now : Timestamp) (sid : string) (w : World)
  : option Session :=
  match sessionFile w !! sid with
  | Some s => if JSONStorage.expired now s then None else Some s
  | None => None
  end.

Definition file_after_get (now : Timestamp) (sid : string) (w : World)
  : World :=
  match sessionFile w !! sid with
  | Some s =>
      if JSONStorage.expired now s
      then set_sessionFile (delete sid (sessionFile w)) w
      else w
  | None => w
  end.

(** The configuration [ensureConfigLoaded] leaves in [this.config] *)
Definition loaded (w : World) : option BackendConfig :=
  match config w with
  | Some c => Some c
  | None => configFile w
  end.

Definition regArgs (this : RelyingParty) (s : Session)
    (credential : Credential) (expectedOrigin : string)
  : RegistrationVerifyArgs :=
  {| rv_response := credential;
     rv_expectedChallenge := cd_challenge (s_data s);
     rv_expectedOrigin := expectedOrigin;
     rv_expectedRPID := This.rpID this |}.

(** The two storage classes of the repository, and what each of them
    answers at [now] from a state of the world *)
Inductive StorageClass := KV | JSON.

Definition instance (c : StorageClass) : Storage :=
  match c with
  | KV => KVStorage.storage
  | JSON => JSONStorage.storage
  end.

(** [getChallenge(sid)] *)
Definition sessionOf (c : StorageClass) (now : Timestamp) (sid : string)
    (w : World) : option Session :=
  match c with
  | KV => Kv.get now (KVStorage.key KVStorage.sessionPrefix sid) (kv_sessions w)
  | JSON => file_session now sid w
  end.

(** [getPasskeys()] *)
Definition credentialsOf (c : StorageClass) (now : Timestamp) (w : World)
  : list Passkey :=
  match c with
  | KV => kv_stored now w
  | JSON => file_stored w
  end.

(** [getPasskeyById(id)] *)
Definition credentialAt (c : StorageClass) (now : Timestamp) (id : string)
    (w : World) : option Passkey :=
  match c with
  | KV => Kv.get now (KVStorage.key KVStorage.passkeyPrefix id) (kv_passkeys w)
  | JSON => passkeyFile w !! id
  end.

(** Every credential record there is, in either store *)
Definition credentialRecords (w : World)
  : gmap string (Kv.Entry Passkey) * gmap string Passkey :=
  (kv_passkeys w, passkeyFile w).

(** [s] is the stored session of [sid], with the expiry [saveChallenge]
    gives a session: five minutes past its creation, which in the key-value
    store is also the end of life of the entry. *)
Definition Stored (c : StorageClass) (w : World) (sid : string) (s : Session)
  : Prop :=
  s_expiresAt s = (s_createdAt s + fiveMinutes)%Z
  /\ match c with
     | KV =>
         kv_sessions w !! KVStorage.key KVStorage.sessionPrefix sid
         = Some {| Kv.value := s;
                   Kv.deadline := Some (s_createdAt s + fiveMinutes)%Z |}
     | JSON => sessionFile w !! sid = Some s
     end.

(** The world without the session of [sid] *)
Definition forget (c : StorageClass) (sid : string) (w : World) : World :=
  match c with
  | KV =>
      set_kv_sessions (Kv.del (KVStorage.key KVStorage.sessionPrefix sid)) w
  | JSON => set_sessionFile (delete sid (sessionFile w)) w
  end.

(** The world after a sweep of the expired sessions at time [t] *)
Definition swept (ext : Externals) (t : Timestamp) (c : StorageClass)
    (w : World) : World :=
  (run ext t (cleanupExpiredSessions (instance c)) w).2.

(** [getUser(id)] *)
Definition userAt (c : StorageClass) (now : Timestamp) (id : string)
    (w : World) : option User :=
  match c with
  | KV => Kv.get now (KVStorage.key KVStorage.userPrefix id) (kv_users w)
  | JSON => userFile w !! id
  end.

(** A call in flight has come to its end by returning *)
Definition proceeded {A} (p : Prog A) : bool :=
  match finished p with
  | Some (Returned _) => true
  | _ => false
  end.

(** ** Concrete situations, for the examples below *)

Module Demo.

(** A primitive that accepts every response, counting one use more *)
Definition accepting : Externals :=
  {| verifyRegistrationResponse := fun _ =>
       inr (Verified {| ri_credentialID := [1; 2; 3]%Z;
                        ri_credentialPublicKey := [4; 5]%Z;
                        ri_counter := 0;
                        ri_credentialDeviceType := "singleDevice";
                        ri_credentialBackedUp := false;
                        ri_aaguid := "aaguid" |});
     verifyAuthenticationResponse := fun a =>
       inr (Verified
              {| newCounter := (a_counter (av_authenticator a) + 1)%Z |});
     randomChallenge := fun _ => "challenge";
     uuidv4 := fun n => if (n =? 0)%nat then "id-0" else "id-1";
     base64url := fun _ => [1; 2; 3]%Z;
     axios_post := fun _ => AxiosNoResponse |}.

(** A primitive that verifies nothing *)
Definition rejecting : Externals :=
  {| verifyRegistrationResponse := fun _ => inr NotVerified;
     verifyAuthenticationResponse := fun _ => inr NotVerified;
     randomChallenge := fun _ => "challenge";
     uuidv4 := fun n => if (n =? 0)%nat then "id-0" else "id-1";
     base64url := fun _ => [1; 2; 3]%Z;
     axios_post := fun _ => AxiosNoResponse |}.

Definition backend : BackendConfig :=
  {| backendApi := {| baseUrl := "https://backend.example";
                      endpoints_signin := "/signin";
                      api_timeout := None |};
     userCredentials :=
       {[ "bob" := {| uc_username := "bob@example.com";
                      uc_password := "secret" |} ]};
     webauthn := None |}.

(** Nothing stored, the configuration file in place *)
Definition empty : World :=
  {| kv_passkeys := ∅; kv_users := ∅; kv_sessions := ∅;
     passkeyFile := ∅; userFile := ∅; sessionFile := ∅;
     rp := WebAuthnService.initial;
     config := None; configFile := Some backend; drawn := 0 |}.

Definition credential : Credential :=
  {| c_id := "AQID"; c_transports := None; c_response := "signed" |}.

(** alice's passkey, created at 1000 with signature counter 5 *)
Definition alice : Passkey :=
  {| p_data :=
       {| pk_userId := Some "alice"; pk_username := Some "alice@example.com";
          pk_displayName := Some "Alice";
          pk_credentialID := [1; 2; 3]%Z;
          pk_credentialPublicKey := [4; 5]%Z;
          pk_counter := 5;
          pk_credentialDeviceType := "singleDevice";
          pk_credentialBackedUp := false;
          pk_transports := None;
          pk_aaguid := "aaguid";
          pk_platform := "web";
          pk_registeredFrom := "http://localhost:3000" |};
     p_id := "p1"; p_createdAt := 1000; p_lastUsed := 1000 |}.

Definition withAlice (c : StorageClass) : World :=
  match c with
  | KV =>
      set_kv_passkeys
        (Kv.set 1000 (KVStorage.key KVStorage.passkeyPrefix "p1") alice None)
        empty
  | JSON => set_passkeyFile {[ "p1" := alice ]} empty
  end.

(** ... and a login begun for her at 2000 *)
Definition loginBegun (c : StorageClass) : World :=
  (run accepting 2000
     (WebAuthnService.generateAuthenticationOptions (instance c)
        (Some "alice") "web")
     (withAlice c)).2.

(** A registration begun at 2000 for a new user, nothing else stored *)
Definition registrationBegun (c : StorageClass) : World :=
  (run accepting 2000
     (WebAuthnService.generateRegistrationOptions (instance c)
        "u1" "a@b.com" (Some "A") "android")
     empty).2.

(** The session of that login, and what it returns once verified *)
Definition aliceSession : Session :=
  {| s_data := {| cd_challenge := "challenge"; cd_userId := Some "alice";
                  cd_username := None; cd_displayName := None;
                  cd_platform := "web"; cd_type := authentication |};
     s_createdAt := 2000; s_expiresAt := 302000 |}.


Definition login (c : StorageClass) : Prog AuthenticationResult :=
  WebAuthnService.verifyAuthentication (instance c) "id-1" credential None.

(** What completing that registration returns *)
Definition registered : RegistrationResult :=
  {| rr_verified := true; rr_passkeyId := "id-1";
     rr_passkey :=
       {| pk_userId := Some "u1"; pk_username := Some "a@b.com";
          pk_displayName := Some "A";
          pk_credentialID := [1; 2; 3]%Z;
          pk_credentialPublicKey := [4; 5]%Z;
          pk_counter := 0;
          pk_credentialDeviceType := "singleDevice";
          pk_credentialBackedUp := false;
          pk_transports := Some ["internal"; "hybrid"; "nfc"; "ble"; "usb"];
          pk_aaguid := "aaguid";
          pk_platform := "android";
          pk_registeredFrom := "http://localhost:3000" |} |}.

(** What the primitive was asked when that registration began *)
Definition registrationRequest : RegistrationOptionsArgs :=
  {| ro_rpName := "Passkey Backend API"; ro_rpID := "localhost";
     ro_userID := "u1"; ro_userName := "a@b.com";
     ro_userDisplayName := "A"; ro_timeout := 60000;
     ro_attestationType := "none"; ro_excludeCredentials := [];
     ro_authenticatorSelection :=
       {| residentKey := "preferred"; userVerification := "preferred";
          authenticatorAttachment := Some "platform";
          requireResidentKey := false |};
     ro_supportedAlgorithmIDs := [-7; -257; -35; -36; -37; -38; -39]%Z |}.

Definition register (c : StorageClass) : Prog RegistrationResult :=
  WebAuthnService.verifyRegistration (instance c) "id-1" credential "u1"
    None "android".

(** The request that completes alice's login, backend sign-in included *)
Definition loginRequest : LoginCompleteRequest :=
  {| body_sessionId := "id-1"; body_credential := credential;
     body_origin := None; body_skipBackendAuth := false;
     header_Origin := None; header_Referer := None |}.

End Demo.

(** ** The code around the ceremony

What the two completions and the login handler leave out: platform
detection, the methods of JSONStorage the service does not call, the
handlers of POST /register/complete and POST /auth/signin, and the error
handler every [next(error)] ends in. *)

Module JsString.

(** [s.includes(sub)] on strings *)
Fixpoint includes (s sub : string) : bool :=
  Js.startsWith s sub
  || match s with
     | EmptyString => false
     | String _ rest => includes rest sub
     end.

(** The strings on which [Js.toLowerCase] is [String.prototype.toLowerCase]:
    those of ASCII characters only *)
Definition ascii (s : string) : bool :=
  forallb (fun ch => Nat.ltb (nat_of_ascii ch) 128) (list_ascii_of_string s).

End JsString.

Module Platform.

(** [detectPlatform(userAgent = '', explicitPlatform = null)] of
    WebAuthnService. The names searched for have no letter that a
    character outside ASCII lower-cases to, so [Js.toLowerCase] finds them
    where the source does. *)
Definition detectPlatform (userAgent : string)
    (explicitPlatform : option string) : string :=
  if Js.truthy explicitPlatform then
    Js.toLowerCase (Js.toString explicitPlatform)
  else
    let ua := Js.toLowerCase userAgent in
    if JsString.includes ua "android" then "android"
    else if JsString.includes ua "iphone" || JsString.includes ua "ipad"
            || JsString.includes ua "ipod" then "ios"
    else "web".

End Platform.

Module JSONStorageRest.

(** [if (passkeys[passkeyId])] holds of an inherited property too, which
    [delete] leaves alone *)
Definition deletePasskey (passkeyId : string) : Prog bool :=
  let* passkeys := perform ReadPasskeyFile in
  match Js.get passkeys passkeyId with
  | Js.Undefined => Ret false
  | _ => perform (StorePasskeyFile (delete passkeyId passkeys))
  end.

Definition getAllUsers : Prog (list User) :=
  let* users := perform ReadUserFile in
  Ret (JSONStorage.values users).

End JSONStorageRest.

(** *** POST /api/passkeys/register/complete (routes/passkey.js) *)




Module PasskeyRoutes.

Section WithStorage.

Context (storage : Storage).


End WithStorage.

End PasskeyRoutes.

(** *** POST /api/auth/signin (routes/auth.js) *)



Module AuthRoutes.


End AuthRoutes.

(** *** errorHandler (middleware/errorHandler.js) *)

(** The fields of [err] the handler reads *)
Record ErrResponse := {
  res_status : option Z;
  res_data : option ErrorBody;
}.

Inductive Details :=
| ValidationDetails (fields : list (string * string))   (* err.details *)
| MessageDetails (message : string)                     (* err.message *)
| DataDetails (data : ErrorBody).                       (* err.response.data *)

Record Err := {
  err_name : string;
  err_message : option string;
  err_status : option Z;
  err_code : option string;
  err_details : option (list (string * string));
  err_response : option ErrResponse;
  err_stack : string;
}.

Record ErrorAnswer := {
  ea_status : Z;
  ea_message : string;
  ea_details : option Details;
  ea_stack : option string;
}.

Module ErrorHandler.

(** What [next(error)] carries when a function of the embedding throws *)
Definition thrown (e : Error) (stack : string) : Err :=
  {| err_name := match e with MkError _ => "Error"
                            | TypeError _ => "TypeError" end;
     err_message := Some (Js.message e);
     err_status := None; err_code := None; err_details := None;
     err_response := None; err_stack := stack |}.

(** [production] is [process.env.NODE_ENV === 'production'] *)
Definition errorHandler (production : bool) (err : Err) : ErrorAnswer :=
  let status := Js.orNum (err_status err) 500 in
  let message := Js.orStr (err_message err) "Internal Server Error" in
  let details : option Details := None in
  let '(status, message, details) :=
    if String.eqb (err_name err) "ValidationError"
    then (400, "Validation Error", ValidationDetails <$> err_details err)
    else (status, message, details) in
  let '(status, message) :=
    if String.eqb (err_name err) "UnauthorizedError"
    then (401, "Unauthorized") else (status, message) in
  let '(status, message) :=
    if bool_decide (err_code err = Some "ENOENT")
    then (404, "Resource not found") else (status, message) in
  let '(status, message, details) :=
    if Js.truthy (err_message err)
       && JsString.includes (Js.toString (err_message err)) "WebAuthn"
    then (400, "WebAuthn operation failed",
          Some (MessageDetails (Js.toString (err_message err))))
    else (status, message, details) in
  let '(status, message, details) :=
    match err_response err with
    | Some response =>
        (Js.orNum (res_status response) 500,
         Js.orStr (res_data response ≫= eb_message) "External API Error",
         DataDetails <$> res_data response)
    | None => (status, message, details)
    end in
  let '(message, details) :=
    if production && (status =? 500)%Z
    then ("Something went wrong!", None) else (message, details) in
  {| ea_status := status; ea_message := message; ea_details := details;
     ea_stack := if production then None else Some (err_stack err) |}.

End ErrorHandler.

(** The configuration file replaced by [f], for what does not depend on it *)
Definition set_configFile (f : option BackendConfig) (w : World) : World :=
  {| kv_passkeys := kv_passkeys w; kv_users := kv_users w;
     kv_sessions := kv_sessions w; passkeyFile := passkeyFile w;
     userFile := userFile w; sessionFile := sessionFile w; rp := rp w;
     config := config w; configFile := f; drawn := drawn w |}.

(** ** A file system that may fail

[readJSON] answers {} when the file cannot be read or parsed, and
[writeJSON] answers false when it cannot be written; neither throws.
Under [run] every file operation succeeds. [runFaulty faults] executes a
call whose file operations fail as [faults] says, one flag for each of
them in the order the call makes them; past the end of the list none
fails. A write that fails is executed as leaving the file alone; what it
really leaves there is open, and nothing is stated of it. *)

Definition failed {R} (e : Eff R) : option R :=
  match e in Eff R return option R with
  | ReadPasskeyFile => Some ∅
  | ReadUserFile => Some ∅
  | ReadSessionFile => Some ∅
  | StorePasskeyFile _ => Some false
  | StoreUserFile _ => Some false
  | StoreSessionFile _ => Some false
  | _ => None
  end.

Fixpoint runFaulty {A} (ext : Externals) (now : Timestamp)
    (faults : list bool) (p : Prog A) (w : World) : Outcome A * World :=
  match p with
  | Ret a => (Returned a, w)
  | Throw e => (Thrown e, w)
  | Vis e k =>
      match failed e, faults with
      | Some answer, true :: rest => runFaulty ext now rest (k answer) w
      | Some _, false :: rest =>
          let '(r, w') := handle ext now e w in runFaulty ext now rest (k r) w'
      | _, _ =>
          let '(r, w') := handle ext now e w in runFaulty ext now faults (k r) w'
      end
  end.

(** ** The calls of the service, made one after the other *)

Inductive Call :=
| BeginRegistration (userId username : string) (displayName : option string)
    (platform : string)
| CompleteRegistration (sessionId : string) (credential : Credential)
    (userId : string) (origin : option string) (platform : string)
| BeginAuthentication (userId : option string) (platform : string)
| CompleteAuthentication (sessionId : string) (credential : Credential)
    (origin : option string).

(** The ceremony a call completes for [sessionId], if it is a completion
    for it *)
Definition completes (sessionId : string) (call : Call)
  : option CeremonyType :=
  match call with
  | CompleteRegistration sid _ _ _ _ =>
      if bool_decide (sid = sessionId) then Some registration else None
  | CompleteAuthentication sid _ _ =>
      if bool_decide (sid = sessionId) then Some authentication else None
  | _ => None
  end.

(** A call with its result forgotten *)
Definition perform_call (storage : Storage) (call : Call) : Prog unit :=
  match call with
  | BeginRegistration userId username displayName platform =>
      WebAuthnService.generateRegistrationOptions storage userId username
        displayName platform ;;
      Ret tt
  | CompleteRegistration sessionId credential userId origin platform =>
      WebAuthnService.verifyRegistration storage sessionId credential userId
        origin platform ;;
      Ret tt
  | BeginAuthentication userId platform =>
      WebAuthnService.generateAuthenticationOptions storage userId platform ;;
      Ret tt
  | CompleteAuthentication sessionId credential origin =>
      WebAuthnService.verifyAuthentication storage sessionId credential
        origin ;;
      Ret tt
  end.

(** Calls made one after the other, each at its time: how each ends, and the
    world they leave *)
Fixpoint serve (ext : Externals) (storage : Storage)
    (calls : list (Timestamp * Call)) (w : World)
  : list (Outcome unit) * World :=
  match calls with
  | [] => ([], w)
  | (t, call) :: rest =>
      let '(out, w1) := run ext t (perform_call storage call) w in
      let '(outs, w2) := serve ext storage rest w1 in
      (out :: outs, w2)
  end.

(** A sessionId is spent when the key-value store holds nothing under it
    and no identifier still to be drawn is equal to it *)
Definition spent (ext : Externals) (sid : string) (w : World) : Prop :=
  kv_sessions w !! KVStorage.key KVStorage.sessionPrefix sid = None
  /\ forall n, (drawn w <= n)%nat -> uuidv4 ext n <> sid.

(** Two requests that complete the registration of [Demo.registrationBegun]:
    one that declares the web platform, one sent by an Android browser *)

Module Example.




(** A source of identifiers that never gives one twice among the first
    few, with the primitives of [Demo.accepting] *)
Definition fresh : Externals :=
  {| verifyRegistrationResponse := verifyRegistrationResponse Demo.accepting;
     verifyAuthenticationResponse :=
       verifyAuthenticationResponse Demo.accepting;
     randomChallenge := randomChallenge Demo.accepting;
     uuidv4 := fun n =>
       match n with
       | 0 => "id-0" | 1 => "id-1" | 2 => "id-2" | 3 => "id-3" | _ => "id-4"
       end%nat;
     base64url := base64url Demo.accepting;
     axios_post := axios_post Demo.accepting |}.

(** alice's passkey stored, and two logins begun at 2000: their sessions
    are "id-1" and "id-3" *)
Definition twoLoginsBegun : World :=
  (run fresh 2000
     (WebAuthnService.generateAuthenticationOptions (instance KV)
        (Some "alice") "web")
     (run fresh 2000
        (WebAuthnService.generateAuthenticationOptions (instance KV)
           (Some "alice") "web")
        (Demo.withAlice KV)).2).2.


(** A passkey registered for the userId "constructor", and a login begun
    for it at 2000 *)
Definition constructorPasskey : Passkey :=
  {| p_data :=
       {| pk_userId := Some "constructor";
          pk_username := Some "c@example.com";
          pk_displayName := Some "C";
          pk_credentialID := [1; 2; 3]%Z;
          pk_credentialPublicKey := [4; 5]%Z;
          pk_counter := 5;
          pk_credentialDeviceType := "singleDevice";
          pk_credentialBackedUp := false;
          pk_transports := None;
          pk_aaguid := "aaguid";
          pk_platform := "web";
          pk_registeredFrom := "http://localhost:3000" |};
     p_id := "p1"; p_createdAt := 1000; p_lastUsed := 1000 |}.

Definition constructorLoginBegun : World :=
  (run Demo.accepting 2000
     (WebAuthnService.generateAuthenticationOptions (instance KV)
        (Some "constructor") "web")
     (set_kv_passkeys
        (Kv.set 1000 (KVStorage.key KVStorage.passkeyPrefix "p1")
           constructorPasskey None)
        Demo.empty)).2.

End Example.

(** * Properties *)

(** ** Execution of programs *)

Section RunLemmas.

Context (ext : Externals) (now : Timestamp).

Lemma run_bind {A B} (p : Prog A) (f : A -> Prog B) (w : World) :
  run ext now (bind p f) w =
  match run ext now p w with
  | (Returned a, w') => run ext now (f a) w'
  | (Thrown e, w') => (Thrown e, w')
  end.
Proof.
  revert w. induction p as [a | e | R e k IH]; intros w; cbn; try done.
  destruct (handle ext now e w) as [r w']. apply IH.
Qed.

Lemma run_tryCatch {A} (p : Prog A) (h : Error -> Prog A) (w : World) :
  run ext now (tryCatch p h) w =
  match run ext now p w with
  | (Returned a, w') => (Returned a, w')
  | (Thrown e, w') => run ext now (h e) w'
  end.
Proof.
  revert w. induction p as [a | e | R e k IH]; intros w; cbn; try done.
  destruct (handle ext now e w) as [r w']. apply IH.
Qed.

Lemma run_perform {R} (e : Eff R) (w : World) :
  run ext now (perform e) w =
  (Returned (handle ext now e w).1, (handle ext now e w).2).
Proof. cbn. by destruct (handle ext now e w). Qed.

(** Taking turns until the end is running the call *)
Lemma run_settle {A} (p : Prog A) (w : World) :
  run ext now (settle ext now p w).1 (settle ext now p w).2 = run ext now p w.
Proof.
  revert w. induction p as [a | e | R e k IH]; intros w; cbn; try done.
  destruct (awaited e); [done |].
  destruct (handle ext now e w) as [r w']. apply IH.
Qed.

Lemma run_turn {A} (p : Prog A) (w : World) :
  run ext now (turn ext now p w).1 (turn ext now p w).2 = run ext now p w.
Proof.
  unfold turn. rewrite <- (run_settle p w).
  destruct (settle ext now p w) as [[a | e | R e k] w1]; cbn; try done.
  destruct (handle ext now e w1) as [r w2]. apply run_settle.
Qed.

End RunLemmas.

(** ** The two storage classes, method by method *)

Section StorageLemmas.

Context (ext : Externals) (now : Timestamp).

Lemma run_initializeConfig w :
  run ext now WebAuthnService.initializeConfig w
  = (Returned tt, configured ext now w).
Proof.
  unfold configured, WebAuthnService.initializeConfig.
  rewrite run_tryCatch.
  by destruct (run ext now _ w) as [[[]|e] w'].
Qed.

Lemma configured_stores w :
  kv_passkeys (configured ext now w) = kv_passkeys w /\
  kv_users (configured ext now w) = kv_users w /\
  kv_sessions (configured ext now w) = kv_sessions w /\
  passkeyFile (configured ext now w) = passkeyFile w /\
  userFile (configured ext now w) = userFile w /\
  sessionFile (configured ext now w) = sessionFile w /\
  drawn (configured ext now w) = drawn w.
Proof.
  unfold configured, WebAuthnService.initializeConfig.
  destruct w as [? ? ? ? ? ? ? [c|] [f|] ?]; cbn;
    try (destruct (webauthn c)); try (destruct (webauthn f)); cbn; done.
Qed.

Lemma kv_keys_live {V} prefix (m : gmap string (Kv.Entry V)) :
  Forall (fun k => is_Some (Kv.get now k m)) (Kv.keys now prefix m).
Proof.
  unfold Kv.keys. apply Forall_forall. intros k Hk.
  apply list_elem_of_In, filter_In in Hk as [_ Hk].
  apply andb_true_iff in Hk as [_ Hk]. by apply bool_decide_eq_true in Hk.
Qed.

Lemma run_kv_getPasskeys_loop userId keys acc w :
  Forall (fun k => is_Some (Kv.get now k (kv_passkeys w))) keys ->
  run ext now (KVStorage.getPasskeys_loop userId keys acc) w
  = (Returned (acc ++ (Some <$> owned userId
                         (omap (fun k => Kv.get now k (kv_passkeys w)) keys)))%list, w).
Proof.
  revert acc. induction keys as [|k keys IH]; intros acc Hlive.
  - unfold owned. cbn. destruct (Js.truthy userId); cbn; by rewrite app_nil_r.
  - apply Forall_cons in Hlive as [[p Hp] Hlive].
    cbn [KVStorage.getPasskeys_loop]. rewrite run_bind, run_perform. cbn [handle fst snd].
    rewrite Hp. unfold owned in *. cbn [omap list_omap]. rewrite Hp.
    destruct (Js.truthy userId) eqn:Ht; cbn [negb].
    + cbn [List.filter]. case_decide as Hd.
      * rewrite bool_decide_eq_true_2 by done. rewrite IH by done.
        by rewrite <- app_assoc.
      * rewrite bool_decide_eq_false_2 by done. by rewrite IH.
    + rewrite IH by done. by rewrite <- app_assoc.
Qed.

Lemma run_kv_getPasskeys userId w :
  run ext now (KVStorage.getPasskeys userId) w
  = (Returned (Some <$> owned userId (kv_stored now w)), w).
Proof.
  unfold KVStorage.getPasskeys. rewrite run_bind, run_perform. cbn [handle fst snd].
  rewrite run_kv_getPasskeys_loop by apply kv_keys_live. done.
Qed.

Lemma run_file_getPasskeys userId w :
  run ext now (JSONStorage.getPasskeys userId) w
  = (Returned (Some <$> owned userId (file_stored w)), w).
Proof.
  unfold JSONStorage.getPasskeys, owned, file_stored. cbn.
  by destruct (Js.truthy userId).
Qed.

Lemma descriptors_Some platform l :
  WebAuthnService.descriptors platform (Some <$> l)
  = Ret (WebAuthnService.descriptor platform <$> l).
Proof. induction l as [|p l IH]; cbn; [done|]. by rewrite IH. Qed.

Lemma find_Some id l :
  WebAuthnService.find id (Some <$> l)
  = Ret (List.find (fun p => bool_decide (pk_credentialID (p_data p) = id)) l).
Proof. induction l as [|p l IH]; cbn; [done|]. by destruct (bool_decide _). Qed.

Lemma kv_get_set {V} k (v : V) m :
  Kv.get now k (Kv.set now k v None m) = Some v.
Proof. unfold Kv.get, Kv.set. by rewrite lookup_insert_eq. Qed.

Lemma kv_get_del {V} k (m : gmap string (Kv.Entry V)) :
  Kv.get now k (Kv.del k m) = None.
Proof. unfold Kv.get, Kv.del. by rewrite lookup_delete_eq. Qed.

Lemma run_file_getChallenge sid w :
  run ext now (JSONStorage.getChallenge sid) w
  = (Returned (file_session now sid w), file_after_get now sid w).
Proof.
  unfold JSONStorage.getChallenge, file_session, file_after_get. cbn.
  destruct (sessionFile w !! sid) as [s|] eqn:Hs; cbn; [|done].
  destruct (JSONStorage.expired now s); cbn; [|done]. by rewrite Hs.
Qed.

Lemma file_after_get_stores sid w :
  kv_passkeys (file_after_get now sid w) = kv_passkeys w /\
  kv_users (file_after_get now sid w) = kv_users w /\
  kv_sessions (file_after_get now sid w) = kv_sessions w /\
  passkeyFile (file_after_get now sid w) = passkeyFile w /\
  userFile (file_after_get now sid w) = userFile w /\
  rp (file_after_get now sid w) = rp w /\
  drawn (file_after_get now sid w) = drawn w.
Proof.
  unfold file_after_get. destruct (sessionFile w !! sid) as [s|]; [|done].
  by destruct (JSONStorage.expired now s).
Qed.

Lemma file_after_get_found sid w s :
  file_session now sid w = Some s -> file_after_get now sid w = w.
Proof.
  unfold file_session, file_after_get.
  destruct (sessionFile w !! sid) as [s'|]; [|done].
  by destruct (JSONStorage.expired now s').
Qed.

Lemma expectedOrigin_cases this o p :
  (exists eo, WebAuthnService.expectedOrigin this o p = Ret eo) \/
  (exists e, WebAuthnService.expectedOrigin this o p = Throw e).
Proof.
  unfold WebAuthnService.expectedOrigin.
  destruct (_ && _); [destruct (negb _)|]; eauto.
Qed.

End StorageLemmas.

Ltac step :=
  first [ rewrite run_bind | rewrite run_perform
        | rewrite run_initializeConfig | rewrite run_kv_getPasskeys
        | rewrite run_file_getPasskeys | rewrite run_file_getChallenge
        | rewrite find_Some | rewrite descriptors_Some ];
  cbn [handle fst snd run].

(** ** The two completions, case by case *)

Section ServiceCases.

Context (ext : Externals) (now : Timestamp).

Local Abbreviation w1 w := (configured ext now w).
Local Abbreviation skey sid := (KVStorage.key KVStorage.sessionPrefix sid).
Local Abbreviation pkey id := (KVStorage.key KVStorage.passkeyPrefix id).

Lemma verifyAuthentication_kv sid cred o w out w' :
  run ext now
    (WebAuthnService.verifyAuthentication KVStorage.storage sid cred o) w
  = (out, w') ->
  (out = Thrown (Errors.SessionExpiredOrInvalid authentication)
   /\ w' = w1 w
   /\ forall s, Kv.get now (skey sid) (kv_sessions w) = Some s ->
                cd_type (s_data s) <> authentication)
  \/ (exists e s,
        out = Thrown e /\ w' = w1 w
        /\ Kv.get now (skey sid) (kv_sessions w) = Some s
        /\ cd_type (s_data s) = authentication)
  \/ (exists s p eo info,
        Kv.get now (skey sid) (kv_sessions w) = Some s
        /\ cd_type (s_data s) = authentication
        /\ List.find (matches (base64url ext (c_id cred))) (kv_stored now w)
           = Some p
        /\ verifyAuthenticationResponse ext (authArgs (rp (w1 w)) s p cred eo)
           = inr (Verified info)
        /\ out = Returned {| ar_verified := true;
                             ar_userId := pk_userId (p_data p);
                             ar_username := pk_username (p_data p);
                             ar_passkeyId := p_id p; ar_passkey := p |}
        /\ w' = set_kv_sessions (Kv.del (skey sid))
                  (set_kv_passkeys
                     (Kv.set now (pkey (p_id p))
                        (updated now p (newCounter info)) None)
                     (set_kv_passkeys
                        (Kv.set now (pkey (p_id p))
                           (updated now p (newCounter info)) None)
                        (w1 w)))).
Proof.
  destruct (configured_stores ext now w) as (Hpk & _ & Hs & _).
  unfold WebAuthnService.verifyAuthentication, kv_stored.
  cbn [getChallenge getPasskeys savePasskey updatePasskeyLastUsed
       deleteChallenge KVStorage.storage].
  unfold KVStorage.getChallenge.
  repeat step. rewrite Hs.
  destruct (Kv.get _ _ _) as [s|] eqn:Hg; cbn [run].
  2:{ intros [= <- <-]. by left. }
  case_bool_decide as Ht; cbn [negb run].
  2:{ intros [= <- <-]. left. split_and!; try done. by intros ? [= <-]. }
  repeat step. unfold kv_stored. rewrite Hpk. cbn [owned Js.truthy].
  destruct (List.find _ _) as [p|] eqn:Hf; cbn [run].
  2:{ intros [= <- <-]. right; left. eauto 10. }
  repeat step.
  destruct (expectedOrigin_cases (rp (w1 w)) o
              (Js.orStr (Some (cd_platform (s_data s))) "web"))
    as [[eo ->]|[e ->]]; cbn [run].
  2:{ intros [= <- <-]. right; left. eauto 10. }
  repeat step.
  destruct (verifyAuthenticationResponse ext _) as [e|[info|]] eqn:Hv;
    cbn [run].
  1,3: intros [= <- <-]; right; left; eauto 10.
  cbn. rewrite kv_get_set. cbn.
  intros [= <- <-]. right; right. by exists s, p, eo, info.
Qed.

Lemma verifyAuthentication_file sid cred o w out w' :
  run ext now
    (WebAuthnService.verifyAuthentication JSONStorage.storage sid cred o) w
  = (out, w') ->
  (out = Thrown (Errors.SessionExpiredOrInvalid authentication)
   /\ w' = file_after_get now sid (w1 w)
   /\ forall s, file_session now sid w = Some s ->
                cd_type (s_data s) <> authentication)
  \/ (exists e s,
        out = Thrown e /\ w' = w1 w
        /\ file_session now sid w = Some s
        /\ cd_type (s_data s) = authentication)
  \/ (exists s p eo info,
        file_session now sid w = Some s
        /\ cd_type (s_data s) = authentication
        /\ List.find (matches (base64url ext (c_id cred))) (file_stored w)
           = Some p
        /\ verifyAuthenticationResponse ext (authArgs (rp (w1 w)) s p cred eo)
           = inr (Verified info)
        /\ out = Returned {| ar_verified := true;
                             ar_userId := pk_userId (p_data p);
                             ar_username := pk_username (p_data p);
                             ar_passkeyId := p_id p; ar_passkey := p |}
        /\ w' = set_sessionFile (delete sid (sessionFile w))
                  (set_passkeyFile
                     (<[p_id p := updated now p (newCounter info)]>
                        (<[p_id p := updated now p (newCounter info)]>
                           (passkeyFile w)))
                     (w1 w))).
Proof.
  destruct (configured_stores ext now w) as (_ & _ & _ & Hpk & _ & Hs & _).
  assert (Hfs : file_session now sid (w1 w) = file_session now sid w)
    by (unfold file_session; by rewrite Hs).
  unfold WebAuthnService.verifyAuthentication.
  cbn [getChallenge getPasskeys savePasskey updatePasskeyLastUsed
       deleteChallenge JSONStorage.storage].
  repeat step. rewrite Hfs.
  destruct (file_session now sid w) as [s|] eqn:Hg; cbn [run].
  2:{ intros [= <- <-]. by left. }
  rewrite (file_after_get_found now sid (w1 w) s) by congruence.
  case_bool_decide as Ht; cbn [negb run].
  2:{ intros [= <- <-]. left. split_and!; try done. by intros ? [= <-]. }
  repeat step. unfold file_stored. rewrite Hpk. cbn [owned Js.truthy].
  destruct (List.find _ _) as [p|] eqn:Hf; cbn [run].
  2:{ intros [= <- <-]. right; left. eauto 10. }
  repeat step.
  destruct (expectedOrigin_cases (rp (w1 w)) o
              (Js.orStr (Some (cd_platform (s_data s))) "web"))
    as [[eo ->]|[e ->]]; cbn [run].
  2:{ intros [= <- <-]. right; left. eauto 10. }
  repeat step.
  destruct (verifyAuthenticationResponse ext _) as [e|[info|]] eqn:Hv;
    cbn [run].
  1,3: intros [= <- <-]; right; left; eauto 10.
  cbn. rewrite lookup_insert_eq. cbn. rewrite Hs, Hpk.
  assert (is_Some (sessionFile w !! sid)) as [s' Hs'].
  { unfold file_session in Hg. destruct (sessionFile w !! sid); naive_solver. }
  rewrite Hs'. cbn.
  intros [= <- <-]. right; right. by exists s, p, eo, info.
Qed.

Lemma verifyRegistration_kv sid cred uid o platform w out w' :
  run ext now
    (WebAuthnService.verifyRegistration KVStorage.storage sid cred uid o
       platform) w
  = (out, w') ->
  (out = Thrown (Errors.SessionExpiredOrInvalid registration)
   /\ w' = w1 w
   /\ forall s, Kv.get now (skey sid) (kv_sessions w) = Some s ->
                cd_type (s_data s) <> registration)
  \/ (exists e s,
        out = Thrown e /\ w' = w1 w
        /\ Kv.get now (skey sid) (kv_sessions w) = Some s
        /\ cd_type (s_data s) = registration)
  \/ (exists s data eo info,
        Kv.get now (skey sid) (kv_sessions w) = Some s
        /\ cd_type (s_data s) = registration
        /\ cd_userId (s_data s) = Some uid
        /\ verifyRegistrationResponse ext (regArgs (rp (w1 w)) s cred eo)
           = inr (Verified info)
        /\ out = Returned {| rr_verified := true;
                             rr_passkeyId := uuidv4 ext (drawn w);
                             rr_passkey := data |}
        /\ pk_credentialID data = ri_credentialID info
        /\ pk_counter data = ri_counter info
        /\ kv_passkeys w'
           = Kv.set now (pkey (uuidv4 ext (drawn w)))
               {| p_data := data; p_id := uuidv4 ext (drawn w);
                  p_createdAt := now; p_lastUsed := now |} None
               (kv_passkeys w)
        /\ kv_sessions w' = Kv.del (skey sid) (kv_sessions w)
        /\ passkeyFile w' = passkeyFile w
        /\ sessionFile w' = sessionFile w).
Proof.
  destruct (configured_stores ext now w) as (Hpk & _ & Hs & Hpf & _ & Hsf & Hd).
  unfold WebAuthnService.verifyRegistration.
  cbn [getChallenge getPasskeys savePasskey saveUser deleteChallenge
       KVStorage.storage].
  unfold KVStorage.getChallenge.
  repeat step. rewrite Hs.
  destruct (Kv.get _ _ _) as [s|] eqn:Hg; cbn [run].
  2:{ intros [= <- <-]. by left. }
  case_bool_decide as Ht; cbn [negb run].
  2:{ intros [= <- <-]. left. split_and!; try done. by intros ? [= <-]. }
  case_bool_decide as Hu; cbn [negb run].
  2:{ intros [= <- <-]. right; left. eauto 10. }
  repeat step.
  destruct (expectedOrigin_cases (rp (w1 w)) o platform)
    as [[eo ->]|[e ->]]; cbn [run].
  2:{ intros [= <- <-]. right; left. eauto 10. }
  repeat step.
  destruct (verifyRegistrationResponse ext _) as [e|[info|]] eqn:Hv;
    cbn [run].
  1,3: intros [= <- <-]; right; left; eauto 10.
  cbn. destruct (Kv.get now _ (kv_users _)); cbn;
    intros [= <- <-]; right; right; eexists s, _, eo, info; cbn;
    rewrite Hd, Hpk, Hs; split_and!; try done; apply Hv.
Qed.

Lemma verifyRegistration_file sid cred uid o platform w out w' :
  run ext now
    (WebAuthnService.verifyRegistration JSONStorage.storage sid cred uid o
       platform) w
  = (out, w') ->
  (out = Thrown (Errors.SessionExpiredOrInvalid registration)
   /\ w' = file_after_get now sid (w1 w)
   /\ forall s, file_session now sid w = Some s ->
                cd_type (s_data s) <> registration)
  \/ (exists e s,
        out = Thrown e /\ w' = w1 w
        /\ file_session now sid w = Some s
        /\ cd_type (s_data s) = registration)
  \/ (exists s data eo info,
        file_session now sid w = Some s
        /\ cd_type (s_data s) = registration
        /\ cd_userId (s_data s) = Some uid
        /\ verifyRegistrationResponse ext (regArgs (rp (w1 w)) s cred eo)
           = inr (Verified info)
        /\ out = Returned {| rr_verified := true;
                             rr_passkeyId := uuidv4 ext (drawn w);
                             rr_passkey := data |}
        /\ pk_credentialID data = ri_credentialID info
        /\ pk_counter data = ri_counter info
        /\ passkeyFile w'
           = <[uuidv4 ext (drawn w) :=
                 {| p_data := data; p_id := uuidv4 ext (drawn w);
                    p_createdAt := now; p_lastUsed := now |}]>
               (passkeyFile w)
        /\ sessionFile w' = delete sid (sessionFile w)
        /\ kv_passkeys w' = kv_passkeys w
        /\ kv_sessions w' = kv_sessions w).
Proof.
  destruct (configured_stores ext now w) as (Hpk & _ & Hs & Hpf & _ & Hsf & Hd).
  assert (Hfs : file_session now sid (w1 w) = file_session now sid w)
    by (unfold file_session; by rewrite Hsf).
  unfold WebAuthnService.verifyRegistration.
  cbn [getChallenge getPasskeys savePasskey saveUser deleteChallenge
       JSONStorage.storage].
  repeat step. rewrite Hfs.
  destruct (file_session now sid w) as [s|] eqn:Hg; cbn [run].
  2:{ intros [= <- <-]. by left. }
  rewrite (file_after_get_found now sid (w1 w) s) by congruence.
  case_bool_decide as Ht; cbn [negb run].
  2:{ intros [= <- <-]. left. split_and!; try done. by intros ? [= <-]. }
  case_bool_decide as Hu; cbn [negb run].
  2:{ intros [= <- <-]. right; left. eauto 10. }
  repeat step.
  destruct (expectedOrigin_cases (rp (w1 w)) o platform)
    as [[eo ->]|[e ->]]; cbn [run].
  2:{ intros [= <- <-]. right; left. eauto 10. }
  repeat step.
  destruct (verifyRegistrationResponse ext _) as [e|[info|]] eqn:Hv;
    cbn [run].
  1,3: intros [= <- <-]; right; left; eauto 10.
  assert (is_Some (sessionFile w !! sid)) as [s' Hs'].
  { unfold file_session in Hg. destruct (sessionFile w !! sid); naive_solver. }
  cbn. destruct (userFile _ !! _); cbn; rewrite Hsf, Hs'; cbn;
    intros [= <- <-]; right; right; eexists s, _, eo, info; cbn;
    rewrite Hd, Hpf, Hpk, Hs; split_and!; try done; apply Hv.
Qed.

End ServiceCases.

(** ** What the storage interface answers *)

Section Observations.

Context (ext : Externals) (now : Timestamp).

Lemma run_getChallenge c sid w :
  (run ext now (getChallenge (instance c) sid) w).1
  = Returned (sessionOf c now sid w).
Proof. destruct c; cbn [instance getChallenge]; [done|]. by step. Qed.

Lemma run_getPasskeyById c id w :
  run ext now (getPasskeyById (instance c) id) w
  = (Returned (credentialAt c now id w), w).
Proof. by destruct c. Qed.

Lemma run_getPasskeys c userId w :
  run ext now (getPasskeys (instance c) userId) w
  = (Returned (Some <$> owned userId (credentialsOf c now w)), w).
Proof.
  destruct c; cbn [instance getPasskeys KVStorage.storage JSONStorage.storage];
    by step.
Qed.

Lemma configured_sessionOf c t sid w :
  sessionOf c t sid (configured ext now w) = sessionOf c t sid w.
Proof.
  destruct (configured_stores ext now w) as (_ & _ & Hs & _ & _ & Hsf & _).
  destruct c; unfold sessionOf, file_session; by rewrite ?Hs, ?Hsf.
Qed.

Lemma configured_credentialRecords w :
  credentialRecords (configured ext now w) = credentialRecords w.
Proof.
  destruct (configured_stores ext now w) as (Hpk & _ & _ & Hpf & _).
  unfold credentialRecords. by rewrite Hpk, Hpf.
Qed.

Lemma file_after_get_session sid w :
  file_session now sid (file_after_get now sid w) = file_session now sid w.
Proof.
  unfold file_after_get, file_session.
  destruct (sessionFile w !! sid) as [s|] eqn:Hs; [|by rewrite Hs].
  destruct (JSONStorage.expired now s) eqn:He; [|by rewrite Hs, He].
  cbn. by rewrite lookup_delete_eq.
Qed.

End Observations.

(** ** Sessions that are absent, of the other type, or just created *)

Section Sessions.

Context (ext : Externals) (now : Timestamp).

Lemma invalid_registration_session c sid cred uid o platform w :
  (forall s, sessionOf c now sid w = Some s ->
             cd_type (s_data s) <> registration) ->
  (run ext now
     (WebAuthnService.verifyRegistration (instance c) sid cred uid o
        platform) w).1
  = Thrown (Errors.SessionExpiredOrInvalid registration).
Proof.
  intros Hno.
  destruct (run ext now _ w) as [out w'] eqn:H. cbn [fst]. destruct c.
  - apply verifyRegistration_kv in H
      as [(-> & _)|[(? & s & _ & _ & Hs & Ht)|(s & ? & ? & ? & Hs & Ht & _)]];
      [done|by destruct (Hno s)..].
  - apply verifyRegistration_file in H
      as [(-> & _)|[(? & s & _ & _ & Hs & Ht)|(s & ? & ? & ? & Hs & Ht & _)]];
      [done|by destruct (Hno s)..].
Qed.

Lemma invalid_authentication_session c sid cred o w :
  (forall s, sessionOf c now sid w = Some s ->
             cd_type (s_data s) <> authentication) ->
  (run ext now
     (WebAuthnService.verifyAuthentication (instance c) sid cred o) w).1
  = Thrown (Errors.SessionExpiredOrInvalid authentication).
Proof.
  intros Hno.
  destruct (run ext now _ w) as [out w'] eqn:H. cbn [fst]. destruct c.
  - apply verifyAuthentication_kv in H
      as [(-> & _)|[(? & s & _ & _ & Hs & Ht)|(s & ? & ? & ? & Hs & Ht & _)]];
      [done|by destruct (Hno s)..].
  - apply verifyAuthentication_file in H
      as [(-> & _)|[(? & s & _ & _ & Hs & Ht)|(s & ? & ? & ? & Hs & Ht & _)]];
      [done|by destruct (Hno s)..].
Qed.

Lemma kv_get_set_Some {V} t k (v v' : V) ex m :
  Kv.get t k (Kv.set now k v ex m) = Some v' -> v' = v.
Proof.
  unfold Kv.get, Kv.set. rewrite lookup_insert_eq.
  destruct (Kv.live _ _); [|done]. by intros [= <-].
Qed.

(** The session [generateRegistrationOptions] stores *)
Lemma generateRegistrationOptions_session c uid username displayName platform
    w out w' :
  run ext now
    (WebAuthnService.generateRegistrationOptions (instance c) uid username
       displayName platform) w = (out, w') ->
  exists opts,
    out = Returned (opts, uuidv4 ext (S (drawn w)))
    /\ forall t s, sessionOf c t (uuidv4 ext (S (drawn w))) w' = Some s ->
                   cd_type (s_data s) = registration.
Proof.
  destruct (configured_stores ext now w) as (_ & _ & _ & _ & _ & _ & Hd).
  unfold WebAuthnService.generateRegistrationOptions.
  destruct c; cbn [instance getPasskeys saveChallenge KVStorage.storage
                   JSONStorage.storage]; repeat step; cbn; rewrite Hd;
    intros [= <- <-]; eexists; (split; [reflexivity|]); intros t s Hs.
  - apply kv_get_set_Some in Hs as ->. done.
  - unfold file_session in Hs. cbn in Hs. rewrite lookup_insert_eq in Hs.
    destruct (JSONStorage.expired _ _); [done|]. by injection Hs as <-.
Qed.

Lemma registration_removes_session c sid cred uid o platform w r w' :
  run ext now
    (WebAuthnService.verifyRegistration (instance c) sid cred uid o
       platform) w = (Returned r, w') ->
  forall t, sessionOf c t sid w' = None.
Proof.
  intros H t. destruct c.
  - apply verifyRegistration_kv in H
      as [([=] & _)|[(? & ? & [=] & _)|(s' & data & eo & info & H)]].
    destruct H as (_ & _ & _ & _ & _ & _ & _ & _ & Hs & _).
    cbn. rewrite Hs. unfold Kv.get, Kv.del. by rewrite lookup_delete_eq.
  - apply verifyRegistration_file in H
      as [([=] & _)|[(? & ? & [=] & _)|(s' & data & eo & info & H)]].
    destruct H as (_ & _ & _ & _ & _ & _ & _ & _ & Hs & _).
    cbn. unfold file_session. by rewrite Hs, lookup_delete_eq.
Qed.

Lemma authentication_removes_session c sid cred o w r w' :
  run ext now
    (WebAuthnService.verifyAuthentication (instance c) sid cred o) w
  = (Returned r, w') ->
  forall t, sessionOf c t sid w' = None.
Proof.
  intros H t. destruct c.
  - apply verifyAuthentication_kv in H
      as [([=] & _)|[(? & ? & [=] & _)|(s' & p & eo & info & H)]].
    destruct H as (_ & _ & _ & _ & _ & ->).
    cbn. unfold Kv.get, Kv.del. by rewrite lookup_delete_eq.
  - apply verifyAuthentication_file in H
      as [([=] & _)|[(? & ? & [=] & _)|(s' & p & eo & info & H)]].
    destruct H as (_ & _ & _ & _ & _ & ->).
    cbn. unfold file_session. cbn. by rewrite lookup_delete_eq.
Qed.

End Sessions.

(** ** Sessions past their expiry *)

Section Expiry.

Context (ext : Externals) (now : Timestamp).

Lemma saveChallenge_Stored c sid data w :
  Stored c (run ext now (saveChallenge (instance c) sid data) w).2 sid
    {| s_data := data; s_createdAt := now;
       s_expiresAt := now + fiveMinutes |}.
Proof.
  split; [done|]. destruct c; cbn; unfold Kv.set; by rewrite lookup_insert_eq.
Qed.

Lemma swept_session c t sid w :
  sessionOf c now sid (swept ext t c w) = None
  \/ sessionOf c now sid (swept ext t c w) = sessionOf c now sid w.
Proof.
  destruct c; [by right|].
  unfold swept. cbn.
  destruct (existsb _ _); cbn; [|by right].
  unfold file_session. cbn.
  destruct (filter _ (sessionFile w) !! sid) as [s|] eqn:Hs; [|by left].
  apply map_lookup_filter_Some in Hs as [-> _]. by right.
Qed.

Lemma expired_sessionOf c sid s w :
  Stored c w sid s -> s_createdAt s + fiveMinutes < now ->
  sessionOf c now sid w = None.
Proof.
  intros [He Hs] Hlt. destruct c; cbn.
  - unfold Kv.get, Kv.live. rewrite Hs. cbn.
    destruct (Z.ltb_spec now (s_createdAt s + fiveMinutes)); [lia|done].
  - unfold file_session, JSONStorage.expired. rewrite Hs, He.
    destruct (Z.ltb_spec (s_createdAt s + fiveMinutes) now); [done|lia].
Qed.

Lemma forget_sessionOf c sid w : sessionOf c now sid (forget c sid w) = None.
Proof.
  destruct c; cbn.
  - apply kv_get_del.
  - unfold file_session. cbn. by rewrite lookup_delete_eq.
Qed.

End Expiry.

(** ** The allow-list of an authentication *)

Section Begin.

Context (ext : Externals) (now : Timestamp).

Lemma owned_nullish userId l : Js.truthy userId = false -> owned userId l = l.
Proof. unfold owned. by intros ->. Qed.

Lemma elem_of_owned userId l p :
  Js.truthy userId = true ->
  p ∈ owned userId l <-> p ∈ l /\ pk_userId (p_data p) = userId.
Proof.
  unfold owned. intros ->. rewrite !list_elem_of_In, filter_In.
  by rewrite bool_decide_eq_true.
Qed.


End Begin.

(** ** The backend service, and what a verified authentication returns *)

Section Backend.

Context (ext : Externals) (now : Timestamp).

(** [ensureConfigLoaded], then [this.config] *)
Lemma run_ensureConfigLoaded w :
  run ext now BackendService.ensureConfigLoaded w
  = match loaded w with
    | Some cfg => (Returned tt, set_config (Some cfg) w)
    | None => (Thrown (MkError "Backend service configuration not found"), w)
    end.
Proof.
  unfold loaded. destruct w as [? ? ? ? ? ? ? [cfg|] [f|] ?]; by cbn.
Qed.

Lemma loaded_set_config cfg w : loaded (set_config (Some cfg) w) = Some cfg.
Proof. done. Qed.

Lemma verifyAuthentication_verified c sid cred o w r w' :
  run ext now (WebAuthnService.verifyAuthentication (instance c) sid cred o) w
  = (Returned r, w') ->
  ar_verified r = true.
Proof.
  intros H. destruct c.
  - apply verifyAuthentication_kv in H
      as [([=] & _)|[(? & ? & [=] & _)|(s & p & eo & info & H)]].
    by destruct H as (_ & _ & _ & _ & [= ->] & _).
  - apply verifyAuthentication_file in H
      as [([=] & _)|[(? & ? & [=] & _)|(s & p & eo & info & H)]].
    by destruct H as (_ & _ & _ & _ & [= ->] & _).
Qed.

End Backend.

(** ** Calls that take their turns one after the other *)

Section OneAfterAnother.

Context (ext : Externals) (now : Timestamp).

Lemma finished_run {A} (q : Prog A) out w :
  finished q = Some out -> run ext now q w = (out, w).
Proof. destruct q; cbn; by intros [= <-]. Qed.

Lemma interleave_first {A} n (p1 p2 : Prog A) w rest :
  exists q1 w1,
    run ext now q1 w1 = run ext now p1 w
    /\ interleave ext now (replicate n 0%nat ++ rest) [p1; p2] w
       = interleave ext now rest [q1; p2] w1.
Proof.
  revert p1 w. induction n as [|n IH]; intros p1 w; [by exists p1, w|].
  cbn. destruct (turn ext now p1 w) as [p1' w1'] eqn:Ht.
  destruct (IH p1' w1') as (q1 & w1 & Hrun & Hi).
  exists q1, w1. split; [|done].
  rewrite Hrun. pose proof (run_turn ext now p1 w) as Hrt.
  by rewrite Ht in Hrt.
Qed.

Lemma interleave_second {A} m (q1 p2 : Prog A) w :
  exists q2 w2,
    run ext now q2 w2 = run ext now p2 w
    /\ interleave ext now (replicate m 1%nat) [q1; p2] w = ([q1; q2], w2).
Proof.
  revert p2 w. induction m as [|m IH]; intros p2 w; [by exists p2, w|].
  cbn. destruct (turn ext now p2 w) as [p2' w2'] eqn:Ht.
  destruct (IH p2' w2') as (q2 & w2 & Hrun & Hi).
  exists q2, w2. split; [|done].
  rewrite Hrun. pose proof (run_turn ext now p2 w) as Hrt.
  by rewrite Ht in Hrt.
Qed.

(** Two calls, the second taking its turns after the first has taken
    its own: what they come to is what running one, then the other,
    gives. *)
Lemma interleave_one_after_another {A} n m (p1 p2 q1 q2 : Prog A) w w'
    out1 out2 :
  interleave ext now (replicate n 0%nat ++ replicate m 1%nat) [p1; p2] w
  = ([q1; q2], w') ->
  finished q1 = Some out1 ->
  finished q2 = Some out2 ->
  exists w1, run ext now p1 w = (out1, w1)
             /\ (run ext now p2 w1).1 = out2.
Proof.
  intros H Hf1 Hf2.
  destruct (interleave_first n p1 p2 w (replicate m 1%nat))
    as (q1' & w1 & Hrun1 & Hi1).
  destruct (interleave_second m q1' p2 w1) as (q2' & w2 & Hrun2 & Hi2).
  rewrite Hi1, Hi2 in H. injection H as -> -> ->.
  exists w1. rewrite <- Hrun1, <- Hrun2.
  by rewrite (finished_run q1 out1), (finished_run q2 out2).
Qed.

End OneAfterAnother.

(** ** Keys of the key-value store *)

Lemma key_inj prefix a b :
  KVStorage.key prefix a = KVStorage.key prefix b -> a = b.
Proof.
  unfold KVStorage.key. induction prefix as [|ch prefix IH]; cbn; [done|].
  intros [= H]. by apply IH.
Qed.

Lemma kv_get_set_ne {V} now t k k' (v : V) ex m :
  k <> k' -> Kv.get t k' (Kv.set now k v ex m) = Kv.get t k' m.
Proof. intros Hne. unfold Kv.get, Kv.set. by rewrite lookup_insert_ne. Qed.

Lemma kv_get_del_ne {V} t k k' (m : gmap string (Kv.Entry V)) :
  k <> k' -> Kv.get t k' (Kv.del k m) = Kv.get t k' m.
Proof. intros Hne. unfold Kv.get, Kv.del. by rewrite lookup_delete_ne. Qed.

(** ** Calls made one after the other *)

Section OneByOne.

Context (ext : Externals).

Local Abbreviation skey sid := (KVStorage.key KVStorage.sessionPrefix sid).

Lemma handle_drawn {R} now (e : Eff R) w :
  (drawn w <= drawn (handle ext now e w).2)%nat.
Proof. destruct e; cbn; lia. Qed.

Lemma run_drawn {A} now (p : Prog A) w :
  (drawn w <= drawn (run ext now p w).2)%nat.
Proof.
  revert w. induction p as [a|e|R e k IH]; intros w; cbn; [lia..|].
  pose proof (handle_drawn now e w) as He.
  destruct (handle ext now e w) as [r w1]. cbn in He.
  etransitivity; [exact He|apply IH].
Qed.

(** The sessions of the key-value store after a begin *)
Lemma generateRegistrationOptions_kv_sessions now uid username displayName
    platform w out w' :
  run ext now
    (WebAuthnService.generateRegistrationOptions KVStorage.storage uid
       username displayName platform) w = (out, w') ->
  exists s,
    kv_sessions w'
    = Kv.set now (skey (uuidv4 ext (S (drawn w)))) s (Some (5 * 60))
        (kv_sessions w).
Proof.
  destruct (configured_stores ext now w) as (_ & _ & Hs & _ & _ & _ & Hd).
  unfold WebAuthnService.generateRegistrationOptions.
  cbn [getPasskeys saveChallenge KVStorage.storage]. repeat step. cbn.
  rewrite Hd. intros [= <- <-]. cbn. rewrite Hs. by eexists.
Qed.

Lemma generateAuthenticationOptions_kv_sessions now userId platform w out
    w' :
  run ext now
    (WebAuthnService.generateAuthenticationOptions KVStorage.storage userId
       platform) w = (out, w') ->
  exists s,
    kv_sessions w'
    = Kv.set now (skey (uuidv4 ext (S (drawn w)))) s (Some (5 * 60))
        (kv_sessions w).
Proof.
  destruct (configured_stores ext now w) as (_ & _ & Hs & _ & _ & _ & Hd).
  unfold WebAuthnService.generateAuthenticationOptions.
  cbn [getPasskeys saveChallenge KVStorage.storage].
  rewrite run_bind, run_initializeConfig. cbn [run]. rewrite run_bind.
  assert (forall u,
            run ext now
              (let* ps := KVStorage.getPasskeys u in
               WebAuthnService.descriptors platform ps)
              (configured ext now w)
            = (Returned (WebAuthnService.descriptor platform
                           <$> owned u (kv_stored now (configured ext now w))),
               configured ext now w)) as Hdesc.
  { intros u. by rewrite run_bind, run_kv_getPasskeys, descriptors_Some. }
  destruct (Js.truthy userId); rewrite Hdesc; cbn; rewrite Hd;
    intros [= <- <-]; cbn; rewrite Hs; by eexists.
Qed.

Lemma spent_absent sid w t :
  spent ext sid w -> sessionOf KV t sid w = None.
Proof. intros [H _]. cbn. unfold Kv.get. by rewrite H. Qed.

Lemma spent_call sid t call w out w' :
  spent ext sid w ->
  run ext t (perform_call KVStorage.storage call) w = (out, w') ->
  spent ext sid w'
  /\ forall ceremony,
       completes sid call = Some ceremony ->
       out = Thrown (Errors.SessionExpiredOrInvalid ceremony).
Proof.
  intros Hsp Hrun.
  assert (Hd : forall n, (drawn w' <= n)%nat -> uuidv4 ext n <> sid).
  { intros n Hn. apply (proj2 Hsp).
    pose proof (run_drawn t (perform_call KVStorage.storage call) w) as Hm.
    rewrite Hrun in Hm. cbn in Hm. lia. }
  destruct Hsp as [Hk Hfresh].
  destruct (configured_stores ext t w) as (_ & _ & Hcs & _).
  destruct call as [uid username displayName platform
                   |sid' cred uid o platform
                   |userId platform
                   |sid' cred o];
    cbn [perform_call completes] in *; rewrite run_bind in Hrun.
  - destruct (run ext t (WebAuthnService.generateRegistrationOptions _ _ _ _ _)
                w) as [out1 w1] eqn:H1.
    apply generateRegistrationOptions_kv_sessions in H1 as [s Hs].
    assert (w' = w1) as -> by (destruct out1; cbn in Hrun; congruence).
    split; [|done]. split; [|done].
    rewrite Hs. unfold Kv.set. rewrite lookup_insert_ne; [done|].
    intros H. apply key_inj in H. by apply (Hfresh (S (drawn w))); [lia|].
  - destruct (run ext t (WebAuthnService.verifyRegistration _ _ _ _ _ _) w)
      as [out1 w1] eqn:H1.
    assert (kv_sessions w1 !! skey sid = None) as Hk1.
    { apply verifyRegistration_kv in H1
        as [(_ & -> & _)|[(? & ? & _ & -> & _)|(? & ? & ? & ? & H)]];
        [by rewrite Hcs..|].
      destruct H as (_ & _ & _ & _ & _ & _ & _ & _ & -> & _).
      unfold Kv.del. by apply lookup_delete_None; right. }
    assert (forall ceremony,
              (if bool_decide (sid' = sid) then Some registration else None)
              = Some ceremony ->
              out1 = Thrown (Errors.SessionExpiredOrInvalid ceremony)) as Ho.
    { intros ceremony. case_bool_decide as He; [|done]. intros [= <-].
      subst sid'.
      pose proof (invalid_registration_session ext t KV sid cred uid o
                    platform w) as Hi.
      cbn [instance] in Hi. rewrite H1 in Hi. apply Hi.
      intros s. cbn. unfold Kv.get. by rewrite Hk. }
    destruct out1 as [r|e]; cbn in Hrun; injection Hrun as <- <-.
    + split; [done|]. intros ceremony Hc. by specialize (Ho _ Hc).
    + split; [done|]. intros ceremony Hc. by injection (Ho _ Hc) as ->.
  - destruct (run ext t (WebAuthnService.generateAuthenticationOptions _ _ _)
                w) as [out1 w1] eqn:H1.
    apply generateAuthenticationOptions_kv_sessions in H1 as [s Hs].
    assert (w' = w1) as -> by (destruct out1; cbn in Hrun; congruence).
    split; [|done]. split; [|done].
    rewrite Hs. unfold Kv.set. rewrite lookup_insert_ne; [done|].
    intros H. apply key_inj in H. by apply (Hfresh (S (drawn w))); [lia|].
  - destruct (run ext t (WebAuthnService.verifyAuthentication _ _ _ _) w)
      as [out1 w1] eqn:H1.
    assert (kv_sessions w1 !! skey sid = None) as Hk1.
    { apply verifyAuthentication_kv in H1
        as [(_ & -> & _)|[(? & ? & _ & -> & _)|(? & ? & ? & ? & H)]];
        [by rewrite Hcs..|].
      destruct H as (_ & _ & _ & _ & _ & ->). cbn. rewrite Hcs.
      unfold Kv.del. by apply lookup_delete_None; right. }
    assert (forall ceremony,
              (if bool_decide (sid' = sid) then Some authentication else None)
              = Some ceremony ->
              out1 = Thrown (Errors.SessionExpiredOrInvalid ceremony)) as Ho.
    { intros ceremony. case_bool_decide as He; [|done]. intros [= <-].
      subst sid'.
      pose proof (invalid_authentication_session ext t KV sid cred o w)
        as Hi.
      cbn [instance] in Hi. rewrite H1 in Hi. apply Hi.
      intros s. cbn. unfold Kv.get. by rewrite Hk. }
    destruct out1 as [r|e]; cbn in Hrun; injection Hrun as <- <-.
    + split; [done|]. intros ceremony Hc. by specialize (Ho _ Hc).
    + split; [done|]. intros ceremony Hc. by injection (Ho _ Hc) as ->.
Qed.

Lemma spent_serve sid calls w :
  spent ext sid w ->
  Forall2
    (fun call out =>
       forall ceremony,
         completes sid call.2 = Some ceremony ->
         out = Thrown (Errors.SessionExpiredOrInvalid ceremony))
    calls (serve ext KVStorage.storage calls w).1.
Proof.
  revert w. induction calls as [|[t call] calls IH]; intros w Hsp; cbn.
  { constructor. }
  destruct (run ext t (perform_call KVStorage.storage call) w)
    as [out w1] eqn:Hrun.
  destruct (spent_call sid t call w out w1 Hsp Hrun) as [Hsp1 Hout].
  specialize (IH w1 Hsp1).
  destruct (serve ext KVStorage.storage calls w1) as [outs w2].
  by constructor.
Qed.

Lemma completion_spends sid t call ceremony w w' :
  completes sid call = Some ceremony ->
  run ext t (perform_call KVStorage.storage call) w = (Returned tt, w') ->
  is_Some (sessionOf KV t sid w)
  /\ kv_sessions w' !! skey sid = None.
Proof.
  intros Hc Hrun.
  destruct call as [| sid' cred uid o platform | | sid' cred o];
    cbn [perform_call completes] in *; try done;
    case_bool_decide as He; try done; subst sid'; rewrite run_bind in Hrun.
  - destruct (run ext t (WebAuthnService.verifyRegistration _ _ _ _ _ _) w)
      as [[r|e] w1] eqn:H1; cbn in Hrun; [|done]. injection Hrun as <-.
    apply verifyRegistration_kv in H1
      as [([=] & _)|[(? & ? & [=] & _)|(s & ? & ? & ? & H)]].
    destruct H as (Hs & _ & _ & _ & _ & _ & _ & _ & -> & _).
    split; [by exists s|]. unfold Kv.del. apply lookup_delete_eq.
  - destruct (run ext t (WebAuthnService.verifyAuthentication _ _ _ _) w)
      as [[r|e] w1] eqn:H1; cbn in Hrun; [|done]. injection Hrun as <-.
    apply verifyAuthentication_kv in H1
      as [([=] & _)|[(? & ? & [=] & _)|(s & ? & ? & ? & H)]].
    destruct H as (Hs & _ & _ & _ & _ & ->).
    split; [by exists s|]. cbn. unfold Kv.del. apply lookup_delete_eq.
Qed.

End OneByOne.

(** * The claims of the specification *)

(** C1. A completion fails with SessionExpiredOrInvalid when the session is
    absent or of the other ceremony type, in both storage classes. In
    particular the session that [generateRegistrationOptions] creates makes
    [verifyAuthentication] fail so; and with KVStorage, the store the
    service loads, once [verifyRegistration] has returned for a sessionId,
    every later [verifyRegistration] on that sessionId fails so. *)
Theorem spent_or_mistyped_session
    (ext : Externals) (now : Timestamp) (c : StorageClass) (w : World) :
  (forall sid cred uid o platform,
      (forall s, sessionOf c now sid w = Some s ->
                 cd_type (s_data s) <> registration) ->
      (run ext now
         (WebAuthnService.verifyRegistration (instance c) sid cred uid o
            platform) w).1
      = Thrown (Errors.SessionExpiredOrInvalid registration))
  /\ (forall sid cred o,
        (forall s, sessionOf c now sid w = Some s ->
                   cd_type (s_data s) <> authentication) ->
        (run ext now
           (WebAuthnService.verifyAuthentication (instance c) sid cred o) w).1
        = Thrown (Errors.SessionExpiredOrInvalid authentication))
  /\ (forall sid cred uid o platform r w',
        run ext now
          (WebAuthnService.verifyRegistration (instance KV) sid cred uid o
             platform) w = (Returned r, w') ->
        forall t cred' uid' o' platform',
          (run ext t
             (WebAuthnService.verifyRegistration (instance KV) sid cred' uid'
                o' platform') w').1
          = Thrown (Errors.SessionExpiredOrInvalid registration))
  /\ (forall uid username displayName platform opts sid w',
        run ext now
          (WebAuthnService.generateRegistrationOptions (instance c) uid
             username displayName platform) w = (Returned (opts, sid), w') ->
        forall t cred o,
          (run ext t
             (WebAuthnService.verifyAuthentication (instance c) sid cred o)
             w').1
          = Thrown (Errors.SessionExpiredOrInvalid authentication)).
Proof.
  split_and!.
  - intros. by apply invalid_registration_session.
  - intros. by apply invalid_authentication_session.
  - intros sid cred uid o platform r w' H t cred' uid' o' platform'.
    apply invalid_registration_session. intros s Hs.
    by rewrite (registration_removes_session ext now KV sid cred uid o
                  platform w r w' H t) in Hs.
  - intros uid username displayName platform opts sid w' H t cred o.
    apply generateRegistrationOptions_session in H as (opts' & [= <- <-] & H).
    apply invalid_authentication_session. intros s Hs.
    by rewrite (H t s Hs).
Qed.

Lemma spent_or_mistyped_session_witness :
  (run Demo.accepting 3000 (Demo.register KV) (Demo.registrationBegun KV)).1
  = Returned Demo.registered
  /\ (run Demo.accepting 4000 (Demo.register KV)
        (run Demo.accepting 3000 (Demo.register KV)
           (Demo.registrationBegun KV)).2).1
     = Thrown (Errors.SessionExpiredOrInvalid registration)
  /\ (run Demo.accepting 3000 (Demo.login KV) (Demo.registrationBegun KV)).1
     = Thrown (Errors.SessionExpiredOrInvalid authentication).
Proof.
  split; [vm_compute; reflexivity|]. split.
  - refine (proj1 (proj2 (proj2 (spent_or_mistyped_session Demo.accepting 3000
                                   KV (Demo.registrationBegun KV))))
              "id-1" Demo.credential "u1" None "android" Demo.registered
              _ _ 4000 Demo.credential "u1" None "android").
    vm_compute; reflexivity.
  - refine (proj2 (proj2 (proj2 (spent_or_mistyped_session Demo.accepting 2000
                                   KV Demo.empty)))
              "u1" "a@b.com" (Some "A") "android"
              {| challenge := "challenge";
                 request := Demo.registrationRequest |}
              "id-1" (Demo.registrationBegun KV) _ 3000 Demo.credential None).
    vm_compute; reflexivity.
Defined.

(** C2, as the code has it. The store has no take-and-remove: a completion
    reads the session with [getChallenge] and removes it with
    [deleteChallenge] once verification has succeeded. With KVStorage, the
    store the service loads, and the calls of the service made one after the
    other: when a completion for a sessionId has returned, the session was
    in the store, and of the calls made afterwards, whatever they are, every
    completion for that sessionId throws SessionExpiredOrInvalid, as long as
    [uuidv4] does not give that sessionId again. *)
Theorem consume_one_after_another
    (ext : Externals) (now : Timestamp) (sid : string) (first : Call)
    (ceremony : CeremonyType) (w w' : World) :
  completes sid first = Some ceremony ->
  run ext now (perform_call KVStorage.storage first) w = (Returned tt, w') ->
  (forall n, (drawn w' <= n)%nat -> uuidv4 ext n <> sid) ->
  is_Some (sessionOf KV now sid w)
  /\ forall later,
       Forall2
         (fun call out =>
            forall ceremony',
              completes sid call.2 = Some ceremony' ->
              out = Thrown (Errors.SessionExpiredOrInvalid ceremony'))
         later (serve ext KVStorage.storage later w').1.
Proof.
  intros Hc Hrun Hfresh.
  destruct (completion_spends ext sid now first ceremony w w' Hc Hrun)
    as [Hs Hk].
  split; [done|]. intros later. by apply spent_serve.
Qed.

(** alice's login "id-1" completed at 3000; then another login begun, the
    other login "id-3" completed and "id-1" tried again, by registration
    and by authentication: both tries throw. *)
Lemma consume_one_after_another_witness :
  is_Some (sessionOf KV 3000 "id-1" Example.twoLoginsBegun)
  /\ (serve Example.fresh KVStorage.storage
        [(4000, BeginAuthentication (Some "alice") "web");
         (4000, CompleteAuthentication "id-3" Demo.credential None);
         (5000, CompleteRegistration "id-1" Demo.credential "alice" None
                  "web");
         (5000, CompleteAuthentication "id-1" Demo.credential None)]
        (run Example.fresh 3000
           (perform_call KVStorage.storage
              (CompleteAuthentication "id-1" Demo.credential None))
           Example.twoLoginsBegun).2).1
     = [Returned tt; Returned tt;
        Thrown (Errors.SessionExpiredOrInvalid registration);
        Thrown (Errors.SessionExpiredOrInvalid authentication)].
Proof.
  assert (Hfresh : forall n,
            (drawn (run Example.fresh 3000%Z
                      (perform_call KVStorage.storage
                         (CompleteAuthentication "id-1" Demo.credential None))
                      Example.twoLoginsBegun).2 <= n)%nat ->
            uuidv4 Example.fresh n <> "id-1").
  { intros n Hn.
    change (4 <= n)%nat in Hn.
    destruct n as [|[|[|[|n]]]]; [lia..|discriminate]. }
  destruct (consume_one_after_another Example.fresh 3000 "id-1"
              (CompleteAuthentication "id-1" Demo.credential None)
              authentication Example.twoLoginsBegun
              (run Example.fresh 3000
                 (perform_call KVStorage.storage
                    (CompleteAuthentication "id-1" Demo.credential None))
                 Example.twoLoginsBegun).2
              eq_refl ltac:(vm_compute; reflexivity) Hfresh)
    as [Hfound Hlater].
  split; [exact Hfound|]. vm_compute; reflexivity.
Defined.

(** C2, as the specification words it, fails: two completions of alice's
    login in flight together, the second reading the session before the
    first has deleted it, both return, and the counter stored at 5 has
    been advanced twice. *)
Lemma two_completions_consume_one_session :
  proceeded
    <$> (interleave Demo.accepting 3000
           [0; 1; 0; 0; 0; 0; 0; 0; 0; 1; 1; 1; 1; 1; 1; 1]%nat
           [Demo.login KV; Demo.login KV] (Demo.loginBegun KV)).1
  = [true; true]
  /\ pk_counter ∘ p_data
       <$> credentialAt KV 3000 "p1"
             (interleave Demo.accepting 3000
                [0; 1; 0; 0; 0; 0; 0; 0; 0; 1; 1; 1; 1; 1; 1; 1]%nat
                [Demo.login KV; Demo.login KV] (Demo.loginBegun KV)).2
     = Some 7.
Proof. split; vm_compute; reflexivity. Qed.

(** C3 fails on the code for a userId that names a property every object
    inherits. For the passkey of the user "constructor", for whom nothing
    is configured, [this.config.userCredentials[userId]] is the inherited
    constructor, which is truthy: [authenticateUser] does not throw, a
    sign-in without username and password is sent to the backend, and the
    answer of POST /login/complete, still success = true, has the message
    "Backend signin failed" and the error of the backend, with no message
    naming the userId and no list of the configured userIds. *)
Lemma inherited_name_passes_for_credentials :
  userCredentials Demo.backend !! "constructor" = None
  /\ Js.get (userCredentials Demo.backend) "constructor"
     = Js.Inherited "constructor"
  /\ loaded Example.constructorLoginBegun = Some Demo.backend
  /\ (run Demo.accepting 3000
        (Routes.loginComplete (instance KV) Demo.loginRequest)
        Example.constructorLoginBegun).1
     = Returned
         (Json
            {| success := true;
               message := "Authentication successful";
               user := {| ui_userId := Some "constructor";
                          ui_username := Some "c@example.com";
                          ui_passkeyId := "p1" |};
               authenticatedAt := 3000;
               backendAuthentication :=
                 {| ba_skipped := None;
                    ba_success := Some false;
                    ba_message := "Backend signin failed";
                    ba_data := None;
                    ba_status := None;
                    ba_error :=
                      Some (ErrorObject
                              {| be_message :=
                                   "Unable to connect to backend service";
                                 be_status := 503;
                                 be_data := None |});
                    ba_availableUsers := None |};
               warning :=
                 Some "Passkey authentication successful but backend signin failed" |}).
Proof. split_and!; vm_compute; reflexivity. Qed.

(** C4. When a completion fails, whether because the primitive reports
    not-verified or because an earlier check fails, no credential record
    is created and none is modified in any field; a completion that
    returns did so after the primitive reported verified for the session's
    challenge. *)
Theorem failed_completion_leaves_credentials
    (ext : Externals) (now : Timestamp)
    (c : StorageClass) (sid : string) (cred : Credential) (w : World) :
  (forall uid o platform e w',
      run ext now
        (WebAuthnService.verifyRegistration (instance c) sid cred uid o
           platform) w = (Thrown e, w') ->
      credentialRecords w' = credentialRecords w)
  /\ (forall o e w',
        run ext now
          (WebAuthnService.verifyAuthentication (instance c) sid cred o) w
        = (Thrown e, w') ->
        credentialRecords w' = credentialRecords w)
  /\ (forall uid o platform r w',
        run ext now
          (WebAuthnService.verifyRegistration (instance c) sid cred uid o
             platform) w = (Returned r, w') ->
        exists s eo info,
          sessionOf c now sid w = Some s
          /\ verifyRegistrationResponse ext
               (regArgs (rp (configured ext now w)) s cred eo)
             = inr (Verified info))
  /\ (forall o r w',
        run ext now
          (WebAuthnService.verifyAuthentication (instance c) sid cred o) w
        = (Returned r, w') ->
        exists s eo info,
          sessionOf c now sid w = Some s
          /\ verifyAuthenticationResponse ext
               (authArgs (rp (configured ext now w)) s (ar_passkey r) cred eo)
             = inr (Verified info)).
Proof.
  pose proof (configured_credentialRecords ext now w) as Hc.
  split_and!.
  - intros uid o platform e w' H. destruct c.
    + apply verifyRegistration_kv in H
        as [(_ & -> & _)|[(? & ? & _ & -> & _)|(? & ? & ? & ? & H)]];
        [done..|]. destruct H as (_ & _ & _ & _ & [=] & _).
    + apply verifyRegistration_file in H
        as [(_ & -> & _)|[(? & ? & _ & -> & _)|(? & ? & ? & ? & H)]];
        [|done|].
      * rewrite <- Hc. unfold credentialRecords.
        destruct (file_after_get_stores now sid (configured ext now w))
          as (-> & _ & _ & -> & _). done.
      * destruct H as (_ & _ & _ & _ & [=] & _).
  - intros o e w' H. destruct c.
    + apply verifyAuthentication_kv in H
        as [(_ & -> & _)|[(? & ? & _ & -> & _)|(? & ? & ? & ? & H)]];
        [done..|]. destruct H as (_ & _ & _ & _ & [=] & _).
    + apply verifyAuthentication_file in H
        as [(_ & -> & _)|[(? & ? & _ & -> & _)|(? & ? & ? & ? & H)]];
        [|done|].
      * rewrite <- Hc. unfold credentialRecords.
        destruct (file_after_get_stores now sid (configured ext now w))
          as (-> & _ & _ & -> & _). done.
      * destruct H as (_ & _ & _ & _ & [=] & _).
  - intros uid o platform r w' H. destruct c.
    + apply verifyRegistration_kv in H
        as [([=] & _)|[(? & ? & [=] & _)|(s & ? & eo & info & H)]].
      exists s, eo, info. by destruct H as (? & _ & _ & ? & _).
    + apply verifyRegistration_file in H
        as [([=] & _)|[(? & ? & [=] & _)|(s & ? & eo & info & H)]].
      exists s, eo, info. by destruct H as (? & _ & _ & ? & _).
  - intros o r w' H. destruct c.
    + apply verifyAuthentication_kv in H
        as [([=] & _)|[(? & ? & [=] & _)|(s & p & eo & info & H)]].
      exists s, eo, info. destruct H as (? & _ & _ & ? & [= ->] & _). done.
    + apply verifyAuthentication_file in H
        as [([=] & _)|[(? & ? & [=] & _)|(s & p & eo & info & H)]].
      exists s, eo, info. destruct H as (? & _ & _ & ? & [= ->] & _). done.
Qed.

Lemma failed_completion_leaves_credentials_witness :
  (run Demo.rejecting 3000 (Demo.login KV) (Demo.loginBegun KV)).1
  = Thrown Errors.AuthenticationVerificationFailed
  /\ credentialRecords
       (run Demo.rejecting 3000 (Demo.login KV) (Demo.loginBegun KV)).2
     = credentialRecords (Demo.loginBegun KV).
Proof.
  split; [vm_compute; reflexivity|].
  refine (proj1 (proj2 (failed_completion_leaves_credentials
                          Demo.rejecting 3000 KV "id-1" Demo.credential
                          (Demo.loginBegun KV)))
            None Errors.AuthenticationVerificationFailed _ _).
  vm_compute; reflexivity.
Defined.



(** The sibling of [savePasskey]: [saveUser] keeps the createdAt of a user
    it finds. *)
Lemma saveUser_keeps_createdAt
    (ext : Externals) (now : Timestamp) (c : StorageClass) (id : string)
    (data : UserData) (w : World) (u : User) :
  userAt c now id w = Some u ->
  userAt c now id (run ext now (saveUser (instance c) id data) w).2
  = Some {| u_data := data; u_id := id; u_createdAt := u_createdAt u;
            u_updatedAt := now |}.
Proof.
  intros Hu. destruct c; cbn in *.
  - rewrite Hu. cbn. apply kv_get_set.
  - rewrite Hu. cbn. apply lookup_insert_eq.
Qed.

(** C6 fails on the code. Whatever record the credential id had,
    [savePasskey] stores createdAt = the time of the call: alice's passkey,
    created at 1000, has createdAt 3000 after a [savePasskey] at 3000, and
    after the counter update of a [verifyAuthentication] at 3000. *)
Theorem savePasskey_resets_createdAt :
  (forall (ext : Externals) (now : Timestamp) (c : StorageClass)
          (id : string) (data : PasskeyData) (w : World),
      credentialAt c now id
        (run ext now (savePasskey (instance c) id data) w).2
      = Some {| p_data := data; p_id := id; p_createdAt := now;
                p_lastUsed := now |})
  /\ p_createdAt <$> credentialAt KV 3000 "p1" (Demo.withAlice KV)
     = Some 1000
  /\ p_createdAt
       <$> credentialAt KV 3000 "p1"
             (run Demo.accepting 3000
                (savePasskey (instance KV) "p1" (p_data Demo.alice))
                (Demo.withAlice KV)).2
     = Some 3000
  /\ p_createdAt
       <$> credentialAt KV 3000 "p1"
             (run Demo.accepting 3000 (Demo.login KV) (Demo.loginBegun KV)).2
     = Some 3000
  /\ p_createdAt
       <$> credentialAt JSON 3000 "p1"
             (run Demo.accepting 3000 (Demo.login JSON)
                (Demo.loginBegun JSON)).2
     = Some 3000.
Proof.
  split.
  - intros ext now c id data w. destruct c; cbn.
    + apply kv_get_set.
    + apply lookup_insert_eq.
  - repeat split; vm_compute; reflexivity.
Qed.

(** C7. [isValidOrigin(origin, platform)] is true exactly when the origin
    is a member of the configured allow-list, or the platform is Android
    and the origin starts with "android:apk-key-hash:", or the platform is
    iOS and it starts with "ios:bundle-id:", or the platform is Web and it
    starts with "http://" or "https://"; every other shape is rejected.
    With the allow-list of the constructor,
    isValidOrigin("ios:bundle-id:com.x.y", iOS) and
    isValidOrigin("https://good.com", Web) hold and
    isValidOrigin("http://evil.com", iOS) does not. *)
Theorem isValidOrigin_exactly :
  (forall (this : RelyingParty) (origin platform : string),
      WebAuthnService.isValidOrigin this origin platform = true <->
      origin ∈ This.allowedOrigins this
      \/ (Js.toLowerCase platform = "android"
          /\ Js.startsWith origin "android:apk-key-hash:" = true)
      \/ (Js.toLowerCase platform = "ios"
          /\ Js.startsWith origin "ios:bundle-id:" = true)
      \/ (Js.toLowerCase platform = "web"
          /\ (Js.startsWith origin "http://" = true
              \/ Js.startsWith origin "https://" = true)))
  /\ WebAuthnService.isValidOrigin WebAuthnService.initial
       "ios:bundle-id:com.x.y" "ios" = true
  /\ WebAuthnService.isValidOrigin WebAuthnService.initial
       "http://evil.com" "ios" = false
  /\ WebAuthnService.isValidOrigin WebAuthnService.initial
       "https://good.com" "web" = true.
Proof.
  split; [|by vm_compute].
  intros this origin platform.
  unfold WebAuthnService.isValidOrigin, Js.includes.
  case_bool_decide as Hin; [tauto|].
  destruct (String.eqb_spec (Js.toLowerCase platform) "android") as [->|H1];
    [cbn; intuition congruence|].
  destruct (String.eqb_spec (Js.toLowerCase platform) "ios") as [->|H2];
    [cbn; intuition congruence|].
  destruct (String.eqb_spec (Js.toLowerCase platform) "web") as [->|H3].
  - rewrite orb_true_iff. cbn; intuition congruence.
  - intuition congruence.
Qed.

(** C8. A stored session whose expiry, five minutes past its creation, lies
    before the time of the call: [getChallenge] answers null as it does when
    the session is not there, and both completions fail with their
    SessionExpiredOrInvalid error as they do when it is not there, whether
    the call meets the store as it is or after a sweep of the expired
    sessions made at any time. *)
Theorem expired_session_is_absent
    (ext : Externals) (now : Timestamp) (c : StorageClass) (sid : string)
    (s : Session) (w : World) :
  Stored c w sid s ->
  s_createdAt s + fiveMinutes < now ->
  forall w0, (w0 = w \/ exists t, w0 = swept ext t c w) ->
    (run ext now (getChallenge (instance c) sid) w0).1 = Returned None
    /\ (run ext now (getChallenge (instance c) sid) (forget c sid w)).1
       = Returned None
    /\ (forall cred uid o platform,
          (run ext now
             (WebAuthnService.verifyRegistration (instance c) sid cred uid o
                platform) w0).1
          = Thrown (Errors.SessionExpiredOrInvalid registration)
          /\ (run ext now
                (WebAuthnService.verifyRegistration (instance c) sid cred uid
                   o platform) (forget c sid w)).1
             = Thrown (Errors.SessionExpiredOrInvalid registration))
    /\ (forall cred o,
          (run ext now
             (WebAuthnService.verifyAuthentication (instance c) sid cred o)
             w0).1
          = Thrown (Errors.SessionExpiredOrInvalid authentication)
          /\ (run ext now
                (WebAuthnService.verifyAuthentication (instance c) sid cred o)
                (forget c sid w)).1
             = Thrown (Errors.SessionExpiredOrInvalid authentication)).
Proof.
  intros Hst Hlt w0 Hw0.
  pose proof (expired_sessionOf now c sid s w Hst Hlt) as Hnone.
  pose proof (forget_sessionOf now c sid w) as Hforget.
  assert (H0 : sessionOf c now sid w0 = None).
  { destruct Hw0 as [->|[t ->]]; [done|].
    destruct (swept_session ext now c t sid w) as [H|H]; congruence. }
  rewrite !run_getChallenge, H0, Hforget.
  split_and!; try done.
  - intros. split; apply invalid_registration_session; congruence.
  - intros. split; apply invalid_authentication_session; congruence.
Qed.

Lemma expired_session_is_absent_witness :
  Stored JSON (Demo.loginBegun JSON) "id-1" Demo.aliceSession
  /\ Stored KV (Demo.loginBegun KV) "id-1" Demo.aliceSession
  /\ (run Demo.accepting 302001 (getChallenge (instance JSON) "id-1")
        (Demo.loginBegun JSON)).1 = Returned None
  /\ (run Demo.accepting 302001 (getChallenge (instance KV) "id-1")
        (Demo.loginBegun KV)).1 = Returned None.
Proof.
  assert (HJ : Stored JSON (Demo.loginBegun JSON) "id-1" Demo.aliceSession)
    by (split; vm_compute; reflexivity).
  assert (HK : Stored KV (Demo.loginBegun KV) "id-1" Demo.aliceSession)
    by (split; vm_compute; reflexivity).
  split; [exact HJ|]. split; [exact HK|]. split.
  - exact (proj1 (expired_session_is_absent Demo.accepting 302001 JSON "id-1"
                    Demo.aliceSession (Demo.loginBegun JSON) HJ eq_refl
                    (Demo.loginBegun JSON) (or_introl eq_refl))).
  - exact (proj1 (expired_session_is_absent Demo.accepting 302001 KV "id-1"
                    Demo.aliceSession (Demo.loginBegun KV) HK eq_refl
                    (Demo.loginBegun KV) (or_introl eq_refl))).
Defined.




(** C10. A completion that fails after the session was found does not
    delete it: at every time the store answers for that sessionId what it
    answered before, so the session can be retried until it expires, in
    both storage classes. With KVStorage, the store the service loads, a
    completion that succeeds leaves the credential persisted and the
    session removed. *)
Theorem failed_completion_keeps_session
    (ext : Externals) (now : Timestamp) (c : StorageClass) (sid : string)
    (s : Session) (w : World) :
  sessionOf c now sid w = Some s ->
  (forall cred uid o platform e w',
      run ext now
        (WebAuthnService.verifyRegistration (instance c) sid cred uid o
           platform) w = (Thrown e, w') ->
      forall t, sessionOf c t sid w' = sessionOf c t sid w)
  /\ (forall cred o e w',
        run ext now
          (WebAuthnService.verifyAuthentication (instance c) sid cred o) w
        = (Thrown e, w') ->
        forall t, sessionOf c t sid w' = sessionOf c t sid w)
  /\ (forall cred uid o platform r w',
        run ext now
          (WebAuthnService.verifyRegistration (instance KV) sid cred uid o
             platform) w = (Returned r, w') ->
        (forall t, sessionOf KV t sid w' = None)
        /\ exists p, credentialAt KV now (rr_passkeyId r) w' = Some p
                     /\ p_data p = rr_passkey r)
  /\ (forall cred o r w',
        run ext now
          (WebAuthnService.verifyAuthentication (instance KV) sid cred o) w
        = (Returned r, w') ->
        (forall t, sessionOf KV t sid w' = None)
        /\ exists p, credentialAt KV now (ar_passkeyId r) w' = Some p
                     /\ p_data p
                        = withCounter (p_data (ar_passkey r))
                            (pk_counter (p_data p))).
Proof.
  intros Hfound.
  assert (Hafter : c = JSON ->
            file_after_get now sid (configured ext now w) = configured ext now w).
  { intros ->. eapply file_after_get_found.
    by rewrite (configured_sessionOf ext now JSON). }
  split_and!.
  - intros cred uid o platform e w' H t. destruct c.
    + apply verifyRegistration_kv in H
        as [(_ & -> & _)|[(? & ? & _ & -> & _)|(? & ? & ? & ? & H)]];
        [by rewrite configured_sessionOf..|].
      destruct H as (_ & _ & _ & _ & [=] & _).
    + apply verifyRegistration_file in H
        as [(_ & -> & _)|[(? & ? & _ & -> & _)|(? & ? & ? & ? & H)]];
        [rewrite Hafter by done|..]; [by rewrite configured_sessionOf..|].
      destruct H as (_ & _ & _ & _ & [=] & _).
  - intros cred o e w' H t. destruct c.
    + apply verifyAuthentication_kv in H
        as [(_ & -> & _)|[(? & ? & _ & -> & _)|(? & ? & ? & ? & H)]];
        [by rewrite configured_sessionOf..|].
      destruct H as (_ & _ & _ & _ & [=] & _).
    + apply verifyAuthentication_file in H
        as [(_ & -> & _)|[(? & ? & _ & -> & _)|(? & ? & ? & ? & H)]];
        [rewrite Hafter by done|..]; [by rewrite configured_sessionOf..|].
      destruct H as (_ & _ & _ & _ & [=] & _).
  - intros cred uid o platform r w' H.
    apply verifyRegistration_kv in H
      as [([=] & _)|[(? & ? & [=] & _)|(s' & data & eo & info & H)]].
    destruct H as (_ & _ & _ & _ & [= ->] & _ & _ & Hpk & Hs & _).
    split.
    + intros t. cbn. rewrite Hs. apply kv_get_del.
    + eexists. cbn. rewrite Hpk. split; [apply kv_get_set|done].
  - intros cred o r w' H.
    apply verifyAuthentication_kv in H
      as [([=] & _)|[(? & ? & [=] & _)|(s' & p & eo & info & H)]].
    destruct H as (_ & _ & _ & _ & [= ->] & ->).
    split.
    + intros t. cbn. apply kv_get_del.
    + eexists. cbn. split; [apply kv_get_set|done].
Qed.

Lemma failed_completion_keeps_session_witness :
  sessionOf KV 3000 "id-1" (Demo.loginBegun KV) = Some Demo.aliceSession
  /\ (run Demo.rejecting 3000 (Demo.login KV) (Demo.loginBegun KV)).1
     = Thrown Errors.AuthenticationVerificationFailed
  /\ sessionOf KV 3000 "id-1"
       (run Demo.rejecting 3000 (Demo.login KV) (Demo.loginBegun KV)).2
     = Some Demo.aliceSession.
Proof.
  assert (Hs : sessionOf KV 3000 "id-1" (Demo.loginBegun KV)
               = Some Demo.aliceSession) by (vm_compute; reflexivity).
  assert (Hr : run Demo.rejecting 3000 (Demo.login KV) (Demo.loginBegun KV)
               = (Thrown Errors.AuthenticationVerificationFailed,
                  (run Demo.rejecting 3000 (Demo.login KV)
                     (Demo.loginBegun KV)).2))
    by (vm_compute; reflexivity).
  split; [exact Hs|]. split; [vm_compute; reflexivity|].
  exact (eq_trans
           (proj1 (proj2 (failed_completion_keeps_session Demo.rejecting 3000
                            KV "id-1" Demo.aliceSession (Demo.loginBegun KV)
                            Hs))
              Demo.credential None Errors.AuthenticationVerificationFailed
              _ Hr 3000)
           Hs).
Defined.

(** * Further properties of the code

What follows is read off the source alone: the storage classes method
by method, the service around its two completions, the backend service
and the handlers that answer a request. *)

(** ** The storage classes *)

(** X1. With KVStorage, the store the service loads, when the store serves
    the requests made to it: [savePasskey(id, data)] returns true, and
    [getPasskeyById(id)] then answers the record made of [data], the id,
    and the time of the call as both createdAt and lastUsed. Every other
    credential, every session and every user is answered as before. *)
Theorem savePasskey_replaces_one_record
    (ext : Externals) (now : Timestamp) (id : string) (data : PasskeyData)
    (w : World) :
  (run ext now (savePasskey (instance KV) id data) w).1 = Returned true
  /\ (run ext now (getPasskeyById (instance KV) id)
        (run ext now (savePasskey (instance KV) id data) w).2).1
     = Returned (Some {| p_data := data; p_id := id; p_createdAt := now;
                         p_lastUsed := now |})
  /\ (forall t id', id' <> id ->
        credentialAt KV t id'
          (run ext now (savePasskey (instance KV) id data) w).2
        = credentialAt KV t id' w)
  /\ (forall t sid,
        sessionOf KV t sid (run ext now (savePasskey (instance KV) id data) w).2
        = sessionOf KV t sid w)
  /\ (forall t uid,
        userAt KV t uid (run ext now (savePasskey (instance KV) id data) w).2
        = userAt KV t uid w).
Proof.
  rewrite (run_getPasskeyById ext now KV). cbn.
  split_and!; try done.
  - by rewrite kv_get_set.
  - intros t id' Hne. apply kv_get_set_ne. intros H. by apply key_inj in H.
Qed.

(** X2. With KVStorage, when the store serves the requests made to it and
    no other call writes the credential in between:
    [updatePasskeyLastUsed(id)] returns false and changes nothing when no
    credential has that id. Otherwise it returns true and the stored record
    keeps its data, its id and its createdAt, with lastUsed set to the time
    of the call. No other credential is touched. *)
Theorem updatePasskeyLastUsed_touches_lastUsed_only
    (ext : Externals) (now : Timestamp) (id : string) (w : World) :
  match credentialAt KV now id w with
  | None =>
      run ext now (updatePasskeyLastUsed (instance KV) id) w
      = (Returned false, w)
  | Some p =>
      (run ext now (updatePasskeyLastUsed (instance KV) id) w).1
      = Returned true
      /\ credentialAt KV now id
           (run ext now (updatePasskeyLastUsed (instance KV) id) w).2
         = Some {| p_data := p_data p; p_id := p_id p;
                   p_createdAt := p_createdAt p; p_lastUsed := now |}
  end
  /\ (forall t id', id' <> id ->
        credentialAt KV t id'
          (run ext now (updatePasskeyLastUsed (instance KV) id) w).2
        = credentialAt KV t id' w).
Proof.
  cbn.
  destruct (Kv.get now _ (kv_passkeys w)) as [p|] eqn:Hp; cbn.
  - split; [split; [done|apply kv_get_set]|].
    intros t id' Hne. apply kv_get_set_ne. intros H. by apply key_inj in H.
  - done.
Qed.

(** X3. With KVStorage, when the store serves the requests made to it and
    no other call writes the user in between: [saveUser(id, data)] returns
    true and leaves, under [id], the profile [data] with updatedAt at the
    time of the call; createdAt is that of the user already stored under
    [id] when there is one, and the time of the call otherwise. Other users
    and all credential records are left as they were. *)
Theorem saveUser_upserts
    (ext : Externals) (now : Timestamp) (id : string) (data : UserData)
    (w : World) :
  (run ext now (saveUser (instance KV) id data) w).1 = Returned true
  /\ userAt KV now id (run ext now (saveUser (instance KV) id data) w).2
     = Some {| u_data := data; u_id := id;
               u_createdAt := match userAt KV now id w with
                              | Some existing => u_createdAt existing
                              | None => now
                              end;
               u_updatedAt := now |}
  /\ (forall t id', id' <> id ->
        userAt KV t id' (run ext now (saveUser (instance KV) id data) w).2
        = userAt KV t id' w)
  /\ credentialRecords (run ext now (saveUser (instance KV) id data) w).2
     = credentialRecords w.
Proof.
  cbn.
  destruct (Kv.get now _ (kv_users w)) as [u|] eqn:Hu; cbn;
    (split_and!; [done|apply kv_get_set| |done]);
    intros t id' Hne; apply kv_get_set_ne; intros H; by apply key_inj in H.
Qed.

(** The session [saveChallenge] writes at [now], as [getChallenge] answers
    it at [t] *)
Lemma sessionOf_saveChallenge ext now c sid data w t :
  sessionOf c t sid (run ext now (saveChallenge (instance c) sid data) w).2
  = if match c with
       | KV => (t <? now + fiveMinutes)%Z
       | JSON => (t <=? now + fiveMinutes)%Z
       end
    then Some {| s_data := data; s_createdAt := now;
                 s_expiresAt := now + fiveMinutes |}
    else None.
Proof.
  destruct c; cbn.
  - unfold Kv.get, Kv.set, Kv.live. by rewrite lookup_insert_eq.
  - unfold file_session, JSONStorage.expired. cbn. rewrite lookup_insert_eq. cbn.
    rewrite Z.leb_antisym. by destruct (_ <? _)%Z.
Qed.

(** X4. With KVStorage, when the store serves the requests made to it and
    its clock is the one of the service: a session saved at [now] is
    answered by [getChallenge], with the stored data, createdAt [now] and
    expiresAt five minutes later, at every time from [now] until before
    [now] + 5 min, and null at every time after [now] + 5 min.
    [deleteChallenge] returns true and makes [getChallenge] answer null at
    once. Neither call changes what is answered for another sessionId. *)
Theorem challenge_store_round_trip
    (ext : Externals) (now : Timestamp) (sid : string) (data : ChallengeData)
    (w : World) :
  (forall t, (now <= t < now + fiveMinutes)%Z ->
      (run ext t (getChallenge (instance KV) sid)
         (run ext now (saveChallenge (instance KV) sid data) w).2).1
      = Returned (Some {| s_data := data; s_createdAt := now;
                          s_expiresAt := now + fiveMinutes |}))
  /\ (forall t, (now + fiveMinutes < t)%Z ->
        (run ext t (getChallenge (instance KV) sid)
           (run ext now (saveChallenge (instance KV) sid data) w).2).1
        = Returned None)
  /\ (forall t sid', sid' <> sid ->
        sessionOf KV t sid'
          (run ext now (saveChallenge (instance KV) sid data) w).2
        = sessionOf KV t sid' w)
  /\ (forall t,
        (run ext t (getChallenge (instance KV) sid)
           (run ext now (deleteChallenge (instance KV) sid) w).2).1
        = Returned None)
  /\ (forall t sid', sid' <> sid ->
        sessionOf KV t sid'
          (run ext now (deleteChallenge (instance KV) sid) w).2
        = sessionOf KV t sid' w)
  /\ (run ext now (deleteChallenge (instance KV) sid) w).1 = Returned true.
Proof.
  split_and!.
  - intros t Ht.
    rewrite (run_getChallenge ext t KV), (sessionOf_saveChallenge ext now KV).
    destruct (Z.ltb_spec t (now + fiveMinutes)); [done|lia].
  - intros t Ht.
    rewrite (run_getChallenge ext t KV), (sessionOf_saveChallenge ext now KV).
    destruct (Z.ltb_spec t (now + fiveMinutes)); [lia|done].
  - intros t sid' Hne. cbn. apply kv_get_set_ne. intros H. by apply key_inj in H.
  - intros t. rewrite (run_getChallenge ext t KV). cbn.
    unfold Kv.get, Kv.del. by rewrite lookup_delete_eq.
  - intros t sid' Hne. cbn. apply kv_get_del_ne. intros H. by apply key_inj in H.
  - done.
Qed.





(** X6. [deletePasskey(id)] of JSONStorage, whether or not the file system
    fails at the read and at the write. What it looks [id] up in is the
    file, or the empty object when the read fails. When neither that object
    nor the prototype of objects has a property [id], it returns false and
    writes nothing. Otherwise it returns what the write returns, true when
    it succeeds and false when it fails, and a write that succeeds leaves
    in the file the object without its own property [id]: for an [id] that
    only the prototype has, such as "constructor", that is the object as it
    was read. Nothing is said of the file after a write that failed. *)
Theorem deletePasskey_of_the_file
    (ext : Externals) (now : Timestamp) (id : string) (rd wr : bool)
    (w : World) :
  let passkeys := if rd then ∅ else passkeyFile w in
  (Js.get passkeys id = Js.Undefined ->
     runFaulty ext now [rd; wr] (JSONStorageRest.deletePasskey id) w
     = (Returned false, w))
  /\ (Js.get passkeys id <> Js.Undefined ->
        (runFaulty ext now [rd; wr] (JSONStorageRest.deletePasskey id) w).1
        = Returned (negb wr)
        /\ (wr = false ->
            (runFaulty ext now [rd; wr] (JSONStorageRest.deletePasskey id)
               w).2
            = set_passkeyFile (delete id passkeys) w))
  /\ (passkeys !! id = None -> delete id passkeys = passkeys).
Proof.
  intros passkeys. unfold JSONStorageRest.deletePasskey.
  split_and!.
  - intros Hu. subst passkeys. destruct rd; cbn in *; by rewrite Hu.
  - intros Hd. subst passkeys.
    destruct rd; cbn in *;
      (destruct (Js.get _ id) eqn:Hg; [| |done]); by destruct wr.
  - apply delete_id.
Qed.

(** X22. [savePasskey(id, data)] of JSONStorage, whether or not the file
    system fails at the read and at the write, for an id other than
    "__proto__". It returns what the write returns: true when it succeeds
    and false when it fails. A write that succeeds leaves in the file the
    object that was read with the new record under [id]; after a read that
    failed that object is the empty one, and the file then holds the new
    record and nothing else. Nothing is said of the file after a write that
    failed. *)
Theorem savePasskey_of_the_file
    (ext : Externals) (now : Timestamp) (id : string) (data : PasskeyData)
    (rd wr : bool) (w : World) :
  id <> "__proto__" ->
  (runFaulty ext now [rd; wr] (JSONStorage.savePasskey id data) w).1
  = Returned (negb wr)
  /\ (wr = false ->
      (runFaulty ext now [rd; wr] (JSONStorage.savePasskey id data) w).2
      = set_passkeyFile
          (<[id := {| p_data := data; p_id := id; p_createdAt := now;
                      p_lastUsed := now |}]>
             (if rd then ∅ else passkeyFile w))
          w).
Proof. intros _. by destruct rd, wr. Qed.

(** alice's credential is in the file; the read fails and the write
    succeeds: her credential is gone *)
Lemma savePasskey_of_the_file_witness :
  passkeyFile (Demo.withAlice JSON) !! "p1" = Some Demo.alice
  /\ (runFaulty Demo.accepting 3000 [true; false]
        (JSONStorage.savePasskey "p2" (p_data Demo.alice))
        (Demo.withAlice JSON)).1
     = Returned true
  /\ passkeyFile
       (runFaulty Demo.accepting 3000 [true; false]
          (JSONStorage.savePasskey "p2" (p_data Demo.alice))
          (Demo.withAlice JSON)).2 !! "p1"
     = None.
Proof.
  split; [vm_compute; reflexivity|].
  destruct (savePasskey_of_the_file Demo.accepting 3000 "p2"
              (p_data Demo.alice) true false (Demo.withAlice JSON)
              ltac:(discriminate)) as [Hret Hfile].
  split; [exact Hret|]. rewrite (Hfile eq_refl). vm_compute; reflexivity.
Defined.

Lemma startsWith_key k prefix :
  Js.startsWith k prefix = true <-> exists id, k = KVStorage.key prefix id.
Proof.
  unfold Js.startsWith, KVStorage.key. revert k.
  induction prefix as [|ch prefix IH]; intros k.
  - split; [intros _; by exists k|by destruct k].
  - destruct k as [|ch' k]; cbn [String.prefix].
    + split; [done|]. by intros [id [=]].
    + destruct (Ascii.ascii_dec ch ch') as [->|Hne].
      * rewrite IH. split; intros [id H]; exists id.
        -- change (String ch' k = String ch' (prefix +:+ id)). by rewrite H.
        -- change (String ch' k = String ch' (prefix +:+ id)) in H.
           by injection H.
      * split; [done|]. intros [id H].
        change (String ch' k = String ch (prefix +:+ id)) in H.
        injection H as H _. by destruct Hne.
Qed.

Lemma elem_of_values {V} (m : gmap string V) v :
  v ∈ JSONStorage.values m <-> exists k, m !! k = Some v.
Proof.
  unfold JSONStorage.values. rewrite list_elem_of_fmap. split.
  - intros ([k v'] & -> & H). exists k. by apply elem_of_map_to_list.
  - intros (k & H). exists (k, v). split; [done|]. by apply elem_of_map_to_list.
Qed.

Lemma elem_of_credentialsOf c now w p :
  p ∈ credentialsOf c now w <-> exists id, credentialAt c now id w = Some p.
Proof.
  destruct c; cbn [credentialsOf credentialAt].
  - unfold kv_stored. rewrite list_elem_of_omap. split.
    + intros (k & Hk & Hg). unfold Kv.keys in Hk.
      apply list_elem_of_In, filter_In in Hk as [_ Hk].
      apply andb_true_iff in Hk as [Hk _].
      apply startsWith_key in Hk as [id ->]. by exists id.
    + intros (id & Hg). exists (KVStorage.key KVStorage.passkeyPrefix id).
      split; [|done]. unfold Kv.keys.
      apply list_elem_of_In, filter_In. split.
      * apply list_elem_of_In, list_elem_of_fmap.
        unfold Kv.get in Hg.
        destruct (kv_passkeys w !! _) as [e|] eqn:He; [|done].
        exists (KVStorage.key KVStorage.passkeyPrefix id, e).
        split; [done|]. by apply elem_of_map_to_list.
      * apply andb_true_iff. split.
        -- apply startsWith_key. by exists id.
        -- apply bool_decide_eq_true. by rewrite Hg.
  - apply elem_of_values.
Qed.

(** X7. With KVStorage, when the store serves the requests made to it and
    no credential is written or removed while the call is in flight:
    [getPasskeys(userId)] returns exactly the credentials that
    [getPasskeyById] answers for some id, restricted to those whose userId
    is [userId] when that is given and not empty, and changes nothing.
    [getAllUsers] of JSONStorage returns exactly the users the file holds,
    and none when the file cannot be read. *)
Theorem listing_agrees_with_lookup
    (ext : Externals) (now : Timestamp) (w : World) :
  (forall userId,
      exists l,
        run ext now (getPasskeys (instance KV) userId) w
        = (Returned (Some <$> l), w)
        /\ forall p,
             p ∈ l
             <-> (exists id,
                    (run ext now (getPasskeyById (instance KV) id) w).1
                    = Returned (Some p))
                 /\ (Js.truthy userId = true ->
                     pk_userId (p_data p) = userId))
  /\ forall rd,
       exists users,
         runFaulty ext now [rd] JSONStorageRest.getAllUsers w
         = (Returned users, w)
         /\ forall u,
              u ∈ users
              <-> rd = false /\ exists id, userFile w !! id = Some u.
Proof.
  split.
  - intros userId. exists (owned userId (credentialsOf KV now w)).
    split; [apply (run_getPasskeys ext now KV)|]. intros p.
    assert (forall id,
              (run ext now (getPasskeyById (instance KV) id) w).1
              = Returned (Some p)
              <-> credentialAt KV now id w = Some p) as Hby.
    { intros id. rewrite (run_getPasskeyById ext now KV). cbn.
      split; congruence. }
    destruct (Js.truthy userId) eqn:Ht.
    + rewrite elem_of_owned, elem_of_credentialsOf by done.
      split; intros [[id H] Hu]; (split; [exists id; by apply Hby|auto]).
    + rewrite owned_nullish, elem_of_credentialsOf by done.
      split; [intros [id H]|intros [[id H] _]];
        [split; [|done]|]; exists id; by apply Hby.
  - intros [|].
    + exists []. split; [done|]. intros u. rewrite elem_of_nil.
      split; [done|by intros [? _]].
    + exists (JSONStorage.values (userFile w)). split; [done|].
      intros u. rewrite elem_of_values.
      split; [intros [k H]; split; [done|by exists k]|].
      intros [_ [k H]]. by exists k.
Qed.

(** ** The service: configuration, platform and the two ceremonies *)

Lemma orStr_orStr a b : Js.orStr a (Js.orStr a b) = Js.orStr a b.
Proof. destruct a as [s|]; cbn; [|done]. by destruct (String.eqb s ""). Qed.

Lemma orNum_orNum a b : Js.orNum a (Js.orNum a b) = Js.orNum a b.
Proof. destruct a as [n|]; cbn; [|done]. by destruct (Z.eqb n 0). Qed.

Lemma orArr_orArr {A} a (b : list A) : Js.orArr a (Js.orArr a b) = Js.orArr a b.
Proof. by destruct a. Qed.

Lemma configured_userAt ext now c t id w :
  userAt c t id (configured ext now w) = userAt c t id w.
Proof.
  destruct (configured_stores ext now w) as (_ & Hu & _ & _ & Huf & _).
  destruct c; unfold userAt; by rewrite ?Hu, ?Huf.
Qed.

Lemma configured_credentialAt ext now c t id w :
  credentialAt c t id (configured ext now w) = credentialAt c t id w.
Proof.
  destruct (configured_stores ext now w) as (Hpk & _ & _ & Hpf & _).
  destruct c; unfold credentialAt; by rewrite ?Hpk, ?Hpf.
Qed.

Lemma configured_credentialsOf ext now c t w :
  credentialsOf c t (configured ext now w) = credentialsOf c t w.
Proof.
  destruct (configured_stores ext now w) as (Hpk & _ & _ & Hpf & _).
  destruct c; unfold credentialsOf, kv_stored, file_stored;
    by rewrite ?Hpk, ?Hpf.
Qed.

(** X8. [initializeConfig] never throws. It overrides each of rpName,
    rpID, origin, timeout and allowedOrigins by the value the loaded
    configuration gives under webauthn, when that value is given (and, for
    the strings and the timeout, neither empty nor 0), and keeps the
    current value otherwise; with no configuration to load, or none under
    webauthn, it keeps them all. Running it again changes nothing more, and
    it touches no credential record and no session. *)
Theorem initializeConfig_falls_back
    (ext : Externals) (now : Timestamp) (w : World) :
  (run ext now WebAuthnService.initializeConfig w).1 = Returned tt
  /\ rp (configured ext now w)
     = match loaded w ≫= webauthn with
       | Some config =>
           {| This.rpName := Js.orStr (wc_rpName config) (This.rpName (rp w));
              This.rpID := Js.orStr (wc_rpID config) (This.rpID (rp w));
              This.origin := Js.orStr (wc_origin config) (This.origin (rp w));
              This.timeout :=
                Js.orNum (wc_timeout config) (This.timeout (rp w));
              This.allowedOrigins :=
                Js.orArr (wc_allowedOrigins config)
                  (This.allowedOrigins (rp w)) |}
       | None => rp w
       end
  /\ configured ext now (configured ext now w) = configured ext now w
  /\ credentialRecords (configured ext now w) = credentialRecords w
  /\ (forall c t sid,
        sessionOf c t sid (configured ext now w) = sessionOf c t sid w).
Proof.
  split; [by rewrite run_initializeConfig|].
  split_and!.
  - unfold configured, loaded.
    destruct w as [? ? ? ? ? ? ? [c|] [f|] ?]; cbn;
      try (destruct (webauthn c)); try (destruct (webauthn f)); done.
  - unfold configured.
    destruct w as [? ? ? ? ? ? ? [c|] [f|] ?]; cbn;
      try (destruct (webauthn c) eqn:E); try (destruct (webauthn f) eqn:E);
      cbn; rewrite ?E; cbn;
      by rewrite ?orStr_orStr, ?orNum_orNum, ?orArr_orArr.
  - apply configured_credentialRecords.
  - intros c t sid. apply configured_sessionOf.
Qed.

Lemma toLowerCase_app a b :
  Js.toLowerCase (a +:+ b) = Js.toLowerCase a +:+ Js.toLowerCase b.
Proof.
  induction a as [|ch a IH]; [done|].
  change (String (Js.lowerAscii ch) (Js.toLowerCase (a +:+ b))
          = String (Js.lowerAscii ch) (Js.toLowerCase a +:+ Js.toLowerCase b)).
  by rewrite IH.
Qed.

Lemma startsWith_app s rest : Js.startsWith (s +:+ rest) s = true.
Proof.
  unfold Js.startsWith. induction s as [|ch s IH]; [by destruct rest|].
  change (String.prefix (String ch s) (String ch (s +:+ rest)) = true).
  cbn [String.prefix]. destruct (Ascii.ascii_dec ch ch); [done|congruence].
Qed.

Lemma includes_app pre s sub :
  JsString.includes s sub = true -> JsString.includes (pre +:+ s) sub = true.
Proof.
  intros H. induction pre as [|ch pre IH]; [done|].
  change (JsString.includes (String ch (pre +:+ s)) sub = true).
  cbn [JsString.includes]. apply orb_true_iff. by right.
Qed.

Lemma includes_inside pre mid post :
  JsString.includes (pre +:+ mid +:+ post) mid = true.
Proof.
  apply includes_app.
  pose proof (startsWith_app mid post) as H.
  destruct (mid +:+ post); cbn [JsString.includes]; by rewrite H.
Qed.

Ltac among := apply list_elem_of_In; cbn; tauto.

(** X9. [detectPlatform] returns an explicit platform that is not empty,
    when it is made of ASCII characters, with its letters A to Z in lower
    case, whatever the user agent says. Without one it returns android, ios
    or web: android whenever the user agent contains that word in any
    letter case, and never web when it contains iphone, ipad or ipod. *)
Theorem detectPlatform_rules (userAgent : string) :
  (forall platform, platform <> "" -> JsString.ascii platform = true ->
     Platform.detectPlatform userAgent (Some platform)
     = Js.toLowerCase platform)
  /\ (forall explicit, Js.truthy explicit = false ->
        Platform.detectPlatform userAgent explicit
          ∈ ["android"; "ios"; "web"]
        /\ (forall before name after,
              userAgent = before +:+ name +:+ after ->
              Js.toLowerCase name = "android" ->
              Platform.detectPlatform userAgent explicit = "android")
        /\ (forall before name after,
              userAgent = before +:+ name +:+ after ->
              Js.toLowerCase name ∈ ["iphone"; "ipad"; "ipod"] ->
              Platform.detectPlatform userAgent explicit
                ∈ ["android"; "ios"])).
Proof.
  split.
  - intros platform Hne _. unfold Platform.detectPlatform. cbn.
    apply String.eqb_neq in Hne. by rewrite Hne.
  - intros explicit He. unfold Platform.detectPlatform. rewrite He.
    split_and!.
    + destruct (JsString.includes _ "android"); [among|].
      destruct (_ || _); among.
    + intros before name after -> Hn.
      rewrite !toLowerCase_app, Hn. by rewrite includes_inside.
    + intros before name after -> Hn.
      destruct (JsString.includes _ "android"); [among|].
      rewrite !toLowerCase_app.
      pose proof (includes_inside (Js.toLowerCase before)
                    (Js.toLowerCase name) (Js.toLowerCase after)) as Hi.
      apply list_elem_of_In in Hn. cbn in Hn.
      destruct Hn as [Hn|[Hn|[Hn|[]]]]; rewrite <- Hn in Hi |- *;
        rewrite Hi, ?orb_true_r; among.
Qed.

(** X10. With KVStorage, the store the service loads, when the store and
    the primitive serve the requests made to them:
    [generateRegistrationOptions] asks the primitive for options that
    exclude the credentials stored for the userId (every stored credential
    when the userId is empty), with the authenticator selection of the
    platform, and returns them with a fresh sessionId. Under that sessionId
    it stores a session of type registration with the challenge of the
    options, the userId, the username, the displayName and the platform,
    which [getChallenge] answers from then until five minutes later. No
    other session and no credential record is changed. *)
Theorem generateRegistrationOptions_begins
    (ext : Externals) (now : Timestamp) (uid username : string)
    (displayName : option string) (platform : string) (w : World) :
  (run ext now
     (WebAuthnService.generateRegistrationOptions (instance KV) uid username
        displayName platform) w).1
  = Returned
      ({| challenge := randomChallenge ext (drawn w);
          request :=
            {| ro_rpName := This.rpName (rp (configured ext now w));
               ro_rpID := This.rpID (rp (configured ext now w));
               ro_userID := uid;
               ro_userName := username;
               ro_userDisplayName := Js.orStr displayName username;
               ro_timeout := This.timeout (rp (configured ext now w));
               ro_attestationType := "none";
               ro_excludeCredentials :=
                 WebAuthnService.descriptor platform
                   <$> owned (Some uid) (credentialsOf KV now w);
               ro_authenticatorSelection :=
                 WebAuthnService.getAuthenticatorSelection platform;
               ro_supportedAlgorithmIDs :=
                 [-7; -257; -35; -36; -37; -38; -39]%Z |} |},
       uuidv4 ext (S (drawn w)))
  /\ (forall t, (now <= t < now + fiveMinutes)%Z ->
        sessionOf KV t (uuidv4 ext (S (drawn w)))
          (run ext now
             (WebAuthnService.generateRegistrationOptions (instance KV) uid
                username displayName platform) w).2
        = Some {| s_data :=
                    {| cd_challenge := randomChallenge ext (drawn w);
                       cd_userId := Some uid;
                       cd_username := Some username;
                       cd_displayName := displayName;
                       cd_platform := platform;
                       cd_type := registration |};
                  s_createdAt := now;
                  s_expiresAt := now + fiveMinutes |})
  /\ (forall t sid, sid <> uuidv4 ext (S (drawn w)) ->
        sessionOf KV t sid
          (run ext now
             (WebAuthnService.generateRegistrationOptions (instance KV) uid
                username displayName platform) w).2
        = sessionOf KV t sid w)
  /\ credentialRecords
       (run ext now
          (WebAuthnService.generateRegistrationOptions (instance KV) uid
             username displayName platform) w).2
     = credentialRecords w.
Proof.
  destruct (configured_stores ext now w)
    as (Hpk & _ & Hs & Hpf & _ & Hsf & Hd).
  assert (Hc : credentialsOf KV now (configured ext now w)
               = credentialsOf KV now w).
  { unfold credentialsOf, kv_stored. by rewrite ?Hpk. }
  unfold WebAuthnService.generateRegistrationOptions.
  rewrite run_bind, run_initializeConfig. cbn [run].
  rewrite run_bind, (run_getPasskeys ext now KV). cbn [run].
  rewrite run_bind, descriptors_Some. cbn [run].
  rewrite Hc.
  cbn; rewrite Hd.
  split_and!; try done.
  - intros t Ht. unfold Kv.get, Kv.set, Kv.live. rewrite lookup_insert_eq.
    cbn. change (5 * 60 * 1000)%Z with fiveMinutes.
    destruct (Z.ltb_spec t (now + fiveMinutes)); [done|lia].
  - intros t sid Hne. rewrite kv_get_set_ne, Hs; [done|].
    intros H. by apply key_inj in H.
  - unfold credentialRecords. cbn. by rewrite Hpk, Hpf.
Qed.

Lemma run_getChallenge_found ext now c sid w s :
  sessionOf c now sid w = Some s ->
  run ext now (getChallenge (instance c) sid) (configured ext now w)
  = (Returned (Some s), configured ext now w).
Proof.
  intros Hs. rewrite <- (configured_sessionOf ext now c now sid w) in Hs.
  destruct c; cbn [instance getChallenge JSONStorage.storage KVStorage.storage].
  - cbn in *. by rewrite Hs.
  - rewrite run_file_getChallenge. cbn in Hs. rewrite Hs.
    by rewrite (file_after_get_found now sid _ s).
Qed.

Lemma expectedOrigin_invalid this o platform :
  platform <> "web" -> Js.truthy (Some o) = true ->
  WebAuthnService.isValidOrigin this o platform = false ->
  WebAuthnService.expectedOrigin this (Some o) platform
  = Throw (MkError ("Invalid origin for " +:+ platform +:+ " platform: "
                    +:+ o)).
Proof.
  intros Hp Ho Hv. unfold WebAuthnService.expectedOrigin.
  apply String.eqb_neq in Hp. rewrite Hp, Ho. cbn [negb andb Js.toString default id]. unfold id.
  by rewrite Hv.
Qed.

(** What a registration that returns has stored *)
Lemma verifyRegistration_returned
    (ext : Externals) (now : Timestamp) (c : StorageClass) (sid : string)
    (cred : Credential) (uid : string) (o : option string) (platform : string)
    (w w' : World) (r : RegistrationResult) :
  run ext now
    (WebAuthnService.verifyRegistration (instance c) sid cred uid o platform) w
  = (Returned r, w') ->
  exists s eo info,
    sessionOf c now sid w = Some s
    /\ WebAuthnService.expectedOrigin (rp (configured ext now w)) o platform
       = Ret eo
    /\ verifyRegistrationResponse ext
         (regArgs (rp (configured ext now w)) s cred eo)
       = inr (Verified info)
    /\ rr_passkey r
       = {| pk_userId := Some uid;
            pk_username := cd_username (s_data s);
            pk_displayName := cd_displayName (s_data s);
            pk_credentialID := ri_credentialID info;
            pk_credentialPublicKey := ri_credentialPublicKey info;
            pk_counter := ri_counter info;
            pk_credentialDeviceType := ri_credentialDeviceType info;
            pk_credentialBackedUp := ri_credentialBackedUp info;
            pk_transports :=
              Some (Js.orArr (c_transports cred)
                      (WebAuthnService.getTransportsForPlatform None
                         (Js.orStr (Some (cd_platform (s_data s))) platform)));
            pk_aaguid := ri_aaguid info;
            pk_platform := Js.orStr (Some (cd_platform (s_data s))) platform;
            pk_registeredFrom := eo |}
    /\ credentialAt c now (rr_passkeyId r) w'
       = Some {| p_data := rr_passkey r; p_id := rr_passkeyId r;
                 p_createdAt := now; p_lastUsed := now |}
    /\ userAt c now uid w'
       = Some {| u_data := {| ud_username := cd_username (s_data s);
                              ud_displayName := cd_displayName (s_data s) |};
                 u_id := uid;
                 u_createdAt := match userAt c now uid w with
                                | Some existing => u_createdAt existing
                                | None => now
                                end;
                 u_updatedAt := now |}
    /\ (forall t id, id <> rr_passkeyId r ->
          credentialAt c t id w' = credentialAt c t id w)
    /\ (forall t id, id <> uid -> userAt c t id w' = userAt c t id w).
Proof.
  pose proof (configured_sessionOf ext now c now sid w) as Hfs.
  pose proof (configured_userAt ext now c) as Hua.
  pose proof (configured_credentialAt ext now c) as Hca.
  unfold WebAuthnService.verifyRegistration.
  rewrite run_bind, run_initializeConfig. cbn [run].
  rewrite run_bind.
  pose proof (run_getChallenge ext now c sid (configured ext now w)) as Hg.
  destruct (run ext now (getChallenge (instance c) sid) _) as [out0 w0] eqn:Hrun0.
  cbn [fst] in Hg. subst out0. rewrite Hfs. cbn [run].
  destruct (sessionOf c now sid w) as [s|] eqn:Hs; cbn [run]; [|done].
  assert (w0 = configured ext now w) as ->.
  { destruct c; cbn [instance getChallenge JSONStorage.storage
                       KVStorage.storage] in Hrun0.
    - cbn in Hrun0. by injection Hrun0 as <-.
    - rewrite run_file_getChallenge in Hrun0. injection Hrun0 as <-.
      eapply file_after_get_found. cbn in Hfs. by rewrite Hfs. }
  case_bool_decide as Ht; cbn [negb run]; [|done].
  case_bool_decide as Hu; cbn [negb run]; [|done].
  repeat step.
  destruct (expectedOrigin_cases (rp (configured ext now w)) o platform)
    as [[eo Heo]|[e Heo]]; rewrite Heo; cbn [run]; [|done].
  repeat step.
  destruct (verifyRegistrationResponse ext _) as [e|[info|]] eqn:Hv;
    cbn [run]; [done| |done].
  rewrite Hu. cbn [Js.toString default].
  specialize (Hua now uid w). specialize (Hca).
  destruct c; cbn -[Js.orStr Js.orArr WebAuthnService.getTransportsForPlatform].
  - cbn in Hua. rewrite Hua.
    destruct (Kv.get now _ (kv_users w)) as [u|] eqn:Hk;
      cbn -[Js.orStr Js.orArr WebAuthnService.getTransportsForPlatform];
      intros [= <- <-]; exists s, eo, info;
      cbn -[Js.orStr Js.orArr WebAuthnService.getTransportsForPlatform];
      (split_and!; try done;
       [apply kv_get_set|apply kv_get_set| |]);
      intros t id Hne.
    all: try (rewrite kv_get_set_ne by (intros H; by apply key_inj in H)).
    all: try apply (Hca t id w).
    all: apply (configured_userAt ext now KV t id w).
  - cbn in Hua. rewrite Hua.
    assert (is_Some (sessionFile (configured ext now w) !! sid)) as [s' Hs'].
    { destruct (configured_stores ext now w) as (_ & _ & _ & _ & _ & -> & _).
      cbn in Hs. unfold file_session in Hs.
      destruct (sessionFile w !! sid); naive_solver. }
    destruct (userFile w !! uid) as [u|] eqn:Hk;
      cbn -[Js.orStr Js.orArr WebAuthnService.getTransportsForPlatform];
      rewrite Hs';
      cbn -[Js.orStr Js.orArr WebAuthnService.getTransportsForPlatform];
      intros [= <- <-]; exists s, eo, info;
      cbn -[Js.orStr Js.orArr WebAuthnService.getTransportsForPlatform];
      (split_and!; try done;
       [apply lookup_insert_eq|apply lookup_insert_eq| |]);
      intros t id Hne.
    all: try (rewrite lookup_insert_ne by done).
    all: try apply (Hca t id w).
    all: apply (configured_userAt ext now JSON t id w).
Qed.

(** X11. With KVStorage, the store the service loads: when
    [verifyRegistration] returns, no other call having written in between,
    the session was found, the origin passed the platform rule, and the
    primitive verified the response against the session's challenge and
    that origin. The credential then stored under the returned passkeyId is the returned
    passkey: userId, username and displayName of the session, credential
    id, public key, counter, device type, backup flag and aaguid as the
    primitive reported them, the transports of the response or else the
    defaults of the platform, the platform of the session (the one of the
    call only when the session's is empty), the expected origin as
    registeredFrom, and the time of the call as createdAt and lastUsed. The
    user's profile is stored with the session's username and displayName,
    keeping an earlier createdAt. No other credential and no other user is
    changed. *)
Theorem registration_stores_credential_and_user
    (ext : Externals) (now : Timestamp) (sid : string)
    (cred : Credential) (uid : string) (o : option string) (platform : string)
    (w w' : World) (r : RegistrationResult) :
  run ext now
    (WebAuthnService.verifyRegistration (instance KV) sid cred uid o platform) w
  = (Returned r, w') ->
  exists s eo info,
    sessionOf KV now sid w = Some s
    /\ WebAuthnService.expectedOrigin (rp (configured ext now w)) o platform
       = Ret eo
    /\ verifyRegistrationResponse ext
         (regArgs (rp (configured ext now w)) s cred eo)
       = inr (Verified info)
    /\ rr_passkey r
       = {| pk_userId := Some uid;
            pk_username := cd_username (s_data s);
            pk_displayName := cd_displayName (s_data s);
            pk_credentialID := ri_credentialID info;
            pk_credentialPublicKey := ri_credentialPublicKey info;
            pk_counter := ri_counter info;
            pk_credentialDeviceType := ri_credentialDeviceType info;
            pk_credentialBackedUp := ri_credentialBackedUp info;
            pk_transports :=
              Some (Js.orArr (c_transports cred)
                      (WebAuthnService.getTransportsForPlatform None
                         (Js.orStr (Some (cd_platform (s_data s))) platform)));
            pk_aaguid := ri_aaguid info;
            pk_platform := Js.orStr (Some (cd_platform (s_data s))) platform;
            pk_registeredFrom := eo |}
    /\ credentialAt KV now (rr_passkeyId r) w'
       = Some {| p_data := rr_passkey r; p_id := rr_passkeyId r;
                 p_createdAt := now; p_lastUsed := now |}
    /\ userAt KV now uid w'
       = Some {| u_data := {| ud_username := cd_username (s_data s);
                              ud_displayName := cd_displayName (s_data s) |};
                 u_id := uid;
                 u_createdAt := match userAt KV now uid w with
                                | Some existing => u_createdAt existing
                                | None => now
                                end;
                 u_updatedAt := now |}
    /\ (forall t id, id <> rr_passkeyId r ->
          credentialAt KV t id w' = credentialAt KV t id w)
    /\ (forall t id, id <> uid -> userAt KV t id w' = userAt KV t id w).
Proof. apply (verifyRegistration_returned ext now KV). Qed.

(** A registration begun on android at 2000 and completed at 3000 *)
Lemma registration_stores_credential_and_user_witness :
  credentialAt KV 3000 "id-1"
    (run Demo.accepting 3000 (Demo.register KV) (Demo.registrationBegun KV)).2
  = Some {| p_data := rr_passkey Demo.registered; p_id := "id-1";
            p_createdAt := 3000; p_lastUsed := 3000 |}
  /\ pk_transports (rr_passkey Demo.registered)
     = Some ["internal"; "hybrid"; "nfc"; "ble"; "usb"]
  /\ exists u,
       userAt KV 3000 "u1"
         (run Demo.accepting 3000 (Demo.register KV)
            (Demo.registrationBegun KV)).2
       = Some u
       /\ u_createdAt u = 3000.
Proof.
  destruct (registration_stores_credential_and_user Demo.accepting 3000
              "id-1" Demo.credential "u1" None "android"
              (Demo.registrationBegun KV)
              (run Demo.accepting 3000 (Demo.register KV)
                 (Demo.registrationBegun KV)).2
              Demo.registered)
    as (s & eo & info & _ & _ & _ & _ & Hc & Hu & _);
    [vm_compute; reflexivity|].
  split; [exact Hc|]. split; [reflexivity|].
  eexists. split; [exact Hu|]. vm_compute; reflexivity.
Defined.

(** X12. The checks a completion makes on its own, once the session is
    found. A registration whose session belongs to another userId throws
    "User ID mismatch"; an authentication whose credential id matches no
    stored credential throws "Passkey not found". This holds whatever the
    primitive would say of the response, and the world is left as
    [initializeConfig] leaves it: the session stays, and nothing is
    stored. *)
Theorem checks_before_the_primitive
    (ext : Externals) (now : Timestamp) (c : StorageClass) (sid : string)
    (cred : Credential) (o : option string) (w : World) (s : Session) :
  sessionOf c now sid w = Some s ->
  (forall uid platform,
      cd_type (s_data s) = registration ->
      cd_userId (s_data s) <> Some uid ->
      run ext now
        (WebAuthnService.verifyRegistration (instance c) sid cred uid o
           platform) w
      = (Thrown Errors.UserMismatch, configured ext now w))
  /\ (cd_type (s_data s) = authentication ->
      List.find (matches (base64url ext (c_id cred))) (credentialsOf c now w)
      = None ->
      run ext now
        (WebAuthnService.verifyAuthentication (instance c) sid cred o) w
      = (Thrown Errors.CredentialNotFound, configured ext now w)).
Proof.
  intros Hs. split.
  - intros uid platform Ht Hu.
    unfold WebAuthnService.verifyRegistration.
    rewrite run_bind, run_initializeConfig. cbn [run].
    rewrite run_bind, (run_getChallenge_found ext now c sid w s Hs). cbn [run].
    rewrite bool_decide_eq_true_2 by done. cbn [negb].
    by rewrite bool_decide_eq_false_2 by done.
  - intros Ht Hf.
    unfold WebAuthnService.verifyAuthentication.
    rewrite run_bind, run_initializeConfig. cbn [run].
    rewrite run_bind, (run_getChallenge_found ext now c sid w s Hs). cbn [run].
    rewrite bool_decide_eq_true_2 by done. cbn [negb].
    rewrite run_bind, run_getPasskeys. cbn [run].
    rewrite run_bind, run_perform. cbn [handle fst snd].
    rewrite run_bind, find_Some. cbn [run].
    rewrite configured_credentialsOf. cbn [owned Js.truthy].
    unfold matches in Hf. by rewrite Hf.
Qed.

(** The registration begun for u1, completed in the name of u2 *)
Lemma checks_before_the_primitive_witness :
  (run Demo.accepting 3000
     (WebAuthnService.verifyRegistration (instance KV) "id-1" Demo.credential
        "u2" None "android")
     (Demo.registrationBegun KV)).1
  = Thrown Errors.UserMismatch.
Proof.
  assert (Hs : sessionOf KV 3000 "id-1" (Demo.registrationBegun KV)
               = Some {| s_data :=
                           {| cd_challenge := "challenge";
                              cd_userId := Some "u1";
                              cd_username := Some "a@b.com";
                              cd_displayName := Some "A";
                              cd_platform := "android";
                              cd_type := registration |};
                         s_createdAt := 2000; s_expiresAt := 302000 |})
    by (vm_compute; reflexivity).
  exact (f_equal fst
           (proj1 (checks_before_the_primitive Demo.accepting 3000 KV "id-1"
                     Demo.credential None (Demo.registrationBegun KV) _ Hs)
              "u2" "android" eq_refl ltac:(discriminate))).
Defined.

(** X13. The origin rule of the two completions. With an origin given
    and not empty, a registration on a platform other than "web", and an
    authentication whose session names such a platform, throw "Invalid
    origin for <platform> platform: <origin>" when [isValidOrigin] rejects
    the origin, before the primitive is consulted; the session stays and
    nothing is stored. The platform of a registration is the one of the
    call; that of an authentication is the one of the session. *)
Theorem origin_outside_the_platform_rule
    (ext : Externals) (now : Timestamp) (c : StorageClass) (sid : string)
    (cred : Credential) (o : string) (w : World) (s : Session) :
  sessionOf c now sid w = Some s ->
  Js.truthy (Some o) = true ->
  (forall uid platform,
      cd_type (s_data s) = registration ->
      cd_userId (s_data s) = Some uid ->
      platform <> "web" ->
      WebAuthnService.isValidOrigin (rp (configured ext now w)) o platform
      = false ->
      run ext now
        (WebAuthnService.verifyRegistration (instance c) sid cred uid
           (Some o) platform) w
      = (Thrown (MkError ("Invalid origin for " +:+ platform
                          +:+ " platform: " +:+ o)),
         configured ext now w))
  /\ (forall p,
        cd_type (s_data s) = authentication ->
        List.find (matches (base64url ext (c_id cred)))
          (credentialsOf c now w) = Some p ->
        Js.orStr (Some (cd_platform (s_data s))) "web" <> "web" ->
        WebAuthnService.isValidOrigin (rp (configured ext now w)) o
          (Js.orStr (Some (cd_platform (s_data s))) "web") = false ->
        run ext now
          (WebAuthnService.verifyAuthentication (instance c) sid cred
             (Some o)) w
        = (Thrown (MkError ("Invalid origin for "
                            +:+ Js.orStr (Some (cd_platform (s_data s))) "web"
                            +:+ " platform: " +:+ o)),
           configured ext now w)).
Proof.
  intros Hs Ho. split.
  - intros uid platform Ht Hu Hp Hv.
    unfold WebAuthnService.verifyRegistration.
    rewrite run_bind, run_initializeConfig. cbn [run].
    rewrite run_bind, (run_getChallenge_found ext now c sid w s Hs). cbn [run].
    rewrite !bool_decide_eq_true_2 by done. cbn [negb].
    rewrite run_bind, run_perform. cbn [handle fst snd].
    by rewrite run_bind, expectedOrigin_invalid.
  - intros p Ht Hf Hp Hv.
    destruct (configured_stores ext now w) as (Hpk & _ & _ & Hpf & _).
    assert (Hc : credentialsOf c now (configured ext now w)
                 = credentialsOf c now w).
    { destruct c; unfold credentialsOf, kv_stored, file_stored;
        by rewrite ?Hpk, ?Hpf. }
    unfold WebAuthnService.verifyAuthentication.
    rewrite run_bind, run_initializeConfig. cbn [run].
    rewrite run_bind, (run_getChallenge_found ext now c sid w s Hs). cbn [run].
    rewrite !bool_decide_eq_true_2 by done. cbn [negb].
    rewrite run_bind, run_getPasskeys. cbn [run].
    rewrite run_bind, run_perform. cbn [handle fst snd].
    rewrite run_bind, find_Some. cbn [run].
    rewrite Hc. cbn [owned Js.truthy]. unfold matches in Hf. rewrite Hf.
    rewrite run_bind, run_perform. cbn [handle fst snd].
    by rewrite run_bind, expectedOrigin_invalid.
Qed.

(** An android registration from an origin that is no app signature *)
Lemma origin_outside_the_platform_rule_witness :
  (run Demo.accepting 3000
     (WebAuthnService.verifyRegistration (instance KV) "id-1" Demo.credential
        "u1" (Some "https://evil.example") "android")
     (Demo.registrationBegun KV)).1
  = Thrown (MkError
      "Invalid origin for android platform: https://evil.example").
Proof.
  assert (Hs : sessionOf KV 3000 "id-1" (Demo.registrationBegun KV)
               = Some {| s_data :=
                           {| cd_challenge := "challenge";
                              cd_userId := Some "u1";
                              cd_username := Some "a@b.com";
                              cd_displayName := Some "A";
                              cd_platform := "android";
                              cd_type := registration |};
                         s_createdAt := 2000; s_expiresAt := 302000 |})
    by (vm_compute; reflexivity).
  assert (Hv : WebAuthnService.isValidOrigin
                 (rp (configured Demo.accepting 3000
                        (Demo.registrationBegun KV)))
                 "https://evil.example" "android" = false)
    by (vm_compute; reflexivity).
  exact (f_equal fst
           (proj1 (origin_outside_the_platform_rule Demo.accepting 3000 KV
                     "id-1" Demo.credential "https://evil.example"
                     (Demo.registrationBegun KV) _ Hs eq_refl)
              "u1" "android" eq_refl eq_refl ltac:(discriminate) Hv)).
Defined.

(** What [verifyAuthentication] comes to, read off what the store answers *)
Lemma verifyAuthentication_outcome ext now c sid cred o w :
  (run ext now (WebAuthnService.verifyAuthentication (instance c) sid cred o)
     w).1
  = match sessionOf c now sid w with
    | None => Thrown (Errors.SessionExpiredOrInvalid authentication)
    | Some s =>
        if negb (bool_decide (cd_type (s_data s) = authentication))
        then Thrown (Errors.SessionExpiredOrInvalid authentication)
        else
          match List.find (matches (base64url ext (c_id cred)))
                  (credentialsOf c now w) with
          | None => Thrown Errors.CredentialNotFound
          | Some p =>
              match (run ext now
                       (WebAuthnService.expectedOrigin
                          (rp (configured ext now w)) o
                          (Js.orStr (Some (cd_platform (s_data s))) "web"))
                       w).1 with
              | Thrown e => Thrown e
              | Returned eo =>
                  match verifyAuthenticationResponse ext
                          (authArgs (rp (configured ext now w)) s p cred eo)
                  with
                  | inl e => Thrown e
                  | inr NotVerified =>
                      Thrown Errors.AuthenticationVerificationFailed
                  | inr (Verified _) =>
                      Returned {| ar_verified := true;
                                  ar_userId := pk_userId (p_data p);
                                  ar_username := pk_username (p_data p);
                                  ar_passkeyId := p_id p;
                                  ar_passkey := p |}
                  end
              end
          end
    end.
Proof.
  destruct (sessionOf c now sid w) as [s|] eqn:Hs.
  2:{ apply invalid_authentication_session. intros s. by rewrite Hs. }
  case_bool_decide as Ht; cbn [negb].
  2:{ apply invalid_authentication_session. intros s'. rewrite Hs.
      by intros [= <-]. }
  unfold WebAuthnService.verifyAuthentication.
  rewrite run_bind, run_initializeConfig. cbn [run].
  rewrite run_bind, (run_getChallenge_found ext now c sid w s Hs). cbn [run].
  rewrite bool_decide_eq_true_2 by done. cbn [negb].
  rewrite run_bind, run_getPasskeys. cbn [run].
  rewrite run_bind, run_perform. cbn [handle fst snd].
  rewrite run_bind, find_Some. cbn [run].
  rewrite configured_credentialsOf. cbn [owned Js.truthy]. unfold matches.
  destruct (List.find _ _) as [p|] eqn:Hf; cbn [run fst]; [|done].
  rewrite run_bind, run_perform. cbn [handle fst snd].
  rewrite run_bind.
  destruct (expectedOrigin_cases (rp (configured ext now w)) o
              (Js.orStr (Some (cd_platform (s_data s))) "web"))
    as [[eo ->]|[e ->]]; cbn [run fst]; [|done].
  rewrite run_bind, run_perform. cbn [handle fst snd].
  unfold authArgs.
  destruct (verifyAuthenticationResponse ext _) as [e|[info|]]; cbn [run fst];
    [done| |done].
  destruct c; cbn.
  - by rewrite kv_get_set.
  - rewrite lookup_insert_eq. cbn.
    by destruct (sessionFile (configured ext now w) !! sid).
Qed.

Lemma configured_rp ext t t' w w' :
  rp w = rp w' -> config w = config w' -> configFile w = configFile w' ->
  rp (configured ext t w) = rp (configured ext t' w').
Proof.
  unfold configured.
  destruct w as [? ? ? ? ? ? ? [c|] [f|] ?], w' as [? ? ? ? ? ? ? [c'|] [f'|] ?];
    cbn; intros -> [=] [=]; subst;
    try (destruct (webauthn c')); try (destruct (webauthn f')); done.
Qed.

Lemma configured_config ext t w :
  rp (configured ext t (configured ext t w)) = rp (configured ext t w)
  /\ config (configured ext t w) = loaded w
  /\ configFile (configured ext t w) = configFile w.
Proof.
  unfold configured, loaded.
  destruct w as [? ? ? ? ? ? ? [c|] [f|] ?]; cbn;
    try (destruct (webauthn c) eqn:E); try (destruct (webauthn f) eqn:E);
    cbn; rewrite ?E; cbn;
    by rewrite ?orStr_orStr, ?orNum_orNum, ?orArr_orArr.
Qed.

Lemma run_expectedOrigin ext now this o platform w w' :
  (run ext now (WebAuthnService.expectedOrigin this o platform) w).1
  = (run ext now (WebAuthnService.expectedOrigin this o platform) w').1.
Proof.
  by destruct (expectedOrigin_cases this o platform) as [[eo ->]|[e ->]].
Qed.

(** The session and the world [generateAuthenticationOptions] leaves *)
Lemma generateAuthenticationOptions_world ext t0 c userId platform w :
  let sid := uuidv4 ext (S (drawn w)) in
  let w' := (run ext t0
               (WebAuthnService.generateAuthenticationOptions (instance c)
                  userId platform) w).2 in
  (forall t,
      sessionOf c t sid w'
      = if match c with
           | KV => (t <? t0 + fiveMinutes)%Z
           | JSON => (t <=? t0 + fiveMinutes)%Z
           end
        then Some {| s_data :=
                       {| cd_challenge := randomChallenge ext (drawn w);
                          cd_userId := userId;
                          cd_username := None;
                          cd_displayName := None;
                          cd_platform := platform;
                          cd_type := authentication |};
                     s_createdAt := t0;
                     s_expiresAt := t0 + fiveMinutes |}
        else None)
  /\ (forall t, credentialsOf c t w' = credentialsOf c t w)
  /\ rp w' = rp (configured ext t0 w)
  /\ config w' = loaded w
  /\ configFile w' = configFile w.
Proof.
  destruct (configured_stores ext t0 w)
    as (Hpk & _ & Hs & Hpf & _ & Hsf & Hd).
  destruct (configured_config ext t0 w) as (_ & Hcfg & Hfile).
  cbn zeta.
  unfold WebAuthnService.generateAuthenticationOptions.
  rewrite run_bind, run_initializeConfig. cbn [run].
  rewrite run_bind.
  assert (forall u,
            run ext t0
              (let* ps := getPasskeys (instance c) u in
               WebAuthnService.descriptors platform ps)
              (configured ext t0 w)
            = (Returned (WebAuthnService.descriptor platform
                           <$> owned u (credentialsOf c t0 (configured ext t0 w))),
               configured ext t0 w)) as Hdesc.
  { intros u. by rewrite run_bind, run_getPasskeys, descriptors_Some. }
  destruct (Js.truthy userId); rewrite Hdesc; cbn [run];
    (destruct c; cbn; rewrite Hd;
     [split_and!; try done;
      [intros t; unfold Kv.get, Kv.set, Kv.live; by rewrite lookup_insert_eq
      |intros t; unfold kv_stored; cbn; by rewrite Hpk]
     |split_and!; try done;
      [intros t; unfold file_session, JSONStorage.expired; cbn;
       rewrite lookup_insert_eq; cbn; rewrite Z.leb_antisym;
       by destruct (_ <? _)%Z
      |intros t; unfold file_stored; cbn; by rewrite Hpf]]).
Qed.

(** X14. Which user a login was begun for plays no part in its
    completion. Begin a login from the same state for userA or for userB
    (either may be absent): completing the session with the same response
    comes to the same end, the same error or the same authenticated user.
    When it returns, the user it reports is the owner of the stored
    credential whose id is that of the response, searched among the
    credentials of all users. *)
Theorem completion_ignores_the_user_of_the_session
    (ext : Externals) (t0 t1 : Timestamp) (c : StorageClass)
    (userA userB : option string) (platform : string) (cred : Credential)
    (o : option string) (w : World) :
  (run ext t1
     (WebAuthnService.verifyAuthentication (instance c)
        (uuidv4 ext (S (drawn w))) cred o)
     (run ext t0
        (WebAuthnService.generateAuthenticationOptions (instance c) userA
           platform) w).2).1
  = (run ext t1
       (WebAuthnService.verifyAuthentication (instance c)
          (uuidv4 ext (S (drawn w))) cred o)
       (run ext t0
          (WebAuthnService.generateAuthenticationOptions (instance c) userB
             platform) w).2).1
  /\ (forall r,
        (run ext t1
           (WebAuthnService.verifyAuthentication (instance c)
              (uuidv4 ext (S (drawn w))) cred o)
           (run ext t0
              (WebAuthnService.generateAuthenticationOptions (instance c)
                 userA platform) w).2).1
        = Returned r ->
        List.find (matches (base64url ext (c_id cred)))
          (credentialsOf c t1 w)
        = Some (ar_passkey r)
        /\ ar_userId r = pk_userId (p_data (ar_passkey r))).
Proof.
  destruct (generateAuthenticationOptions_world ext t0 c userA platform w)
    as (HsA & HcA & HrA & HgA & HfA).
  destruct (generateAuthenticationOptions_world ext t0 c userB platform w)
    as (HsB & HcB & HrB & HgB & HfB).
  rewrite !verifyAuthentication_outcome, HsA, HsB, HcA, HcB.
  rewrite (configured_rp ext t1 t1 _
             (run ext t0
                (WebAuthnService.generateAuthenticationOptions (instance c)
                   userB platform) w).2) by congruence.
  destruct (match c with KV => _ | JSON => _ end); [|done].
  cbn [s_data cd_type cd_platform]. unfold authArgs.
  cbn [s_data cd_challenge].
  rewrite (run_expectedOrigin ext t1 _ _ _ _
             (run ext t0
                (WebAuthnService.generateAuthenticationOptions (instance c)
                   userB platform) w).2).
  split; [done|]. intros r.
  rewrite bool_decide_eq_true_2 by done. cbn [negb].
  destruct (List.find _ _) as [p|]; [|done].
  destruct (run ext t1 _ _).1 as [eo|e]; [|done].
  destruct (verifyAuthenticationResponse ext _) as [e|[info|]]; try done.
  by intros [= <-].
Qed.







(** ** The backend service and the handlers *)

(** X16. The configuration file is read once. A call that finds the
    file when [this.config] is still unset keeps its contents in
    [this.config], and [getUserCredentials] answers what
    [userCredentials[userId]] finds there: the credentials configured under
    the userId, or else a property that every object inherits under that
    name, or else null. From then on [authenticateUser],
    [getAvailableUsers] and [getWebAuthnConfig] answer from that copy,
    whatever the file has become in the meantime, removed included. *)
Theorem config_is_read_once
    (ext : Externals) (now : Timestamp) (w : World) (cfg : BackendConfig)
    (userId : option string) :
  loaded w = Some cfg ->
  run ext now (BackendService.getUserCredentials userId) w
  = (Returned (Js.get (userCredentials cfg) (Js.toString userId)),
     set_config (Some cfg) w)
  /\ (forall file userId',
        run ext now (BackendService.authenticateUser userId')
          (set_configFile file (set_config (Some cfg) w))
        = ((run ext now (BackendService.authenticateUser userId')
              (set_config (Some cfg) w)).1,
           set_configFile file (set_config (Some cfg) w)))
  /\ (forall file,
        (run ext now BackendService.getAvailableUsers
           (set_configFile file (set_config (Some cfg) w))).1
        = Returned (map_to_list (userCredentials cfg)).*1
        /\ (run ext now BackendService.getWebAuthnConfig
              (set_configFile file (set_config (Some cfg) w))).1
           = Returned (webauthn cfg)).
Proof.
  intros Hl. split_and!.
  - unfold BackendService.getUserCredentials.
    rewrite !run_bind, run_ensureConfigLoaded, Hl. done.
  - intros file userId'. unfold BackendService.authenticateUser.
    rewrite !run_bind, !run_ensureConfigLoaded. cbn -[Js.get].
    destruct (Js.get (userCredentials cfg) (Js.toString userId'))
      as [creds|name|]; cbn; [| |done]; by destruct (axios_post ext _).
  - intros file. split; cbn; done.
Qed.

(** The configuration is loaded, then the file removed; "toString" is
    configured for nobody and found all the same *)
Lemma config_is_read_once_witness :
  run Demo.accepting 3000
    (BackendService.getUserCredentials (Some "bob")) Demo.empty
  = (Returned (Js.Own {| uc_username := "bob@example.com";
                         uc_password := "secret" |}),
     set_config (Some Demo.backend) Demo.empty)
  /\ run Demo.accepting 3000
       (BackendService.getUserCredentials (Some "toString")) Demo.empty
     = (Returned (Js.Inherited "toString"),
        set_config (Some Demo.backend) Demo.empty)
  /\ (run Demo.accepting 3000 BackendService.getAvailableUsers
        (set_configFile None (set_config (Some Demo.backend) Demo.empty))).1
     = Returned ["bob"].
Proof.
  pose proof (config_is_read_once Demo.accepting 3000 Demo.empty Demo.backend
                (Some "bob") eq_refl) as (H1 & _ & H3).
  pose proof (config_is_read_once Demo.accepting 3000 Demo.empty Demo.backend
                (Some "toString") eq_refl) as (H2 & _).
  split; [exact H1|]. split; [exact H2|]. exact (proj1 (H3 None)).
Defined.







(** What the handler of POST /login/complete answers once
    [verifyAuthentication] has returned *)
Lemma loginComplete_verified ext now c req w r w1 :
  run ext now
    (WebAuthnService.verifyAuthentication (instance c) (body_sessionId req)
       (body_credential req) (Routes.requestOrigin req)) w
  = (Returned r, w1) ->
  exists body w2,
    run ext now (Routes.loginComplete (instance c) req) w
    = (Returned (Json body), w2)
    /\ success body = true
    /\ user body = {| ui_userId := ar_userId r; ui_username := ar_username r;
                      ui_passkeyId := ar_passkeyId r |}
    /\ (body_skipBackendAuth req = true -> w2 = w1)
    /\ (backendAuthentication body, warning body)
       = if body_skipBackendAuth req then
           ({| ba_skipped := Some true; ba_success := None;
               ba_message := "Backend authentication skipped by request";
               ba_data := None; ba_status := None; ba_error := None;
               ba_availableUsers := None |},
            None)
         else
           match loaded w1 with
           | None =>
               ({| ba_skipped := None; ba_success := Some false;
                   ba_message := "Backend service unavailable";
                   ba_data := None; ba_status := None;
                   ba_error :=
                     Some (ErrorMessage
                             "Backend service configuration not found");
                   ba_availableUsers := None |},
                Some "Passkey authentication successful but backend service unavailable")
           | Some cfg =>
               match Js.get (userCredentials cfg) (Js.toString (ar_userId r))
               with
               | Js.Undefined =>
                   ({| ba_skipped := None; ba_success := Some false;
                       ba_message :=
                         "No backend credentials configured for user: "
                         +:+ Js.toString (ar_userId r);
                       ba_data := None; ba_status := None; ba_error := None;
                       ba_availableUsers :=
                         Some (map_to_list (userCredentials cfg)).*1 |},
                    Some "Passkey authentication successful but no backend credentials configured")
               | found =>
                   match axios_post ext
                           {| sr_url := baseUrl (backendApi cfg)
                                        +:+ endpoints_signin (backendApi cfg);
                              sr_username := Js.field found uc_username;
                              sr_password := Js.field found uc_password;
                              sr_timeout :=
                                Js.orNum (api_timeout (backendApi cfg)) 30000 |}
                   with
                   | AxiosResponse data status =>
                       ({| ba_skipped := None; ba_success := Some true;
                           ba_message := "Backend signin successful";
                           ba_data := Some data; ba_status := Some status;
                           ba_error := None; ba_availableUsers := None |},
                        None)
                   | failure =>
                       ({| ba_skipped := None; ba_success := Some false;
                           ba_message := "Backend signin failed";
                           ba_data := None; ba_status := None;
                           ba_error :=
                             Some (ErrorObject
                                     match failure with
                                     | AxiosErrorResponse data status =>
                                         {| be_message :=
                                              Js.orStr (data ≫= eb_message)
                                                "Authentication failed";
                                            be_status := status;
                                            be_data := data |}
                                     | AxiosSetupError m =>
                                         {| be_message :=
                                              Js.orStr m
                                                "Unknown error occurred";
                                            be_status := 500;
                                            be_data := None |}
                                     | _ =>
                                         {| be_message :=
                                              "Unable to connect to backend service";
                                            be_status := 503;
                                            be_data := None |}
                                     end);
                           ba_availableUsers := None |},
                        Some "Passkey authentication successful but backend signin failed")
                   end
               end
           end.
Proof.
  intros H.
  pose proof (verifyAuthentication_verified ext now c _ _ _ _ _ _ H) as Hv.
  unfold Routes.loginComplete.
  rewrite run_tryCatch, run_bind, H, Hv. cbn [run].
  rewrite run_bind, run_perform. cbn [handle fst snd].
  destruct (body_skipBackendAuth req) eqn:Hskip.
  { cbn. eexists _, _. split_and!; done. }
  rewrite run_tryCatch.
  unfold BackendService.authenticateUser.
  rewrite !run_bind, run_ensureConfigLoaded.
  destruct (loaded w1) as [cfg|] eqn:Hl.
  - rewrite run_bind.
    cbn [BackendService.thisConfig bind perform run handle fst snd config
         set_config].
    destruct (Js.get (userCredentials cfg) (Js.toString (ar_userId r)))
      as [creds|name|] eqn:Hc.
    + cbn -[Js.get map_to_list Js.orStr Js.orNum].
      destruct (axios_post ext _) as [data status|data status| |m];
        cbn -[Js.orStr Js.orNum]; eexists _, _; split_and!; done.
    + cbn -[Js.get map_to_list Js.orStr Js.orNum].
      destruct (axios_post ext _) as [data status|data status| |m];
        cbn -[Js.orStr Js.orNum]; eexists _, _; split_and!; done.
    + cbn [run]. rewrite run_tryCatch.
      unfold BackendService.getUserCredentials.
      rewrite !run_bind, run_ensureConfigLoaded, loaded_set_config.
      cbn -[Js.get map_to_list]. rewrite Hc. cbn -[Js.get map_to_list].
      eexists _, _; split_and!; done.
  - cbn [run]. rewrite run_tryCatch.
    unfold BackendService.getUserCredentials.
    rewrite !run_bind, run_ensureConfigLoaded, Hl. cbn.
    eexists _, _; split_and!; done.
Qed.

(** X19. POST /login/complete hands every error of
    [verifyAuthentication] to the error handler as it is, leaving the world
    as the failed completion left it, and never answers 401. When the
    completion returns and the request asks to skip the backend, the answer
    reports the backend authentication as skipped, without a warning, and
    the world is the one the completion left. *)
Theorem loginComplete_hands_failures_on
    (ext : Externals) (now : Timestamp) (c : StorageClass)
    (req : LoginCompleteRequest) (w : World) :
  (forall e w1,
      run ext now
        (WebAuthnService.verifyAuthentication (instance c)
           (body_sessionId req) (body_credential req)
           (Routes.requestOrigin req)) w
      = (Thrown e, w1) ->
      run ext now (Routes.loginComplete (instance c) req) w
      = (Returned (Next e), w1))
  /\ (forall m,
        (run ext now (Routes.loginComplete (instance c) req) w).1
        <> Returned (Status401 m))
  /\ (forall r w1,
        run ext now
          (WebAuthnService.verifyAuthentication (instance c)
             (body_sessionId req) (body_credential req)
             (Routes.requestOrigin req)) w
        = (Returned r, w1) ->
        body_skipBackendAuth req = true ->
        exists body,
          run ext now (Routes.loginComplete (instance c) req) w
          = (Returned (Json body), w1)
          /\ backendAuthentication body
             = {| ba_skipped := Some true; ba_success := None;
                  ba_message := "Backend authentication skipped by request";
                  ba_data := None; ba_status := None; ba_error := None;
                  ba_availableUsers := None |}
          /\ warning body = None).
Proof.
  split_and!.
  - intros e w1 H. unfold Routes.loginComplete.
    by rewrite run_tryCatch, run_bind, H.
  - intros m.
    destruct (run ext now
                (WebAuthnService.verifyAuthentication (instance c)
                   (body_sessionId req) (body_credential req)
                   (Routes.requestOrigin req)) w) as [[r|e] w1] eqn:H.
    + destruct (loginComplete_verified _ _ _ _ _ _ _ H) as (b & w2 & -> & _).
      done.
    + unfold Routes.loginComplete. by rewrite run_tryCatch, run_bind, H.
  - intros r w1 H Hskip.
    destruct (loginComplete_verified _ _ _ _ _ _ _ H)
      as (b & w2 & Hr & _ & _ & Hw & Hb).
    rewrite Hskip in Hb. injection Hb as Hb Hwarn.
    rewrite (Hw Hskip) in Hr. by exists b.
Qed.



Lemma errorHandler_stack production err :
  ea_stack (ErrorHandler.errorHandler production err)
  = if production then None else Some (err_stack err).
Proof.
  unfold ErrorHandler.errorHandler.
  destruct (String.eqb (err_name err) "ValidationError");
    destruct (String.eqb (err_name err) "UnauthorizedError");
    destruct (bool_decide (err_code err = Some "ENOENT"));
    destruct (Js.truthy (err_message err) && _)%bool;
    destruct (err_response err) as [r|]; cbn [ea_stack];
    repeat match goal with |- context [if ?b then _ else _] => destruct b end;
    done.
Qed.

Lemma errorHandler_production_500 err :
  ea_status (ErrorHandler.errorHandler true err) = 500 ->
  ea_message (ErrorHandler.errorHandler true err) = "Something went wrong!"
  /\ ea_details (ErrorHandler.errorHandler true err) = None.
Proof.
  unfold ErrorHandler.errorHandler.
  destruct (String.eqb (err_name err) "ValidationError");
    destruct (String.eqb (err_name err) "UnauthorizedError");
    destruct (bool_decide (err_code err = Some "ENOENT"));
    destruct (Js.truthy (err_message err) && _)%bool;
    destruct (err_response err) as [r|];
    cbn [andb ea_status ea_message ea_details];
    try discriminate;
    match goal with
    | |- context [(?n =? 500)%Z] =>
        destruct (Z.eqb_spec n 500) as [E|E];
        cbn [andb ea_status ea_message ea_details]; [done|by intros ?]
    end.
Qed.

Lemma errorHandler_thrown production e stack :
  JsString.includes (Js.message e) "WebAuthn" = false ->
  ErrorHandler.errorHandler production (ErrorHandler.thrown e stack)
  = {| ea_status := 500;
       ea_message :=
         if production then "Something went wrong!"
         else Js.orStr (Some (Js.message e)) "Internal Server Error";
       ea_details := None;
       ea_stack := if production then None else Some stack |}.
Proof.
  intros Hw. unfold ErrorHandler.errorHandler, ErrorHandler.thrown.
  cbn [err_name err_message err_status err_code err_details err_response
       err_stack Js.toString default id Js.orNum].
  unfold id. rewrite Hw, andb_false_r.
  rewrite bool_decide_eq_false_2 by done.
  destruct e, production; reflexivity.
Qed.

(** X20. In production the error handler sends no stack, and an answer
    with status 500 carries the message "Something went wrong!" and no
    details. An error thrown by the service whose message does not contain
    "WebAuthn" is answered with status 500: in production with that fixed
    message, otherwise with the message of the error and its stack. The
    errors the two completions throw by themselves are of that kind, so
    that an expired session, a user mismatch, an unknown passkey or a
    failed verification reach the client as a 500. *)
Theorem errorHandler_in_production (err : Err) :
  ea_stack (ErrorHandler.errorHandler true err) = None
  /\ (ea_status (ErrorHandler.errorHandler true err) = 500 ->
      ea_message (ErrorHandler.errorHandler true err) = "Something went wrong!"
      /\ ea_details (ErrorHandler.errorHandler true err) = None)
  /\ (forall production e stack,
        JsString.includes (Js.message e) "WebAuthn" = false ->
        ErrorHandler.errorHandler production (ErrorHandler.thrown e stack)
        = {| ea_status := 500;
             ea_message :=
               if production then "Something went wrong!"
               else Js.orStr (Some (Js.message e)) "Internal Server Error";
             ea_details := None;
             ea_stack := if production then None else Some stack |})
  /\ (forall e stack,
        e ∈ [Errors.SessionExpiredOrInvalid registration;
             Errors.SessionExpiredOrInvalid authentication;
             Errors.UserMismatch; Errors.RegistrationVerificationFailed;
             Errors.AuthenticationVerificationFailed;
             Errors.CredentialNotFound] ->
        ErrorHandler.errorHandler true (ErrorHandler.thrown e stack)
        = {| ea_status := 500; ea_message := "Something went wrong!";
             ea_details := None; ea_stack := None |}).
Proof.
  split_and!.
  - apply (errorHandler_stack true).
  - apply errorHandler_production_500.
  - apply errorHandler_thrown.
  - intros e stack He. apply (errorHandler_thrown true).
    apply list_elem_of_In in He. cbn in He.
    destruct He as [<-|[<-|[<-|[<-|[<-|[<-|[]]]]]]]; vm_compute; reflexivity.
Qed.
